(** * Building permits by waste collection area: the reporting pipeline

    A shallow embedding of [main.py]: the tabular aggregation of
    [summarize_units], the geoprocessing sequence of [waste_analysis] and
    the top-level run with its sanity checks, exports and exception
    handlers.  Calls into the geoprocessing engine and the data-frame
    library are embedded by their documented behaviour on tables; geometry
    is kept abstract behind an interface. *)

From Stdlib Require Import ZArith List String Ascii Bool Lia Permutation Sorted.
From Stdlib Require OrderedTypeEx.
Import ListNotations.
Open Scope string_scope.
Open Scope Z_scope.

(** ** Generic list operations used by the data-frame model *)

Module Util.

Section Assoc.
Context {V : Type}.

(** Row lookup by index label: the first row carrying the label. *)
Fixpoint loc (label : string) (df : list (string * V)) : option V :=
  match df with
  | [] => None
  | (l, v) :: tl => if String.eqb l label then Some v else loc label tl
  end.

(** [df.loc[label] = v]: overwrite the row when the label is present,
    enlarge the frame by one row at the end otherwise. *)
Fixpoint loc_set (label : string) (v : V) (df : list (string * V))
  : list (string * V) :=
  match df with
  | [] => [(label, v)]
  | (l, x) :: tl =>
      if String.eqb l label then (l, v) :: tl
      else (l, x) :: loc_set label v tl
  end.
End Assoc.

Section Sorting.
Context {K : Type}.
Variable leb : K -> K -> bool.

Fixpoint insert_sorted (k : K) (l : list K) : list K :=
  match l with
  | [] => [k]
  | h :: tl => if leb k h then k :: l else h :: insert_sorted k tl
  end.

Definition sort_values (l : list K) : list K :=
  fold_right insert_sorted [] l.

End Sorting.

Definition sumZ (l : list Z) : Z := fold_right Z.add 0 l.

End Util.
Import Util.

(** ** Tables *)

(** A row of the geodatabase table handed to [summarize_units], restricted
    to the three fields it reads.  [COLL_AREA] and [DWEL_UNITS] are
    nullable: the spatial join keeps unmatched targets and the attribute
    join leaves buildings without a use record empty. *)
Record table_row := {
  t_BL_ID : Z;
  t_COLL_AREA : option string;
  t_DWEL_UNITS : option Z
}.

(** A row of the data frame [df]. *)
Record df_row := {
  BL_ID : Z;
  COLL_AREA : string;
  DWEL_UNITS : Z
}.

(** The two aggregate columns, named as in the frame they live in: after
    either group-by they are [DWEL_UNITS] (a sum) and [BL_ID] (a count);
    the rename of [df_final] calls them "SUM of DWELLING UNITS" and
    "BL_ID COUNT". *)
Record agg_row := {
  SUM_of_DWELLING_UNITS : Z;
  BL_ID_COUNT : Z
}.

(** The key of the first grouping: (COLL_AREA, BL_ID). *)
Abbreviation group_key := (string * Z)%type.

Definition key_eqb (k1 k2 : group_key) : bool :=
  String.eqb (fst k1) (fst k2) && Z.eqb (snd k1) (snd k2).

Definition key_leb (k1 k2 : group_key) : bool :=
  match String.compare (fst k1) (fst k2) with
  | Lt => true
  | Gt => false
  | Eq => Z.leb (snd k1) (snd k2)
  end.

Definition key_eq_dec (k1 k2 : group_key) : {k1 = k2} + {k1 <> k2}.
Proof. decide equality; [apply Z.eq_dec | apply string_dec]. Defined.

(** ** summarize_units: the frames *)

(** [arcpy.da.FeatureClassToNumPyArray(..., null_value={"DWEL_UNITS": 0})]:
    a NULL dwelling-unit value becomes 0; a NULL text value arrives as the
    text "None". *)
Definition null_value (r : table_row) : df_row :=
  {| BL_ID := t_BL_ID r;
     COLL_AREA := match t_COLL_AREA r with
                  | Some a => a
                  | None => "None"
                  end;
     DWEL_UNITS := match t_DWEL_UNITS r with
                   | Some u => u
                   | None => 0
                   end |}.

Definition FeatureClassToNumPyArray (dwellings_table : list table_row)
  : list df_row :=
  map null_value dwellings_table.

(** [df.query("DWEL_UNITS <= 6")] *)
Definition query_le6 (df : list df_row) : list df_row :=
  filter (fun r => DWEL_UNITS r <=? 6) df.

Definition case_fields (r : df_row) : group_key := (COLL_AREA r, BL_ID r).

(** [.groupby(case_fields).agg({"DWEL_UNITS": "sum", "BL_ID": "count"})]:
    one row per distinct key, keys in sorted order; each row sums the
    units of its group and counts the group's rows. *)
Definition groupby_case_fields (rows : list df_row)
  : list (group_key * agg_row) :=
  map (fun k =>
         let g := filter (fun r => key_eqb (case_fields r) k) rows in
         (k, {| SUM_of_DWELLING_UNITS := sumZ (map DWEL_UNITS g);
                BL_ID_COUNT := Z.of_nat (List.length g) |}))
      (sort_values key_leb (nodup key_eq_dec (map case_fields rows))).

(** [.groupby("COLL_AREA").agg({"DWEL_UNITS": "sum", "BL_ID": "count"})]
    on the frame indexed by (COLL_AREA, BL_ID): one row per distinct
    area, sorted; the count is the number of rows of the group, one per
    (COLL_AREA, BL_ID) pair. *)
Definition groupby_coll_area (summary : list (group_key * agg_row))
  : list (string * agg_row) :=
  map (fun a =>
         let g := filter (fun r => String.eqb (fst (fst r)) a) summary in
         (a, {| SUM_of_DWELLING_UNITS :=
                  sumZ (map (fun r => SUM_of_DWELLING_UNITS (snd r)) g);
                BL_ID_COUNT := Z.of_nat (List.length g) |}))
      (sort_values String.leb
         (nodup string_dec (map (fun r => fst (fst r)) summary))).

(** [df_final.sum()] *)
Definition frame_sum (df : list (string * agg_row)) : agg_row :=
  {| SUM_of_DWELLING_UNITS :=
       sumZ (map (fun r => SUM_of_DWELLING_UNITS (snd r)) df);
     BL_ID_COUNT := sumZ (map (fun r => BL_ID_COUNT (snd r)) df) |}.

(** [df_final.rename(columns=..., index={"COLL_AREA": "COLLECTION AREA"})]:
    the [index] mapping acts on the row labels, so a row labelled
    "COLL_AREA" is relabelled and every other label is kept. *)
Definition rename_index (df : list (string * agg_row))
  : list (string * agg_row) :=
  map (fun r => (if String.eqb (fst r) "COLL_AREA"
                 then "COLLECTION AREA" else fst r, snd r)) df.

Definition df_of (dwellings_table : list table_row) : list df_row :=
  FeatureClassToNumPyArray dwellings_table.

Definition df_summary_one_of (dwellings_table : list table_row)
  : list (group_key * agg_row) :=
  groupby_case_fields (query_le6 (df_of dwellings_table)).

(** [df_final] as it stands after line 80, before the sum row. *)
Definition df_by_area_of (dwellings_table : list table_row)
  : list (string * agg_row) :=
  groupby_coll_area (df_summary_one_of dwellings_table).

(** [df_final] as returned. *)
Definition df_final_of (dwellings_table : list table_row)
  : list (string * agg_row) :=
  let df_final := df_by_area_of dwellings_table in
  rename_index (loc_set "TOTAL" (frame_sum df_final) df_final).

(** ** The report, row by row *)

(** The rows of [df] that pass the query and lie in collection area [a]. *)
Definition rows_in_area (a : string) (df : list df_row) : list df_row :=
  filter (fun r => String.eqb (COLL_AREA r) a) (query_le6 df).

(** The report line of a set of rows: their units, and how many distinct
    buildings they name; no line at all for no rows. *)
Definition area_line (rs : list df_row) : option agg_row :=
  match rs with
  | [] => None
  | _ =>
      Some {| SUM_of_DWELLING_UNITS := sumZ (map DWEL_UNITS rs);
              BL_ID_COUNT :=
                Z.of_nat (List.length (nodup Z.eq_dec (map BL_ID rs))) |}
  end.

(** ** The report, in the words of the specification

    "Group by building and area, sum unit counts, filter <= 6 units per
    building, total per area." *)




(** ** Geometry and the geodatabase *)

(** The geoprocessing engine's geometry, kept abstract.  [union] is what
    Dissolve does to the parts of one building, [intersects] is the
    INTERSECT match option of the spatial join; [within] is the relation
    "the building falls inside the area", which no call of the program
    uses and which is here to state what the program is held against. *)
Class Geometry := {
  shape : Type;
  union : shape -> shape -> shape;
  intersects : shape -> shape -> bool;
  within : shape -> shape -> bool;
  within_intersects :
    forall g a, within g a = true -> intersects g a = true
}.

Section Geodatabase.
Context {G : Geometry}.

(** SDEADM.BLD_building_polygon, and the dissolved buildings. *)
Record building_polygon := {
  bp_BL_ID : Z;
  bp_SHAPE : shape
}.

(** SDEADM.BLD_BUILDING_USE *)
Record building_use := {
  bu_BL_ID : Z;
  bu_DWEL_UNITS : option Z
}.

(** SDEADM.ADM_waste_coll_area *)
Record waste_coll_area := {
  wa_COLL_AREA : string;
  wa_SHAPE : shape
}.

(** Output of the spatial join: the target's fields, [Join_Count] and
    the joined area's fields (NULL when nothing matched). *)
Record building_w_waste_area := {
  sj_BL_ID : Z;
  sj_SHAPE : shape;
  Join_Count : Z;
  sj_COLL_AREA : option string
}.

(** The same after JoinField has added the building-use fields. *)
Record building_w_waste_area_blduse := {
  joined : building_w_waste_area;
  jf_DWEL_UNITS : option Z
}.

Inductive dataset :=
| BuildingPolygons (fs : list building_polygon)
| BuildingUse (rows : list building_use)
| WasteCollAreas (fs : list waste_coll_area)
| BuildingsWithAreas (fs : list building_w_waste_area)
| BuildingsWithAreasAndUse (fs : list building_w_waste_area_blduse).

(** *** The tools, on tables *)

(** Dissolve on BL_ID, MULTI_PART: a feature joins the output feature
    that has its identifier, or starts a new one. *)
Fixpoint dissolve_into (f : building_polygon) (acc : list building_polygon)
  : list building_polygon :=
  match acc with
  | [] => [f]
  | h :: tl =>
      if bp_BL_ID h =? bp_BL_ID f
      then {| bp_BL_ID := bp_BL_ID h;
              bp_SHAPE := union (bp_SHAPE h) (bp_SHAPE f) |} :: tl
      else h :: dissolve_into f tl
  end.

Definition Dissolve (in_features : list building_polygon)
  : list building_polygon :=
  fold_left (fun acc f => dissolve_into f acc) in_features [].

(** Spatial join, JOIN_ONE_TO_ONE / KEEP_ALL / INTERSECT: one output row
    per target; [Join_Count] counts the intersecting join features and
    the joined fields are those of the first of them. *)
Definition join_one_to_one (join_features : list waste_coll_area)
  (t : building_polygon) : building_w_waste_area :=
  let matches :=
    filter (fun a => intersects (bp_SHAPE t) (wa_SHAPE a)) join_features in
  {| sj_BL_ID := bp_BL_ID t;
     sj_SHAPE := bp_SHAPE t;
     Join_Count := Z.of_nat (List.length matches);
     sj_COLL_AREA := option_map wa_COLL_AREA (hd_error matches) |}.

Definition SpatialJoin (target_features : list building_polygon)
  (join_features : list waste_coll_area) : list building_w_waste_area :=
  map (join_one_to_one join_features) target_features.

(** JoinField on BL_ID: every input row is kept and receives the fields
    of the first record of the join table with its BL_ID, NULL if none. *)
Definition JoinField (in_data : list building_w_waste_area)
  (join_table : list building_use) : list building_w_waste_area_blduse :=
  map (fun r =>
         {| joined := r;
            jf_DWEL_UNITS :=
              match find (fun u => bu_BL_ID u =? sj_BL_ID r) join_table with
              | Some u => bu_DWEL_UNITS u
              | None => None
              end |})
      in_data.

(** The where clause "Join_Count > 0". *)
Definition Join_Count_gt_0 (r : building_w_waste_area) : bool :=
  0 <? Join_Count r.

(** The fields [summarize_units] reads from the joined features. *)
Definition dataframe_columns (r : building_w_waste_area_blduse) : table_row :=
  {| t_BL_ID := sj_BL_ID (joined r);
     t_COLL_AREA := sj_COLL_AREA (joined r);
     t_DWEL_UNITS := jf_DWEL_UNITS r |}.

(** The table [waste_analysis] leaves for [summarize_units] when every
    tool succeeds. *)
Definition waste_analysis_table (building_polygons : list building_polygon)
  (building_use_rows : list building_use)
  (collection_areas : list waste_coll_area)
  : list building_w_waste_area_blduse :=
  filter (fun r => Join_Count_gt_0 (joined r))
    (JoinField (SpatialJoin (Dissolve building_polygons) collection_areas)
               building_use_rows).

(** *** Paths and the store *)

(** The two workspaces of a run: the enterprise geodatabase named by
    [SERVER_SDE] and the file geodatabase "temp_workspace.gdb" created in
    the script directory. *)
Inductive workspace := SDE | working_gdb.

Record path := {
  path_workspace : workspace;
  path_name : list string
}.

(** [os.path.join(root, *names)] *)
Definition os_path_join (root : workspace) (names : list string) : path :=
  {| path_workspace := root; path_name := names |}.

Definition workspace_eqb (a b : workspace) : bool :=
  match a, b with
  | SDE, SDE | working_gdb, working_gdb => true
  | _, _ => false
  end.

Fixpoint names_eqb (a b : list string) : bool :=
  match a, b with
  | [], [] => true
  | x :: a', y :: b' => String.eqb x y && names_eqb a' b'
  | _, _ => false
  end.

Definition path_eqb (p q : path) : bool :=
  workspace_eqb (path_workspace p) (path_workspace q)
  && names_eqb (path_name p) (path_name q).

(** Datasets by path; the first binding of a path is the current one. *)
Definition store := list (path * dataset).

Fixpoint lookup (p : path) (s : store) : option dataset :=
  match s with
  | [] => None
  | (q, d) :: tl => if path_eqb q p then Some d else lookup p tl
  end.

Definition write (p : path) (d : dataset) (s : store) : store :=
  (p, d) :: s.

End Geodatabase.

(** ** Files, log and exceptions *)

(** What a written file holds: one of the three frames of
    [summarize_units]. *)
Inductive frame :=
| frame_final (df_final : list (string * agg_row))
| frame_summary (df_summary_one : list (group_key * agg_row))
| frame_original (df : list df_row).

(** A CSV file holds one frame, with or without its index columns; a
    workbook holds named sheets, each a frame with its index. *)
Inductive file :=
| Csv (index : bool) (content : frame)
| Xlsx (sheets : list (string * frame)).

Inductive level := DEBUG | INFO | WARNING | ERROR | CRITICAL.

Inductive exn :=
| ExecuteError (messages : string)     (* arcpy.ExecuteError *)
| RuntimeError (text : string)         (* raised by arcpy.da *)
| KeyError (key : string)
| OtherException (text : string).

(** The texts handed to the logger; the interpolated counts stay
    numbers. *)
Inductive message :=
| Text (s : string)
| Number_of_Joined_Records (n : Z)   (* "Number of Joined Records: n. (Should be >100k)" *)
| Number_of_Summary_Rows (n : Z)     (* "# of Summary Rows: n, Expected: ~130k" *)
| Number_of_Area_1_Units (n : Z)     (* "# of Area 1 Units: n, Expected: ~34k" *)
| ARCPY_ERROR (messages : string)    (* "ARCPY ERROR: ..." *)
| Exception_text (e : exn).

(** One tool invocation as the engine sees it: what it is given to read
    and where it writes. *)
Record gp_call := {
  tool : string;
  inputs : list path;
  outputs : list path
}.

(** The places where the program calls into the engine. *)
Inductive call_site :=
| at_CreateFileGDB
| at_copy_bld_poly
| at_copy_bld_use
| at_copy_waste_areas
| at_Dissolve
| at_SpatialJoin
| at_JoinField
| at_export_joined
| at_GetCount
| at_FeatureClassToNumPyArray.

Section Run.
Context {G : Geometry}.

Record world := {
  gdb : store;                        (* both workspaces *)
  files : list (string * file);       (* written files, oldest first *)
  log : list (level * message);       (* the log file, oldest first *)
  history : list gp_call              (* engine invocations, oldest first *)
}.

Inductive result (A : Type) :=
| Ok (a : A)
| Raise (e : exn).
Arguments Ok {A} a.
Arguments Raise {A} e.

(** Computations that change the world and may raise. *)
Definition M (A : Type) : Type := world -> result A * world.

Definition ret {A} (a : A) : M A := fun w => (Ok a, w).

Definition bind {A B} (m : M A) (k : A -> M B) : M B :=
  fun w => match m w with
           | (Ok a, w') => k a w'
           | (Raise e, w') => (Raise e, w')
           end.

Definition raise {A} (e : exn) : M A := fun w => (Raise e, w).

Notation "x <- m ;; k" := (bind m (fun x => k))
  (at level 61, m at next level, right associativity).
Notation "m ;;; k" := (bind m (fun _ => k))
  (at level 61, right associativity).

(** [logger.<level>(msg)]; LOGGING_LEVEL is "debug", every level is
    recorded. *)
Definition logger (lvl : level) (msg : message) : M unit :=
  fun w => (Ok tt, {| gdb := gdb w; files := files w;
                      log := log w ++ [(lvl, msg)];
                      history := history w |}).

Definition write_file (file_name : string) (f : file) : M unit :=
  fun w => (Ok tt, {| gdb := gdb w;
                      files := files w ++ [(file_name, f)];
                      log := log w; history := history w |}).

Definition read_dataset (p : path) : M (option dataset) :=
  fun w => (Ok (lookup p (gdb w)), w).

Definition write_dataset (p : path) (d : dataset) : M unit :=
  fun w => (Ok tt, {| gdb := write p d (gdb w); files := files w;
                      log := log w; history := history w |}).

(** What the engine does beyond the tables is not in the program's hands:
    [fault] says at which call sites it fails, and with what. *)
Variable fault : call_site -> option exn.

(** Every tool call is recorded, then fails if the engine does. *)
Definition invoke (site : call_site) (c : gp_call) : M unit :=
  fun w =>
    let w' := {| gdb := gdb w; files := files w; log := log w;
                 history := history w ++ [c] |} in
    match fault site with
    | Some e => (Raise e, w')
    | None => (Ok tt, w')
    end.

(** *** The tools, on the store

    Each tool reads the datasets at its input paths and writes one at its
    output path.  A tool refuses a dataset that lacks the fields it
    works on, as it refuses a path that holds nothing; a tool that fails
    writes nothing.  Writing a file or a log line does not fail. *)

Definition does_not_exist : exn :=
  ExecuteError "ERROR 000732: Input: Dataset does not exist or is not supported".

Definition field_missing : exn :=
  ExecuteError "ERROR 000728: Field does not exist within table".

(** [arcpy.CreateFileGDB_management(SCRIPT_DIR, "temp_workspace.gdb")];
    with [overwriteOutput] set, an existing geodatabase of that name is
    replaced by an empty one. *)
Definition CreateFileGDB_management : M workspace :=
  invoke at_CreateFileGDB
    {| tool := "CreateFileGDB"; inputs := [];
       outputs := [os_path_join working_gdb []] |} ;;;
  fun w =>
    (Ok working_gdb,
     {| gdb := filter (fun b => negb (workspace_eqb (path_workspace (fst b))
                                                    working_gdb)) (gdb w);
        files := files w; log := log w; history := history w |}).

Definition FeatureClassToFeatureClass_conversion (site : call_site)
  (in_features : path) (out_path : workspace) (out_name : string)
  (where_clause : option (building_w_waste_area -> bool)) : M path :=
  let out := os_path_join out_path [out_name] in
  invoke site {| tool := "FeatureClassToFeatureClass";
                 inputs := [in_features]; outputs := [out] |} ;;;
  d <- read_dataset in_features ;;
  match d, where_clause with
  | None, _ => raise does_not_exist
  | Some (BuildingUse _), _ => raise does_not_exist
  | Some d, None => write_dataset out d ;;; ret out
  | Some (BuildingsWithAreas fs), Some keep =>
      write_dataset out (BuildingsWithAreas (filter keep fs)) ;;; ret out
  | Some (BuildingsWithAreasAndUse fs), Some keep =>
      write_dataset out
        (BuildingsWithAreasAndUse (filter (fun r => keep (joined r)) fs)) ;;;
      ret out
  | Some _, Some _ => raise field_missing
  end.

Definition TableToTable_conversion (site : call_site)
  (in_rows : path) (out_path : workspace) (out_name : string) : M path :=
  let out := os_path_join out_path [out_name] in
  invoke site {| tool := "TableToTable";
                 inputs := [in_rows]; outputs := [out] |} ;;;
  d <- read_dataset in_rows ;;
  match d with
  | None => raise does_not_exist
  | Some d => write_dataset out d ;;; ret out
  end.

Definition Dissolve_management (in_features out_feature_class : path)
  : M path :=
  invoke at_Dissolve {| tool := "Dissolve"; inputs := [in_features];
                        outputs := [out_feature_class] |} ;;;
  d <- read_dataset in_features ;;
  match d with
  | None => raise does_not_exist
  | Some (BuildingPolygons fs) =>
      write_dataset out_feature_class (BuildingPolygons (Dissolve fs)) ;;;
      ret out_feature_class
  | Some _ => raise field_missing
  end.

Definition SpatialJoin_analysis
  (target_features join_features out_feature_class : path) : M path :=
  invoke at_SpatialJoin
    {| tool := "SpatialJoin"; inputs := [target_features; join_features];
       outputs := [out_feature_class] |} ;;;
  t <- read_dataset target_features ;;
  j <- read_dataset join_features ;;
  match t, j with
  | Some (BuildingPolygons ts), Some (WasteCollAreas js) =>
      write_dataset out_feature_class
        (BuildingsWithAreas (SpatialJoin ts js)) ;;;
      ret out_feature_class
  | None, _ | _, None => raise does_not_exist
  | Some _, Some _ => raise field_missing
  end.

(** JoinField changes its input in place and returns it. *)
Definition JoinField_management (in_data join_table : path) : M path :=
  invoke at_JoinField
    {| tool := "JoinField"; inputs := [in_data; join_table];
       outputs := [in_data] |} ;;;
  d <- read_dataset in_data ;;
  j <- read_dataset join_table ;;
  match d, j with
  | Some (BuildingsWithAreas fs), Some (BuildingUse us) =>
      write_dataset in_data (BuildingsWithAreasAndUse (JoinField fs us)) ;;;
      ret in_data
  | None, _ | _, None => raise does_not_exist
  | Some _, Some _ => raise field_missing
  end.

Definition row_count (d : dataset) : Z :=
  match d with
  | BuildingPolygons fs => Z.of_nat (List.length fs)
  | BuildingUse rows => Z.of_nat (List.length rows)
  | WasteCollAreas fs => Z.of_nat (List.length fs)
  | BuildingsWithAreas fs => Z.of_nat (List.length fs)
  | BuildingsWithAreasAndUse fs => Z.of_nat (List.length fs)
  end.

Definition GetCount_management (in_rows : path) : M Z :=
  invoke at_GetCount {| tool := "GetCount"; inputs := [in_rows];
                        outputs := [] |} ;;;
  d <- read_dataset in_rows ;;
  match d with
  | None => raise does_not_exist
  | Some d => ret (row_count d)
  end.

(** The read of [arcpy.da.FeatureClassToNumPyArray], before the NULL
    translation: the three requested fields of every row. *)
Definition da_read (in_table : path) : M (list table_row) :=
  invoke at_FeatureClassToNumPyArray
    {| tool := "FeatureClassToNumPyArray"; inputs := [in_table];
       outputs := [] |} ;;;
  d <- read_dataset in_table ;;
  match d with
  | Some (BuildingsWithAreasAndUse fs) => ret (map dataframe_columns fs)
  | None => raise (RuntimeError "cannot open table")
  | Some _ => raise (RuntimeError "A column was specified that does not exist.")
  end.
(** ** The program *)

(** The date stamp of the run, [%m%d%Y]. *)
Variable TODAY : string.

Definition OUTPUT_EXCEL_NAME : string :=
  "Building_Dwellings_Summarized_" ++ TODAY ++ ".xlsx".

(** [summarize_units(dwellings_table)]; what it prints is left out. *)
Definition summarize_units (dwellings_table : path)
  : M (list (string * agg_row) * list (group_key * agg_row)) :=
  np_array <- da_read dwellings_table ;;
  let df := df_of np_array in
  let df_summary_one := df_summary_one_of np_array in
  let df_final := df_final_of np_array in
  write_file "df_final.csv" (Csv false (frame_final df_final)) ;;;
  write_file "df_summary.csv" (Csv false (frame_summary df_summary_one)) ;;;
  write_file "df_original.csv" (Csv false (frame_original df)) ;;;
  ret (df_final, df_summary_one).

(** The sanity check on the joined features. *)
Definition check_joined_records (joined_records_count : Z) : M unit :=
  if joined_records_count <? 100000
  then logger WARNING (Number_of_Joined_Records joined_records_count)
  else logger DEBUG (Number_of_Joined_Records joined_records_count).

(** [waste_analysis(workspace, building_polygons, building_use,
    collection_areas)]; the ten-second sleep after the join is left out. *)
Definition waste_analysis (workspace : workspace)
  (building_polygons building_use collection_areas : path) : M path :=
  logger DEBUG (Text "\nDissolving Building Polygons...") ;;;
  dissolved_building_polygons <-
    Dissolve_management building_polygons
      (os_path_join workspace ["dissolved_building_polygons"]) ;;
  logger DEBUG
    (Text "\nSpatially Joining Building Polygons and Waste Collection Areas...") ;;;
  buildings_waste_areas <-
    SpatialJoin_analysis dissolved_building_polygons collection_areas
      (os_path_join workspace ["buildings_w_waste_areas"]) ;;
  building_polygons_w_bld_use <-
    JoinField_management buildings_waste_areas building_use ;;
  joined_feature <-
    FeatureClassToFeatureClass_conversion at_export_joined
      building_polygons_w_bld_use workspace "buildings_w_waste_areas_blduse"
      (Some Join_Count_gt_0) ;;
  joined_records_count <- GetCount_management joined_feature ;;
  check_joined_records joined_records_count ;;;
  ret joined_feature.

Definition BUILDING_POLYGONS_FEATURE : path :=
  os_path_join SDE ["SDEADM.BLD_building_polygon"].
Definition WASTE_COLLECTION_AREAS_FEATURE : path :=
  os_path_join SDE ["SDEADM.ADM_solid_waste"; "SDEADM.ADM_waste_coll_area"].
Definition BUILDING_USE_TABLE : path :=
  os_path_join SDE ["SDEADM.BLD_BUILDING_USE"].

(** Lines 181-204: the workspace and the three local copies, made before
    the [try] statement is entered. *)
Definition prepare_workspace : M (workspace * path * path * path) :=
  logger INFO (Text "Preparing Workspace...") ;;;
  working <- CreateFileGDB_management ;;
  local_bld_poly <-
    FeatureClassToFeatureClass_conversion at_copy_bld_poly
      BUILDING_POLYGONS_FEATURE working "BLD_building_polygon" None ;;
  local_bld_use <-
    TableToTable_conversion at_copy_bld_use
      BUILDING_USE_TABLE working "BLD_BUILDING_USE" ;;
  local_waste_areas <-
    FeatureClassToFeatureClass_conversion at_copy_waste_areas
      WASTE_COLLECTION_AREAS_FEATURE working "ADM_waste_coll_area" None ;;
  ret (working, local_bld_poly, local_bld_use, local_waste_areas).

(** [df_final.loc["AREA 1", "SUM of DWELLING UNITS"]] *)
Definition lookup_area_1 (df_final : list (string * agg_row)) : M Z :=
  match loc "AREA 1" df_final with
  | Some r => ret (SUM_of_DWELLING_UNITS r)
  | None => raise (KeyError "AREA 1")
  end.

Definition check_summary_rows (summary_rows : Z) : M unit :=
  if summary_rows <? 130000
  then logger WARNING (Number_of_Summary_Rows summary_rows)
  else logger DEBUG (Number_of_Summary_Rows summary_rows).

Definition check_area_1_units (area_1_units : Z) : M unit :=
  if area_1_units <? 30000
  then logger WARNING (Number_of_Area_1_Units area_1_units)
  else logger DEBUG (Number_of_Area_1_Units area_1_units).

(** Lines 207-234: everything in the [try] body before the export. *)
Definition analyse_and_check
  (locals : workspace * path * path * path)
  : M (list (string * agg_row) * list (group_key * agg_row)) :=
  let '(working, local_bld_poly, local_bld_use, local_waste_areas) :=
    locals in
  waste_building_units <-
    waste_analysis working local_bld_poly local_bld_use local_waste_areas ;;
  logger DEBUG (Text "\nSummarizing Attributes...") ;;;
  frames <- summarize_units waste_building_units ;;
  let '(df_final, df_summarized) := frames in
  let summary_rows := Z.of_nat (List.length df_summarized) in
  area_1_units <- lookup_area_1 df_final ;;
  check_summary_rows summary_rows ;;;
  check_area_1_units area_1_units ;;;
  ret (df_final, df_summarized).

(** Lines 236-244: the export stage. *)
Definition export_to_excel (df_final : list (string * agg_row))
  (df_summarized : list (group_key * agg_row)) : M unit :=
  if 0 <? Z.of_nat (List.length df_summarized)
  then
    write_file OUTPUT_EXCEL_NAME
      (Xlsx [("final", frame_final df_final);
             ("summary", frame_summary df_summarized)]) ;;;
    logger DEBUG (Text "\nExported to Excel")
  else ret tt.

Definition try_body (locals : workspace * path * path * path) : M unit :=
  frames <- analyse_and_check locals ;;
  export_to_excel (fst frames) (snd frames).

(** The two handlers: an engine error is logged with the engine's
    messages, any other exception with its own text; neither re-raises. *)
Definition try_except (body : M unit) : M unit :=
  fun w =>
    match body w with
    | (Ok u, w') => (Ok u, w')
    | (Raise (ExecuteError messages), w') =>
        logger ERROR (ARCPY_ERROR messages) w'
    | (Raise e, w') => logger ERROR (Exception_text e) w'
    end.

(** The script's [__main__] block.  [Raise] as the result is an
    exception that no handler caught. *)
Definition main : M unit :=
  locals <- prepare_workspace ;;
  try_except (try_body locals).

End Run.

Arguments Ok {A} a.
Arguments Raise {A} e.

(** ** A grid geometry for concrete runs

    A shape is the list of the grid cells it covers. *)

Definition covers (a : list Z) (c : Z) : bool := existsb (Z.eqb c) a.

Definition grid_intersects (g a : list Z) : bool := existsb (covers a) g.

Definition grid_within (g a : list Z) : bool :=
  match g with
  | [] => false
  | _ => forallb (covers a) g
  end.

Lemma grid_within_intersects (g a : list Z) :
  grid_within g a = true -> grid_intersects g a = true.
Proof.
  destruct g as [|c g]; [discriminate|].
  unfold grid_within, grid_intersects. simpl.
  intros H. apply andb_true_iff in H as [-> _]. reflexivity.
Qed.

#[export] Instance Grid : Geometry := {|
  shape := list Z;
  union := @app Z;
  intersects := grid_intersects;
  within := grid_within;
  within_intersects := grid_within_intersects
|}.

(** * Vocabulary of the statements *)

Open Scope list_scope.

Section Vocabulary.
Context {G : Geometry}.

(** The index of the first grouping: the distinct (area, building) pairs
    of the grouped rows. *)
Definition summary_keys (rows : list df_row) : list group_key :=
  sort_values key_leb (nodup key_eq_dec (map case_fields rows)).



(** [Sub xs ps]: the items [xs] meet, in order, some of the descriptions
    [ps], each description used at most once. *)
Inductive Sub {X : Type} : list X -> list (X -> Prop) -> Prop :=
| Sub_nil ps : Sub [] ps
| Sub_take x xs (p : X -> Prop) ps : p x -> Sub xs ps -> Sub (x :: xs) (p :: ps)
| Sub_skip xs p ps : Sub xs ps -> Sub xs (p :: ps).

(** What a computation may do to the world: the log lines, files and
    engine calls it adds meet the given descriptions, and no dataset of
    the enterprise geodatabase changes. *)
Record extends (L : list (level * message -> Prop))
  (F : list (string * file -> Prop)) (H : list (gp_call -> Prop))
  (w w' : world) : Prop := {
  ext_log : exists new, log w' = log w ++ new /\ Sub new L;
  ext_files : exists new, files w' = files w ++ new /\ Sub new F;
  ext_history : exists new, history w' = history w ++ new /\ Sub new H;
  ext_sde : forall p, path_workspace p = SDE ->
                      lookup p (gdb w') = lookup p (gdb w)
}.

Definition obeys {A} (m : M A) L F H (Q : A -> Prop) : Prop :=
  forall w, extends L F H w (snd (m w))
            /\ (forall a, fst (m w) = Ok a -> Q a).

(** The line of a sanity check on the count [n]: a warning below the
    threshold, a debug line from the threshold on. *)
Definition sanity_line (threshold : Z) (msg : Z -> message)
  (l : level * message) : Prop :=
  exists n, l = (if n <? threshold then WARNING else DEBUG, msg n).

(** The engine calls of [waste_analysis] in the working geodatabase. *)
Definition waste_analysis_calls
  (building_polygons building_use collection_areas : path) : list gp_call :=
  let dissolved := os_path_join working_gdb ["dissolved_building_polygons"] in
  let areas := os_path_join working_gdb ["buildings_w_waste_areas"] in
  let blduse := os_path_join working_gdb ["buildings_w_waste_areas_blduse"] in
  [ {| tool := "Dissolve"; inputs := [building_polygons];
       outputs := [dissolved] |};
    {| tool := "SpatialJoin"; inputs := [dissolved; collection_areas];
       outputs := [areas] |};
    {| tool := "JoinField"; inputs := [areas; building_use];
       outputs := [areas] |};
    {| tool := "FeatureClassToFeatureClass"; inputs := [areas];
       outputs := [blduse] |};
    {| tool := "GetCount"; inputs := [blduse]; outputs := [] |} ].

(** The files of a run, each the frame of some table. *)
Definition csv_final_file (f : string * file) : Prop :=
  exists t, f = ("df_final.csv", Csv false (frame_final (df_final_of t))).

Definition csv_summary_file (f : string * file) : Prop :=
  exists t,
    f = ("df_summary.csv", Csv false (frame_summary (df_summary_one_of t))).

Definition csv_original_file (f : string * file) : Prop :=
  exists t, f = ("df_original.csv", Csv false (frame_original (df_of t))).

(** The workbook: the two frames of one table, which has a line for
    "AREA 1" and a summary that is not empty. *)
Definition report_file (TODAY : string) (f : string * file) : Prop :=
  exists t,
    f = (OUTPUT_EXCEL_NAME TODAY,
         Xlsx [("final", frame_final (df_final_of t));
               ("summary", frame_summary (df_summary_one_of t))])
    /\ loc "AREA 1" (df_final_of t) <> None
    /\ df_summary_one_of t <> [].

Definition frames_of_a_table
  (frames : list (string * agg_row) * list (group_key * agg_row)) : Prop :=
  exists t, fst frames = df_final_of t /\ snd frames = df_summary_one_of t.

Definition numpy_call (dwellings_table : path) : gp_call :=
  {| tool := "FeatureClassToNumPyArray"; inputs := [dwellings_table];
     outputs := [] |}.

Definition staging_calls : list gp_call :=
  [ {| tool := "CreateFileGDB"; inputs := [];
       outputs := [os_path_join working_gdb []] |};
    {| tool := "FeatureClassToFeatureClass";
       inputs := [BUILDING_POLYGONS_FEATURE];
       outputs := [os_path_join working_gdb ["BLD_building_polygon"]] |};
    {| tool := "TableToTable"; inputs := [BUILDING_USE_TABLE];
       outputs := [os_path_join working_gdb ["BLD_BUILDING_USE"]] |};
    {| tool := "FeatureClassToFeatureClass";
       inputs := [WASTE_COLLECTION_AREAS_FEATURE];
       outputs := [os_path_join working_gdb ["ADM_waste_coll_area"]] |} ].

(** The local copies handed to the [try] body. *)
Definition local_copies : workspace * path * path * path :=
  (working_gdb,
   os_path_join working_gdb ["BLD_building_polygon"],
   os_path_join working_gdb ["BLD_BUILDING_USE"],
   os_path_join working_gdb ["ADM_waste_coll_area"]).

(** The frames that reach the export: those of a table with a line for
    "AREA 1". *)
Definition checked_frames
  (frames : list (string * agg_row) * list (group_key * agg_row)) : Prop :=
  exists t, fst frames = df_final_of t /\ snd frames = df_summary_one_of t
            /\ loc "AREA 1" (df_final_of t) <> None.

Definition analysis_log : list (level * message -> Prop) :=
  [ eq (DEBUG, Text "\nDissolving Building Polygons...");
    eq (DEBUG, Text "\nSpatially Joining Building Polygons and Waste Collection Areas...");
    sanity_line 100000 Number_of_Joined_Records;
    eq (DEBUG, Text "\nSummarizing Attributes...");
    sanity_line 130000 Number_of_Summary_Rows;
    sanity_line 30000 Number_of_Area_1_Units ].

Definition csv_files : list (string * file -> Prop) :=
  [csv_final_file; csv_summary_file; csv_original_file].

Definition analysis_calls : list gp_call :=
  waste_analysis_calls
    (os_path_join working_gdb ["BLD_building_polygon"])
    (os_path_join working_gdb ["BLD_BUILDING_USE"])
    (os_path_join working_gdb ["ADM_waste_coll_area"])
  ++ [numpy_call (os_path_join working_gdb ["buildings_w_waste_areas_blduse"])].

Definition try_log : list (level * message -> Prop) :=
  analysis_log ++ [eq (DEBUG, Text "\nExported to Excel")].

Definition run_files (TODAY : string) : list (string * file -> Prop) :=
  csv_files ++ [report_file TODAY].

(** What the handlers write. *)
Definition error_line (e : exn) : level * message :=
  match e with
  | ExecuteError messages => (ERROR, ARCPY_ERROR messages)
  | _ => (ERROR, Exception_text e)
  end.

Definition is_error_line (l : level * message) : Prop :=
  exists e, l = error_line e.

Definition main_log : list (level * message -> Prop) :=
  eq (INFO, Text "Preparing Workspace...") :: try_log ++ [is_error_line].

Definition main_calls : list gp_call := staging_calls ++ analysis_calls.

Definition add_line (l : level * message) (w : world) : world :=
  {| gdb := gdb w; files := files w; log := log w ++ [l];
     history := history w |}.

Definition add_file (f : string * file) (w : world) : world :=
  {| gdb := gdb w; files := files w ++ [f]; log := log w;
     history := history w |}.

Definition add_call (c : gp_call) (w : world) : world :=
  {| gdb := gdb w; files := files w; log := log w;
     history := history w ++ [c] |}.

Definition add_dataset (p : path) (d : dataset) (w : world) : world :=
  {| gdb := write p d (gdb w); files := files w; log := log w;
     history := history w |}.

Definition local_bld_poly : path :=
  os_path_join working_gdb ["BLD_building_polygon"].

Definition local_bld_use : path :=
  os_path_join working_gdb ["BLD_BUILDING_USE"].

Definition local_waste_areas : path :=
  os_path_join working_gdb ["ADM_waste_coll_area"].

Definition dissolved_building_polygons : path :=
  os_path_join working_gdb ["dissolved_building_polygons"].

Definition buildings_w_waste_areas : path :=
  os_path_join working_gdb ["buildings_w_waste_areas"].

Definition buildings_w_waste_areas_blduse : path :=
  os_path_join working_gdb ["buildings_w_waste_areas_blduse"].

(** The engine does not fail during [waste_analysis]. *)
Definition analysis_runs (fault : call_site -> option exn) : Prop :=
  fault at_Dissolve = None /\ fault at_SpatialJoin = None
  /\ fault at_JoinField = None /\ fault at_export_joined = None
  /\ fault at_GetCount = None.

(** The world [waste_analysis] leaves when the three local copies hold
    buildings [bs], use records [us] and areas [cs] and the engine does
    not fail. *)
Definition after_waste_analysis (bs : list building_polygon)
  (us : list building_use) (cs : list waste_coll_area) (w : world) : world :=
  let rows := waste_analysis_table bs us cs in
  let n := Z.of_nat (List.length rows) in
  {| gdb :=
       write buildings_w_waste_areas_blduse (BuildingsWithAreasAndUse rows)
         (write buildings_w_waste_areas
            (BuildingsWithAreasAndUse
               (JoinField (SpatialJoin (Dissolve bs) cs) us))
            (write buildings_w_waste_areas
               (BuildingsWithAreas (SpatialJoin (Dissolve bs) cs))
               (write dissolved_building_polygons
                  (BuildingPolygons (Dissolve bs)) (gdb w))));
     files := files w;
     log := log w
            ++ [(DEBUG, Text "\nDissolving Building Polygons...");
                (DEBUG, Text "\nSpatially Joining Building Polygons and Waste Collection Areas...");
                (if n <? 100000 then WARNING else DEBUG,
                 Number_of_Joined_Records n)];
     history := history w
                ++ waste_analysis_calls local_bld_poly local_bld_use
                     local_waste_areas |}.

(** The engine does not fail while the workspace is prepared. *)
Definition staging_runs (fault : call_site -> option exn) : Prop :=
  fault at_CreateFileGDB = None /\ fault at_copy_bld_poly = None
  /\ fault at_copy_bld_use = None /\ fault at_copy_waste_areas = None.

(** The enterprise geodatabase holds the three datasets. *)
Definition sources_present (bs : list building_polygon)
  (us : list building_use) (cs : list waste_coll_area) (w : world) : Prop :=
  lookup BUILDING_POLYGONS_FEATURE (gdb w) = Some (BuildingPolygons bs)
  /\ lookup BUILDING_USE_TABLE (gdb w) = Some (BuildingUse us)
  /\ lookup WASTE_COLLECTION_AREAS_FEATURE (gdb w) = Some (WasteCollAreas cs).

Definition after_staging (bs : list building_polygon)
  (us : list building_use) (cs : list waste_coll_area) (w : world) : world :=
  {| gdb :=
       write local_waste_areas (WasteCollAreas cs)
         (write local_bld_use (BuildingUse us)
            (write local_bld_poly (BuildingPolygons bs)
               (filter (fun b => negb (workspace_eqb
                                         (path_workspace (fst b))
                                         working_gdb)) (gdb w))));
     files := files w;
     log := log w ++ [(INFO, Text "Preparing Workspace...")];
     history := history w ++ staging_calls |}.

(** The table the pipeline hands to the aggregation. *)
Definition pipeline_table (bs : list building_polygon)
  (us : list building_use) (cs : list waste_coll_area) : list table_row :=
  map dataframe_columns (waste_analysis_table bs us cs).

Definition csv_exports (t : list table_row) : list (string * file) :=
  [ ("df_final.csv", Csv false (frame_final (df_final_of t)));
    ("df_summary.csv", Csv false (frame_summary (df_summary_one_of t)));
    ("df_original.csv", Csv false (frame_original (df_of t))) ].

(** The local copies hold buildings, use records and areas. *)
Definition copies_present (bs : list building_polygon)
  (us : list building_use) (cs : list waste_coll_area) (w : world) : Prop :=
  lookup local_bld_poly (gdb w) = Some (BuildingPolygons bs)
  /\ lookup local_bld_use (gdb w) = Some (BuildingUse us)
  /\ lookup local_waste_areas (gdb w) = Some (WasteCollAreas cs).

(** The world after [summarize_units] has returned in the [try] body. *)
Definition after_summarize (bs : list building_polygon)
  (us : list building_use) (cs : list waste_coll_area) (w : world) : world :=
  let w1 := after_waste_analysis bs us cs w in
  {| gdb := gdb w1;
     files := files w1 ++ csv_exports (pipeline_table bs us cs);
     log := log w1 ++ [(DEBUG, Text "\nSummarizing Attributes...")];
     history := history w1 ++ [numpy_call buildings_w_waste_areas_blduse] |}.

(** The two sanity lines of the [__main__] block. *)
Definition summary_check_lines (t : list table_row) (area_1_units : Z)
  : list (level * message) :=
  let summary_rows := Z.of_nat (List.length (df_summary_one_of t)) in
  [ (if summary_rows <? 130000 then WARNING else DEBUG,
     Number_of_Summary_Rows summary_rows);
    (if area_1_units <? 30000 then WARNING else DEBUG,
     Number_of_Area_1_Units area_1_units) ].

Definition after_checks (bs : list building_polygon)
  (us : list building_use) (cs : list waste_coll_area) (area_1_units : Z)
  (w : world) : world :=
  let w1 := after_summarize bs us cs w in
  {| gdb := gdb w1; files := files w1;
     log := log w1
            ++ summary_check_lines (pipeline_table bs us cs) area_1_units;
     history := history w1 |}.

(** The first collection area, in the order of the feature class, that a
    shape intersects. *)
Definition first_area (g : shape) (cs : list waste_coll_area)
  : option waste_coll_area :=
  find (fun a => intersects g (wa_SHAPE a)) cs.

(** The dwelling units of the first use record of a building. *)
Definition first_use (b : Z) (us : list building_use) : option Z :=
  match find (fun u => bu_BL_ID u =? b) us with
  | Some u => bu_DWEL_UNITS u
  | None => None
  end.







Definition report (TODAY : string) (df_final : list (string * agg_row))
  (df_summarized : list (group_key * agg_row)) : string * file :=
  (OUTPUT_EXCEL_NAME TODAY,
   Xlsx [("final", frame_final df_final);
         ("summary", frame_summary df_summarized)]).

(** The files a run adds once it has reached the export stage with the
    frames of table [t]. *)
Definition exported_files (TODAY : string) (t : list table_row) : list (string * file) :=
  csv_exports t
  ++ match df_summary_one_of t with
     | [] => []
     | _ => [report TODAY (df_final_of t) (df_summary_one_of t)]
     end.

(** ** Program order and the report end to end *)

(** [along ps xs]: the items [xs] meet the descriptions [ps] one by
    one. *)
Definition along {X : Type} (ps : list (X -> Prop)) (xs : list X) : Prop :=
  Forall2 (fun p x => p x) ps xs.

(** [begins ps xs]: the items meet an initial part of the descriptions. *)
Definition begins {X : Type} (ps : list (X -> Prop)) (xs : list X) : Prop :=
  exists done rest, ps = done ++ rest /\ along done xs.

(** A computation proceeds along the log lines [L] and the engine calls
    [H]: when it returns, it has added one line for each description of
    [L] and the calls [H], in that order and nothing else; when it
    raises, it has done so for an initial part of them. *)
Definition proceeds {A} (m : M A) (L : list (level * message -> Prop))
  (H : list gp_call) (Q : A -> Prop) : Prop :=
  forall w, exists lines calls,
    log (snd (m w)) = log w ++ lines
    /\ history (snd (m w)) = history w ++ calls
    /\ match fst (m w) with
       | Ok a => along L lines /\ calls = H /\ Q a
       | Raise _ => begins L lines /\ exists rest, H = calls ++ rest
       end.

(** The lines of a run in which nothing is raised. *)
Definition run_log : list (level * message -> Prop) :=
  eq (INFO, Text "Preparing Workspace...") :: try_log.

(** The dwelling units the report counts for a dissolved building: those
    of its first use record, zero when there is none or the value is
    NULL. *)
Definition units_of (us : list building_use) (d : building_polygon) : Z :=
  match first_use (bp_BL_ID d) us with
  | Some u => u
  | None => 0
  end.

(** The name of the collection area a building is assigned to. *)
Definition area_of (cs : list waste_coll_area) (d : building_polygon)
  : option string :=
  option_map wa_COLL_AREA (first_area (bp_SHAPE d) cs).

Definition assigned_to (cs : list waste_coll_area) (a : option string)
  (d : building_polygon) : bool :=
  match area_of cs d, a with
  | Some a', Some a => String.eqb a' a
  | Some _, None => true
  | None, _ => false
  end.

(** The buildings, dissolved by identifier, that have at most six units
    and are assigned to area [a], or to any area for [None]. *)
Definition counted_buildings (bs : list building_polygon)
  (us : list building_use) (cs : list waste_coll_area) (a : option string)
  : list building_polygon :=
  filter (fun d => assigned_to cs a d && (units_of us d <=? 6)) (Dissolve bs).

(** The report line of a list of buildings: their units and their
    number. *)
Definition line_of_buildings (us : list building_use)
  (ds : list building_polygon) : agg_row :=
  {| SUM_of_DWELLING_UNITS := sumZ (map (units_of us) ds);
     BL_ID_COUNT := Z.of_nat (List.length ds) |}.

End Vocabulary.

(** * Concrete inputs *)

Definition two_buildings : list table_row :=
  [ {| t_BL_ID := 1; t_COLL_AREA := Some "AREA 1"; t_DWEL_UNITS := Some 4 |};
    {| t_BL_ID := 2; t_COLL_AREA := Some "AREA 1"; t_DWEL_UNITS := Some 9 |};
    {| t_BL_ID := 3; t_COLL_AREA := Some "AREA 2"; t_DWEL_UNITS := None |} ].

(** One building of area "AREA 1" recorded in two rows of 4 units. *)
Definition one_building_two_rows : list table_row :=
  [ {| t_BL_ID := 1; t_COLL_AREA := Some "AREA 1"; t_DWEL_UNITS := Some 4 |};
    {| t_BL_ID := 1; t_COLL_AREA := Some "AREA 1"; t_DWEL_UNITS := Some 4 |} ].

(** A table with a collection area that is itself called "TOTAL". *)
Definition area_named_TOTAL : list table_row :=
  [ {| t_BL_ID := 1; t_COLL_AREA := Some "AREA 1"; t_DWEL_UNITS := Some 2 |};
    {| t_BL_ID := 2; t_COLL_AREA := Some "TOTAL"; t_DWEL_UNITS := Some 3 |};
    {| t_BL_ID := 3; t_COLL_AREA := Some "ZONE 9"; t_DWEL_UNITS := Some 1 |} ].

Definition no_fault : call_site -> option exn := fun _ => None.

(** Two areas side by side on the grid, and five building parts: two
    parts of building 1 inside "AREA 1", building 2 inside "AREA 2",
    building 3 outside both, building 4 across their border. *)
Definition grid_areas : list (@waste_coll_area Grid) :=
  [ {| wa_COLL_AREA := "AREA 1"; wa_SHAPE := [1; 2; 3] |};
    {| wa_COLL_AREA := "AREA 2"; wa_SHAPE := [4; 5; 6] |} ].

Definition grid_buildings : list (@building_polygon Grid) :=
  [ {| bp_BL_ID := 1; bp_SHAPE := [1] |};
    {| bp_BL_ID := 2; bp_SHAPE := [5] |};
    {| bp_BL_ID := 1; bp_SHAPE := [2] |};
    {| bp_BL_ID := 3; bp_SHAPE := [100] |};
    {| bp_BL_ID := 4; bp_SHAPE := [3; 4] |} ].

Definition grid_use : list building_use :=
  [ {| bu_BL_ID := 1; bu_DWEL_UNITS := Some 3 |};
    {| bu_BL_ID := 1; bu_DWEL_UNITS := Some 4 |};
    {| bu_BL_ID := 2; bu_DWEL_UNITS := None |};
    {| bu_BL_ID := 4; bu_DWEL_UNITS := Some 2 |} ].

Definition sde_with (areas : list (@waste_coll_area Grid)) : @world Grid :=
  {| gdb := [ (BUILDING_POLYGONS_FEATURE, BuildingPolygons grid_buildings);
              (BUILDING_USE_TABLE, BuildingUse grid_use);
              (WASTE_COLLECTION_AREAS_FEATURE, WasteCollAreas areas) ];
     files := []; log := []; history := [] |}.

Definition grid_world : @world Grid := sde_with grid_areas.

(** The same areas under names of their own. *)
Definition named_areas : list (@waste_coll_area Grid) :=
  [ {| wa_COLL_AREA := "NORTH"; wa_SHAPE := [1; 2; 3] |};
    {| wa_COLL_AREA := "SOUTH"; wa_SHAPE := [4; 5; 6] |} ].

(** Two areas that share the cell 5. *)
Definition overlapping_areas : list (@waste_coll_area Grid) :=
  [ {| wa_COLL_AREA := "AREA 1"; wa_SHAPE := [1; 2; 3; 4; 5] |};
    {| wa_COLL_AREA := "AREA 2"; wa_SHAPE := [5; 6] |} ].

Definition building_2 : @building_polygon Grid :=
  {| bp_BL_ID := 2; bp_SHAPE := [5] |}.

Definition building_4 : @building_polygon Grid :=
  {| bp_BL_ID := 4; bp_SHAPE := [3; 4] |}.

Definition area_2 : @waste_coll_area Grid :=
  {| wa_COLL_AREA := "AREA 2"; wa_SHAPE := [4; 5; 6] |}.



(** Three buildings, each with more than six dwelling units. *)
Definition only_large_buildings : list table_row :=
  [ {| t_BL_ID := 1; t_COLL_AREA := Some "AREA 1"; t_DWEL_UNITS := Some 7 |};
    {| t_BL_ID := 2; t_COLL_AREA := Some "AREA 1"; t_DWEL_UNITS := Some 12 |};
    {| t_BL_ID := 3; t_COLL_AREA := Some "AREA 2"; t_DWEL_UNITS := Some 40 |} ].

(** * Facts *)

(** ** Lists, sums and sorted keys *)

Module ListFacts.


Lemma sumZ_map_add {A} (f g : A -> Z) l :
  sumZ (map (fun x => f x + g x) l) = sumZ (map f l) + sumZ (map g l).
Proof. induction l; simpl; lia. Qed.

Lemma sumZ_map_ext {A} (f g : A -> Z) l :
  (forall x, In x l -> f x = g x) -> sumZ (map f l) = sumZ (map g l).
Proof.
  induction l as [|x l IH]; simpl; intros H; [reflexivity|].
  rewrite (H x), IH; auto.
Qed.

Lemma sumZ_map_zero {A} (l : list A) : sumZ (map (fun _ => 0) l) = 0.
Proof. induction l; simpl; lia. Qed.

Section Sorted.
Context {K : Type} (leb : K -> K -> bool).

Lemma insert_sorted_perm k l : Permutation (k :: l) (insert_sorted leb k l).
Proof.
  induction l as [|h tl IH]; simpl; [reflexivity|].
  destruct (leb k h); [reflexivity|].
  rewrite perm_swap. now constructor.
Qed.

Lemma sort_values_perm l : Permutation l (sort_values leb l).
Proof.
  induction l as [|h tl IH]; simpl; [constructor|].
  etransitivity; [|apply insert_sorted_perm]. now constructor.
Qed.

Lemma sort_values_In k l : In k (sort_values leb l) <-> In k l.
Proof.
  split; apply Permutation_in;
    [symmetry|]; apply sort_values_perm.
Qed.

Lemma sort_values_NoDup l : NoDup l -> NoDup (sort_values leb l).
Proof. apply Permutation_NoDup, sort_values_perm. Qed.
End Sorted.

(** A one-hot sum: a key that occurs once in [ks] selects its value once. *)
Lemma sum_indicator {K} (eqb : K -> K -> bool)
  (eqb_eq : forall a b, eqb a b = true <-> a = b) (k0 : K) (v : Z) ks :
  NoDup ks -> In k0 ks ->
  sumZ (map (fun k => if eqb k0 k then v else 0) ks) = v.
Proof.
  induction 1 as [|k ks Hk Hnd IH]; simpl; [tauto|].
  intros [->|Hin].
  - rewrite (proj2 (eqb_eq k0 k0) eq_refl).
    rewrite (sumZ_map_ext _ (fun _ => 0)), sumZ_map_zero; [lia|].
    intros x Hx. destruct (eqb k0 x) eqn:E; [|reflexivity].
    apply eqb_eq in E. subst. contradiction.
  - destruct (eqb k0 k) eqn:E.
    + apply eqb_eq in E. subst. contradiction.
    + rewrite IH by assumption. lia.
Qed.

(** Summing group by group is summing the lot, when the groups are taken
    at distinct keys that cover the rows. *)
Lemma partition_sum {R K} (key : R -> K) (eqb : K -> K -> bool)
  (eqb_eq : forall a b, eqb a b = true <-> a = b) (v : R -> Z) ks rows :
  NoDup ks -> (forall r, In r rows -> In (key r) ks) ->
  sumZ (map (fun k => sumZ (map v (filter (fun r => eqb (key r) k) rows))) ks)
  = sumZ (map v rows).
Proof.
  intros Hnd. induction rows as [|x rows IH]; intros Hcov.
  - simpl. apply sumZ_map_zero.
  - rewrite (sumZ_map_ext _
      (fun k => (if eqb (key x) k then v x else 0)
                + sumZ (map v (filter (fun r => eqb (key r) k) rows)))).
    + rewrite sumZ_map_add, IH, (sum_indicator eqb eqb_eq); simpl; auto.
      * apply Hcov. now left.
      * intros r Hr. apply Hcov. now right.
    + intros k _. simpl. destruct (eqb (key x) k); simpl; lia.
Qed.

Lemma loc_map_In {V} (f : string -> V) a ks :
  In a ks -> loc a (map (fun k => (k, f k)) ks) = Some (f a).
Proof.
  induction ks as [|k ks IH]; simpl; [tauto|].
  destruct (String.eqb k a) eqn:E.
  - apply String.eqb_eq in E. now subst.
  - intros [->|H]; [rewrite String.eqb_refl in E; discriminate | auto].
Qed.

Lemma loc_map_notin {V} (f : string -> V) a ks :
  ~ In a ks -> loc a (map (fun k => (k, f k)) ks) = None.
Proof.
  induction ks as [|k ks IH]; simpl; [reflexivity|].
  intros H. destruct (String.eqb k a) eqn:E.
  - apply String.eqb_eq in E. subst. tauto.
  - apply IH. tauto.
Qed.

Lemma loc_In_fst {V} a (df : list (string * V)) :
  loc a df <> None <-> In a (map fst df).
Proof.
  induction df as [|[l v] df IH]; simpl; [tauto|].
  destruct (String.eqb l a) eqn:E.
  - apply String.eqb_eq in E. subst. split; [auto | discriminate].
  - apply String.eqb_neq in E. rewrite IH. tauto.
Qed.

Lemma filter_map_swap {A B} (f : A -> B) (p : B -> bool) l :
  filter p (map f l) = map f (filter (fun x => p (f x)) l).
Proof.
  induction l as [|x l IH]; simpl; [reflexivity|].
  destruct (p (f x)); simpl; now rewrite IH.
Qed.

Lemma filter_filter_implied {A} (p q : A -> bool) l :
  (forall x, p x = true -> q x = true) ->
  filter p (filter q l) = filter p l.
Proof.
  intros H. induction l as [|x l IH]; simpl; [reflexivity|].
  destruct (q x) eqn:Q; simpl.
  - now rewrite IH.
  - destruct (p x) eqn:P; [rewrite (H x P) in Q; discriminate | exact IH].
Qed.

Lemma filter_nil_iff {A} (p : A -> bool) l :
  filter p l = [] <-> forall x, In x l -> p x = false.
Proof.
  induction l as [|x l IH]; simpl; [tauto|].
  destruct (p x) eqn:E; split.
  - discriminate.
  - intros H. rewrite (H x) in E by auto. discriminate.
  - intros H y [<-|Hy]; [assumption | now apply IH].
  - intros H. apply IH. auto.
Qed.

End ListFacts.
Import ListFacts.

(** ** The aggregation *)

Lemma key_eqb_eq k1 k2 : key_eqb k1 k2 = true <-> k1 = k2.
Proof.
  destruct k1 as [a1 b1], k2 as [a2 b2]. unfold key_eqb. simpl.
  rewrite andb_true_iff, String.eqb_eq, Z.eqb_eq.
  split; [intros [-> ->]; reflexivity | intros [= -> ->]; auto].
Qed.

Lemma summary_keys_In k rows :
  In k (summary_keys rows) <-> exists r, In r rows /\ case_fields r = k.
Proof.
  unfold summary_keys. rewrite sort_values_In, nodup_In, in_map_iff.
  split; intros [r H]; exists r; tauto.
Qed.

Lemma summary_keys_NoDup rows : NoDup (summary_keys rows).
Proof. apply sort_values_NoDup, NoDup_nodup. Qed.

Lemma groupby_case_fields_index rows :
  map fst (groupby_case_fields rows) = summary_keys rows.
Proof.
  unfold groupby_case_fields, summary_keys.
  rewrite map_map. simpl. apply map_id.
Qed.

(** The rows of the second group of area [a], from the first grouping. *)
Lemma groupby_case_fields_area a rows :
  filter (fun r => String.eqb (fst (fst r)) a) (groupby_case_fields rows)
  = map (fun k =>
           let g := filter (fun r => key_eqb (case_fields r) k) rows in
           (k, {| SUM_of_DWELLING_UNITS := sumZ (map DWEL_UNITS g);
                  BL_ID_COUNT := Z.of_nat (List.length g) |}))
        (filter (fun k => String.eqb (fst k) a) (summary_keys rows)).
Proof. unfold groupby_case_fields. now rewrite filter_map_swap. Qed.

Lemma area_keys_NoDup a rows :
  NoDup (filter (fun k : group_key => String.eqb (fst k) a)
                (summary_keys rows)).
Proof. apply NoDup_filter, summary_keys_NoDup. Qed.

Lemma area_keys_In a k rows :
  In k (filter (fun k : group_key => String.eqb (fst k) a)
               (summary_keys rows))
  <-> exists r, In r rows /\ COLL_AREA r = a /\ case_fields r = k.
Proof.
  rewrite filter_In, summary_keys_In, String.eqb_eq. split.
  - intros [[r [Hr <-]] Ha]. exists r. auto.
  - intros [r [Hr [Ha <-]]]. split; [exists r|]; auto.
Qed.

(** The buildings of an area in the first grouping are the distinct
    buildings of the area's rows. *)
Lemma area_keys_length a rows :
  List.length (filter (fun k : group_key => String.eqb (fst k) a)
                      (summary_keys rows))
  = List.length
      (nodup Z.eq_dec
         (map BL_ID (filter (fun r => String.eqb (COLL_AREA r) a) rows))).
Proof.
  set (ks := filter _ (summary_keys rows)).
  transitivity (List.length (map snd ks)); [symmetry; apply length_map|].
  apply Permutation_length, NoDup_Permutation.
  - apply NoDup_map_NoDup_ForallPairs; [|apply area_keys_NoDup].
    intros [a1 b1] [a2 b2] H1 H2. simpl. intros ->.
    apply filter_In in H1 as [_ H1]. apply filter_In in H2 as [_ H2].
    apply String.eqb_eq in H1, H2. simpl in *. congruence.
  - apply NoDup_nodup.
  - intros b. rewrite nodup_In, !in_map_iff. split.
    + intros [k [<- Hk]]. apply area_keys_In in Hk as [r [Hr [Ha <-]]].
      exists r. split; [reflexivity|].
      apply filter_In. split; [assumption|]. now apply String.eqb_eq.
    + intros [r [<- Hr]]. apply filter_In in Hr as [Hr Ha].
      apply String.eqb_eq in Ha.
      exists (case_fields r). split; [reflexivity|].
      apply area_keys_In. exists r. auto.
Qed.

Lemma area_index_In a rows :
  In a (sort_values String.leb
          (nodup string_dec
             (map (fun r : group_key * agg_row => fst (fst r))
                  (groupby_case_fields rows))))
  <-> exists r, In r rows /\ COLL_AREA r = a.
Proof.
  rewrite sort_values_In, nodup_In.
  replace (map (fun r : group_key * agg_row => fst (fst r))
               (groupby_case_fields rows))
    with (map fst (summary_keys rows))
    by (rewrite <- groupby_case_fields_index, map_map; reflexivity).
  rewrite in_map_iff.
  split.
  - intros [k [<- Hk]]. apply summary_keys_In in Hk as [r [Hr <-]].
    exists r. auto.
  - intros [r [Hr <-]]. exists (case_fields r). split; [reflexivity|].
    apply summary_keys_In. exists r. auto.
Qed.

(** The units of the groups of one area add up to the units of the
    area's rows. *)
Lemma area_groups_sum a rows :
  sumZ (map (fun r : group_key * agg_row => SUM_of_DWELLING_UNITS (snd r))
            (filter (fun r => String.eqb (fst (fst r)) a)
                    (groupby_case_fields rows)))
  = sumZ (map DWEL_UNITS
              (filter (fun r => String.eqb (COLL_AREA r) a) rows)).
Proof.
  rewrite groupby_case_fields_area, map_map. simpl.
  set (ks := filter _ (summary_keys rows)).
  set (rs := filter _ rows).
  rewrite <- (partition_sum case_fields key_eqb key_eqb_eq DWEL_UNITS ks rs).
  - apply sumZ_map_ext. intros k Hk. do 2 f_equal.
    subst rs. symmetry. apply filter_filter_implied.
    intros r Hr. apply key_eqb_eq in Hr. subst k.
    apply filter_In in Hk as [_ Hk]. exact Hk.
  - apply area_keys_NoDup.
  - intros r Hr. apply filter_In in Hr as [Hr Ha].
    apply String.eqb_eq in Ha. apply area_keys_In. exists r. auto.
Qed.

(** The second grouping, read at one label. *)
Lemma groupby_loc a rows :
  loc a (groupby_coll_area (groupby_case_fields rows))
  = area_line (filter (fun r => String.eqb (COLL_AREA r) a) rows).
Proof.
  unfold groupby_coll_area.
  destruct (filter (fun r => String.eqb (COLL_AREA r) a) rows)
    as [|x rs] eqn:E.
  - apply loc_map_notin. rewrite area_index_In. intros [r [Hr Ha]].
    rewrite filter_nil_iff in E. specialize (E r Hr).
    apply String.eqb_neq in E. contradiction.
  - rewrite loc_map_In.
    + unfold area_line. rewrite <- E. f_equal. f_equal.
      * apply area_groups_sum.
      * f_equal. rewrite groupby_case_fields_area, length_map.
        apply area_keys_length.
    + apply area_index_In. exists x.
      assert (H : In x (x :: rs)) by now left.
      rewrite <- E in H. apply filter_In in H as [H1 H2].
      apply String.eqb_eq in H2. auto.
Qed.

(** Line 80, read at one label: the line of the area's rows that passed
    the query. *)
Lemma df_by_area_loc t a :
  loc a (df_by_area_of t) = area_line (rows_in_area a (df_of t)).
Proof. apply groupby_loc. Qed.

(** *** One row per building and area *)

Lemma NoDup_map_inj {A B} (f : A -> B) l x y :
  NoDup (map f l) -> In x l -> In y l -> f x = f y -> x = y.
Proof.
  induction l as [|h l IH]; simpl; [tauto|].
  intros Hnd. inversion Hnd as [|? ? Hh Hl]; subst.
  intros [->|Hx] [->|Hy] E; auto.
  - exfalso. apply Hh. rewrite E. now apply in_map.
  - exfalso. apply Hh. rewrite <- E. now apply in_map.
Qed.




Lemma rows_in_area_In a df r :
  In r (rows_in_area a df) <->
  In r df /\ DWEL_UNITS r <= 6 /\ COLL_AREA r = a.
Proof.
  unfold rows_in_area, query_le6.
  rewrite !filter_In, String.eqb_eq, Z.leb_le. tauto.
Qed.



(** *** The sum row and the relabelling *)

Lemma loc_set_absent {V} label (v : V) df :
  ~ In label (map fst df) -> loc_set label v df = (df ++ [(label, v)])%list.
Proof.
  induction df as [|[l x] df IH]; simpl; [reflexivity|].
  intros H. destruct (String.eqb l label) eqn:E.
  - apply String.eqb_eq in E. tauto.
  - rewrite IH; tauto.
Qed.

Lemma loc_loc_set_other {V} a label (v : V) df :
  a <> label -> loc a (loc_set label v df) = loc a df.
Proof.
  intros Hne. induction df as [|[l x] df IH]; simpl.
  - apply String.eqb_neq in Hne. rewrite String.eqb_sym. now rewrite Hne.
  - destruct (String.eqb l label) eqn:E; simpl.
    + apply String.eqb_eq in E. subst l.
      apply String.eqb_neq in Hne. rewrite String.eqb_sym in Hne.
      now rewrite Hne.
    + now rewrite IH.
Qed.

Lemma loc_rename_index a df :
  a <> "COLL_AREA" -> a <> "COLLECTION AREA" ->
  loc a (rename_index df) = loc a df.
Proof.
  intros H1 H2. induction df as [|[l x] df IH]; simpl; [reflexivity|].
  rewrite IH. destruct (String.eqb l "COLL_AREA") eqn:E.
  - apply String.eqb_eq in E. subst l.
    apply String.eqb_neq in H1, H2.
    rewrite String.eqb_sym in H1, H2. now rewrite H1, H2.
  - reflexivity.
Qed.

Lemma frame_sum_rename_index df : frame_sum (rename_index df) = frame_sum df.
Proof.
  unfold frame_sum, rename_index. now rewrite !map_map.
Qed.

Lemma rename_index_app df1 df2 :
  rename_index (df1 ++ df2)%list
  = (rename_index df1 ++ rename_index df2)%list.
Proof. apply map_app. Qed.

(** Where no row that passed the query lies in an area called "TOTAL",
    the sum row is appended after the area rows and holds their column
    sums. *)
Lemma total_row_appended t :
  rows_in_area "TOTAL" (df_of t) = [] ->
  df_final_of t
  = (rename_index (df_by_area_of t)
     ++ [("TOTAL", frame_sum (rename_index (df_by_area_of t)))])%list.
Proof.
  intros H. unfold df_final_of.
  rewrite loc_set_absent.
  - rewrite rename_index_app, frame_sum_rename_index. reflexivity.
  - rewrite <- loc_In_fst, df_by_area_loc, H. simpl. tauto.
Qed.

Lemma df_final_loc t a :
  a <> "TOTAL" -> a <> "COLL_AREA" -> a <> "COLLECTION AREA" ->
  loc a (df_final_of t) = loc a (df_by_area_of t).
Proof.
  intros H1 H2 H3. unfold df_final_of.
  rewrite loc_rename_index by assumption.
  now apply loc_loc_set_other.
Qed.

(** ** Claims on the aggregation *)




(** C2, at the input where the code departs from it.  The sum row is
    written over the line of the area called "TOTAL": no row is added,
    the last row of the report is the line of "ZONE 9", and the three
    units of the area "TOTAL" appear in no line of their own. *)
Theorem total_row_overwrites_area_named_TOTAL :
  df_by_area_of area_named_TOTAL
  = [("AREA 1", {| SUM_of_DWELLING_UNITS := 2; BL_ID_COUNT := 1 |});
     ("TOTAL", {| SUM_of_DWELLING_UNITS := 3; BL_ID_COUNT := 1 |});
     ("ZONE 9", {| SUM_of_DWELLING_UNITS := 1; BL_ID_COUNT := 1 |})]
  /\ df_final_of area_named_TOTAL
     = [("AREA 1", {| SUM_of_DWELLING_UNITS := 2; BL_ID_COUNT := 1 |});
        ("TOTAL", {| SUM_of_DWELLING_UNITS := 6; BL_ID_COUNT := 3 |});
        ("ZONE 9", {| SUM_of_DWELLING_UNITS := 1; BL_ID_COUNT := 1 |})]
  /\ last (map fst (df_final_of area_named_TOTAL)) "" = "ZONE 9".
Proof. repeat split. Qed.

(** *** Missing unit values *)






Arguments null_value : simpl never.

Lemma summary_row_present t r :
  In r (query_le6 (df_of t)) ->
  exists line, In (case_fields r, line) (df_summary_one_of t).
Proof.
  intros Hr. unfold df_summary_one_of, groupby_case_fields.
  eexists. apply in_map_iff. exists (case_fields r). split; [reflexivity|].
  apply summary_keys_In. exists r. auto.
Qed.

(** The sum row's units are the units of all rows that passed the query. *)
Lemma frame_sum_units t :
  SUM_of_DWELLING_UNITS (frame_sum (df_by_area_of t))
  = sumZ (map DWEL_UNITS (query_le6 (df_of t))).
Proof.
  unfold frame_sum, df_by_area_of, df_summary_one_of, groupby_coll_area.
  simpl. rewrite map_map. simpl.
  set (rows := query_le6 (df_of t)).
  rewrite (sumZ_map_ext _
    (fun a => sumZ (map DWEL_UNITS
                        (filter (fun r => String.eqb (COLL_AREA r) a) rows))))
    by (intros a _; apply area_groups_sum).
  apply (partition_sum COLL_AREA String.eqb String.eqb_eq).
  - apply sort_values_NoDup, NoDup_nodup.
  - intros r Hr. apply area_index_In. exists r. auto.
Qed.


(** ** Reasoning about runs *)

Open Scope list_scope.

Lemma Sub_app_r {X} (xs : list X) ps qs : Sub xs ps -> Sub xs (ps ++ qs).
Proof. induction 1; simpl; constructor; auto. Qed.

Lemma Sub_app {X} (xs ys : list X) ps qs :
  Sub xs ps -> Sub ys qs -> Sub (xs ++ ys) (ps ++ qs).
Proof.
  induction 1 as [ps| | ]; intros Hy; simpl.
  - induction ps; simpl; [assumption | now apply Sub_skip].
  - apply Sub_take; auto.
  - apply Sub_skip; auto.
Qed.

Lemma Sub_Forall {X} (Q : X -> Prop) (xs : list X) ps :
  Sub xs ps -> Forall (fun p : X -> Prop => forall x, p x -> Q x) ps ->
  Forall Q xs.
Proof.
  induction 1; intros Hps; [constructor | |].
  - inversion Hps; subst. constructor; auto.
  - inversion Hps; subst. auto.
Qed.

Lemma Sub_empty {X} (xs : list X) : Sub xs [] -> xs = [].
Proof. inversion 1; reflexivity. Qed.


(** Items that meet exact descriptions come from the described list. *)
Lemma Sub_eq_incl {X} (xs cs : list X) :
  Sub xs (map eq cs) -> incl xs cs.
Proof.
  intros H. remember (map eq cs) as ps eqn:E. revert cs E.
  induction H as [ps|x xs p ps Hp Hs IH|xs p ps Hs IH]; intros cs E.
  - intros y [].
  - destruct cs as [|c cs]; [discriminate|]. injection E as -> ->.
    subst x. intros y [<-|Hy]; [now left | right; now apply (IH cs)].
  - destruct cs as [|c cs]; [discriminate|]. injection E as -> ->.
    intros y Hy. right. now apply (IH cs).
Qed.


Section RunLogic.
Context {G : Geometry}.
Variable fault : call_site -> option exn.

Lemma extends_refl L F H w : extends L F H w w.
Proof.
  split; try (exists []; rewrite app_nil_r; split; [reflexivity|constructor]).
  reflexivity.
Qed.

Lemma extends_trans L1 F1 H1 L2 F2 H2 w1 w2 w3 :
  extends L1 F1 H1 w1 w2 -> extends L2 F2 H2 w2 w3 ->
  extends (L1 ++ L2) (F1 ++ F2) (H1 ++ H2) w1 w3.
Proof.
  intros [[l1 [El1 Sl1]] [f1 [Ef1 Sf1]] [h1 [Eh1 Sh1]] P1]
         [[l2 [El2 Sl2]] [f2 [Ef2 Sf2]] [h2 [Eh2 Sh2]] P2].
  split.
  - exists (l1 ++ l2). rewrite El2, El1, app_assoc.
    split; [reflexivity | now apply Sub_app].
  - exists (f1 ++ f2). rewrite Ef2, Ef1, app_assoc.
    split; [reflexivity | now apply Sub_app].
  - exists (h1 ++ h2). rewrite Eh2, Eh1, app_assoc.
    split; [reflexivity | now apply Sub_app].
  - intros p Hp. rewrite P2, P1; auto.
Qed.

Lemma extends_app_r L1 F1 H1 L2 F2 H2 w1 w2 :
  extends L1 F1 H1 w1 w2 -> extends (L1 ++ L2) (F1 ++ F2) (H1 ++ H2) w1 w2.
Proof.
  intros E. apply (extends_trans _ _ _ _ _ _ w1 w2 w2 E), extends_refl.
Qed.

Lemma obeys_ret {A} (a : A) (Q : A -> Prop) L F H :
  Q a -> obeys (ret a) L F H Q.
Proof.
  intros Ha w. split; [apply extends_refl|].
  simpl. intros b [= <-]. exact Ha.
Qed.

Lemma obeys_raise {A} (e : exn) (Q : A -> Prop) L F H :
  obeys (raise e) L F H Q.
Proof. intros w. split; [apply extends_refl | discriminate]. Qed.

Lemma obeys_bind {A B} (m : M A) (k : A -> M B) L1 F1 H1 Q1 L2 F2 H2 L F H Q :
  obeys m L1 F1 H1 Q1 ->
  L = L1 ++ L2 -> F = F1 ++ F2 -> H = H1 ++ H2 ->
  (forall a, Q1 a -> obeys (k a) L2 F2 H2 Q) ->
  obeys (bind m k) L F H Q.
Proof.
  intros Hm -> -> -> Hk w. unfold bind.
  destruct (Hm w) as [E1 Q1a]. destruct (m w) as [[a|e] w1]; simpl in *.
  - destruct (Hk a (Q1a a eq_refl) w1) as [E2 Qb].
    split; [exact (extends_trans _ _ _ _ _ _ _ _ _ E1 E2) | exact Qb].
  - split; [now apply extends_app_r | discriminate].
Qed.

Lemma obeys_logger lvl msg :
  obeys (logger lvl msg) [eq (lvl, msg)] [] [] (fun _ => True).
Proof.
  intros w. split; [|trivial]. split; simpl.
  - exists [(lvl, msg)]. split; [reflexivity|]. repeat constructor.
  - exists []. rewrite app_nil_r. split; [reflexivity|constructor].
  - exists []. rewrite app_nil_r. split; [reflexivity|constructor].
  - reflexivity.
Qed.

Lemma obeys_write_file name f :
  obeys (write_file name f) [] [eq (name, f)] [] (fun _ => True).
Proof.
  intros w. split; [|trivial]. split; simpl.
  - exists []. rewrite app_nil_r. split; [reflexivity|constructor].
  - exists [(name, f)]. split; [reflexivity|]. repeat constructor.
  - exists []. rewrite app_nil_r. split; [reflexivity|constructor].
  - reflexivity.
Qed.

Lemma obeys_invoke site c :
  obeys (invoke fault site c) [] [] [eq c] (fun _ => True).
Proof.
  intros w. split; [|trivial]. unfold invoke.
  destruct (fault site); split; simpl;
    try (exists []; rewrite app_nil_r; split; [reflexivity|constructor]);
    try reflexivity;
    (exists [c]; split; [reflexivity|]; repeat constructor).
Qed.

Lemma obeys_read_dataset p :
  obeys (read_dataset p) [] [] [] (fun _ => True).
Proof. intros w. split; [apply extends_refl | trivial]. Qed.

Lemma lookup_write_other p q d s :
  path_workspace p = SDE -> path_workspace q = working_gdb ->
  lookup p (write q d s) = lookup p s.
Proof.
  intros Hp Hq. unfold write. simpl. unfold path_eqb.
  rewrite Hp, Hq. reflexivity.
Qed.

Lemma obeys_write_dataset p d :
  path_workspace p = working_gdb ->
  obeys (write_dataset p d) [] [] [] (fun _ => True).
Proof.
  intros Hp w. split; [|trivial]. split; simpl;
    try (exists []; rewrite app_nil_r; split; [reflexivity|constructor]).
  intros q Hq. now apply lookup_write_other.
Qed.

Lemma lookup_filter_sde (p : path) (s : store) :
  path_workspace p = SDE ->
  lookup p (filter (fun b => negb (workspace_eqb (path_workspace (fst b))
                                                 working_gdb)) s)
  = lookup p s.
Proof.
  intros Hp. induction s as [|[q d] s IH]; simpl; [reflexivity|].
  destruct q as [qw qn], p as [pw pn]. simpl in *. subst pw.
  destruct qw; simpl; [now rewrite IH | exact IH].
Qed.

Lemma obeys_consequence {A} (m : M A) L F H (Q Q' : A -> Prop) :
  obeys m L F H Q -> (forall a, Q a -> Q' a) -> obeys m L F H Q'.
Proof.
  intros Hm HQ w. destruct (Hm w) as [E Ha]. split; auto.
Qed.

End RunLogic.

Ltac obeys_prim :=
  first [ apply obeys_logger | apply obeys_write_file | apply obeys_invoke
        | apply obeys_read_dataset
        | apply obeys_write_dataset; (reflexivity || assumption) ].

Ltac obeys_bind_prim :=
  eapply obeys_bind;
  [ obeys_prim | reflexivity | reflexivity | reflexivity
  | let v := fresh "v" in intros v _ ].

Ltac obeys_tail :=
  repeat first [ apply obeys_raise
               | apply obeys_ret; reflexivity
               | obeys_bind_prim ].

Ltac obeys_bind_with lem :=
  eapply obeys_bind;
  [ apply lem; try reflexivity | reflexivity | reflexivity | reflexivity
  | intros ? <- ].

Ltac obeys_bind_any lem :=
  eapply obeys_bind;
  [ apply lem; try reflexivity | reflexivity | reflexivity | reflexivity
  | intros ? ? ].

Section ProgramLogic.
Context {G : Geometry}.
Variable fault : call_site -> option exn.

(** *** The tools *)

Lemma obeys_CreateFileGDB_management :
  obeys (CreateFileGDB_management fault) [] []
    [eq {| tool := "CreateFileGDB"; inputs := [];
           outputs := [os_path_join working_gdb []] |}]
    (eq working_gdb).
Proof.
  unfold CreateFileGDB_management. obeys_bind_prim.
  intros w. split; [|simpl; now intros a [= <-]].
  split; simpl;
    try (exists []; rewrite app_nil_r; split; [reflexivity|constructor]).
  intros p Hp. now apply lookup_filter_sde.
Qed.

Lemma obeys_FeatureClassToFeatureClass_conversion site in_features
  out_name where_clause :
  obeys (FeatureClassToFeatureClass_conversion fault site in_features
           working_gdb out_name where_clause) [] []
    [eq {| tool := "FeatureClassToFeatureClass"; inputs := [in_features];
           outputs := [os_path_join working_gdb [out_name]] |}]
    (eq (os_path_join working_gdb [out_name])).
Proof.
  unfold FeatureClassToFeatureClass_conversion. do 2 obeys_bind_prim.
  destruct v0 as [[]|], where_clause; obeys_tail.
Qed.

Lemma obeys_TableToTable_conversion site in_rows out_name :
  obeys (TableToTable_conversion fault site in_rows working_gdb out_name)
    [] []
    [eq {| tool := "TableToTable"; inputs := [in_rows];
           outputs := [os_path_join working_gdb [out_name]] |}]
    (eq (os_path_join working_gdb [out_name])).
Proof.
  unfold TableToTable_conversion. do 2 obeys_bind_prim.
  destruct v0; obeys_tail.
Qed.

Lemma obeys_Dissolve_management in_features out_feature_class :
  path_workspace out_feature_class = working_gdb ->
  obeys (Dissolve_management fault in_features out_feature_class) [] []
    [eq {| tool := "Dissolve"; inputs := [in_features];
           outputs := [out_feature_class] |}]
    (eq out_feature_class).
Proof.
  intros Hout. unfold Dissolve_management. do 2 obeys_bind_prim.
  destruct v0 as [[]|]; obeys_tail.
Qed.

Lemma obeys_SpatialJoin_analysis target_features join_features
  out_feature_class :
  path_workspace out_feature_class = working_gdb ->
  obeys (SpatialJoin_analysis fault target_features join_features
           out_feature_class) [] []
    [eq {| tool := "SpatialJoin";
           inputs := [target_features; join_features];
           outputs := [out_feature_class] |}]
    (eq out_feature_class).
Proof.
  intros Hout. unfold SpatialJoin_analysis. do 3 obeys_bind_prim.
  destruct v0 as [[]|], v1 as [[]|]; obeys_tail.
Qed.

Lemma obeys_JoinField_management in_data join_table :
  path_workspace in_data = working_gdb ->
  obeys (JoinField_management fault in_data join_table) [] []
    [eq {| tool := "JoinField"; inputs := [in_data; join_table];
           outputs := [in_data] |}]
    (eq in_data).
Proof.
  intros Hin. unfold JoinField_management. do 3 obeys_bind_prim.
  destruct v0 as [[]|], v1 as [[]|]; obeys_tail.
Qed.

Lemma obeys_GetCount_management in_rows :
  obeys (GetCount_management fault in_rows) [] []
    [eq {| tool := "GetCount"; inputs := [in_rows]; outputs := [] |}]
    (fun _ => True).
Proof.
  unfold GetCount_management. do 2 obeys_bind_prim.
  destruct v0; first [apply obeys_raise | now apply obeys_ret].
Qed.

Lemma obeys_da_read in_table :
  obeys (da_read fault in_table) [] []
    [eq {| tool := "FeatureClassToNumPyArray"; inputs := [in_table];
           outputs := [] |}]
    (fun _ => True).
Proof.
  unfold da_read. do 2 obeys_bind_prim.
  destruct v0 as [[]|]; first [apply obeys_raise | now apply obeys_ret].
Qed.

(** *** The program *)

Variable TODAY : string.

Lemma obeys_sanity_check threshold (msg : Z -> message) n :
  obeys (if n <? threshold then logger WARNING (msg n)
         else logger DEBUG (msg n))
    [sanity_line threshold msg] [] [] (fun _ => True).
Proof.
  intros w. split; [|trivial].
  assert (E : (if n <? threshold then logger WARNING (msg n)
               else logger DEBUG (msg n)) w
              = logger (if n <? threshold then WARNING else DEBUG) (msg n) w)
    by (destruct (n <? threshold); reflexivity).
  rewrite E. split; simpl;
    try (exists []; rewrite app_nil_r; split; [reflexivity|constructor]);
    try reflexivity.
  eexists. split; [reflexivity|].
  apply Sub_take; [now exists n | constructor].
Qed.

Lemma obeys_waste_analysis building_polygons building_use collection_areas :
  obeys (waste_analysis fault working_gdb building_polygons building_use
           collection_areas)
    [eq (DEBUG, Text "\nDissolving Building Polygons...");
     eq (DEBUG, Text "\nSpatially Joining Building Polygons and Waste Collection Areas...");
     sanity_line 100000 Number_of_Joined_Records]
    []
    (map eq (waste_analysis_calls building_polygons building_use
               collection_areas))
    (eq (os_path_join working_gdb ["buildings_w_waste_areas_blduse"])).
Proof.
  unfold waste_analysis, waste_analysis_calls. cbn [map].
  obeys_bind_prim.
  obeys_bind_with obeys_Dissolve_management.
  obeys_bind_prim.
  obeys_bind_with obeys_SpatialJoin_analysis.
  obeys_bind_with obeys_JoinField_management.
  obeys_bind_with obeys_FeatureClassToFeatureClass_conversion.
  obeys_bind_any obeys_GetCount_management.
  obeys_bind_any (obeys_sanity_check 100000 Number_of_Joined_Records).
  now apply obeys_ret.
Qed.

Lemma obeys_logger_as (P : level * message -> Prop) lvl msg :
  P (lvl, msg) -> obeys (logger lvl msg) [P] [] [] (fun _ => True).
Proof.
  intros HP w. split; [|trivial]. split; simpl;
    try (exists []; rewrite app_nil_r; split; [reflexivity|constructor]);
    try reflexivity.
  exists [(lvl, msg)]. split; [reflexivity|]. now repeat constructor.
Qed.

Lemma obeys_write_file_as (P : string * file -> Prop) name f :
  P (name, f) -> obeys (write_file name f) [] [P] [] (fun _ => True).
Proof.
  intros HP w. split; [|trivial]. split; simpl;
    try (exists []; rewrite app_nil_r; split; [reflexivity|constructor]);
    try reflexivity.
  exists [(name, f)]. split; [reflexivity|]. now repeat constructor.
Qed.

Lemma obeys_summarize_units dwellings_table :
  obeys (summarize_units fault dwellings_table) []
    [csv_final_file; csv_summary_file; csv_original_file]
    [eq (numpy_call dwellings_table)]
    frames_of_a_table.
Proof.
  unfold summarize_units. obeys_bind_any obeys_da_read.
  eapply obeys_bind;
    [ apply (obeys_write_file_as csv_final_file); now exists a
    | reflexivity | reflexivity | reflexivity | intros _ _ ].
  eapply obeys_bind;
    [ apply (obeys_write_file_as csv_summary_file); now exists a
    | reflexivity | reflexivity | reflexivity | intros _ _ ].
  eapply obeys_bind;
    [ apply (obeys_write_file_as csv_original_file); now exists a
    | reflexivity | reflexivity | reflexivity | intros _ _ ].
  apply obeys_ret. exists a. auto.
Qed.

Lemma obeys_lookup_area_1 df_final :
  obeys (lookup_area_1 df_final) [] [] []
    (fun _ => loc "AREA 1" df_final <> None).
Proof.
  unfold lookup_area_1. destruct (loc "AREA 1" df_final) eqn:E.
  - apply obeys_ret. discriminate.
  - apply obeys_raise.
Qed.

Lemma obeys_prepare_workspace :
  obeys (prepare_workspace fault)
    [eq (INFO, Text "Preparing Workspace...")] []
    (map eq staging_calls) (eq local_copies).
Proof.
  unfold prepare_workspace, staging_calls, local_copies. cbn [map].
  obeys_bind_prim.
  obeys_bind_with obeys_CreateFileGDB_management.
  obeys_bind_with obeys_FeatureClassToFeatureClass_conversion.
  obeys_bind_with obeys_TableToTable_conversion.
  obeys_bind_with obeys_FeatureClassToFeatureClass_conversion.
  now apply obeys_ret.
Qed.

Lemma obeys_analyse_and_check :
  obeys (analyse_and_check fault local_copies)
    analysis_log csv_files (map eq analysis_calls) checked_frames.
Proof.
  unfold analyse_and_check, local_copies, analysis_log, csv_files,
    analysis_calls, waste_analysis_calls.
  cbn [map app].
  obeys_bind_with obeys_waste_analysis.
  obeys_bind_prim.
  obeys_bind_any obeys_summarize_units.
  destruct a as [df_final df_summarized].
  destruct H as [t [Hf Hs]]. simpl in Hf, Hs. subst.
  obeys_bind_any obeys_lookup_area_1.
  obeys_bind_any (obeys_sanity_check 130000 Number_of_Summary_Rows).
  obeys_bind_any (obeys_sanity_check 30000 Number_of_Area_1_Units).
  apply obeys_ret. exists t. auto.
Qed.

Lemma obeys_export_to_excel frames :
  checked_frames frames ->
  obeys (export_to_excel TODAY (fst frames) (snd frames))
    [eq (DEBUG, Text "\nExported to Excel")] [report_file TODAY] []
    (fun _ => True).
Proof.
  intros [t [Hf [Hs Ha]]]. unfold export_to_excel.
  destruct (0 <? Z.of_nat (List.length (snd frames))) eqn:E.
  - eapply obeys_bind;
      [ apply (obeys_write_file_as (report_file TODAY))
      | reflexivity | reflexivity | reflexivity
      | intros _ _; apply obeys_logger ].
    exists t. rewrite Hf, Hs. repeat split; auto.
    rewrite <- Hs. intros Hnil. rewrite Hnil in E. discriminate.
  - now apply obeys_ret.
Qed.

Lemma obeys_try_body :
  obeys (try_body fault TODAY local_copies)
    try_log (run_files TODAY) (map eq analysis_calls) (fun _ => True).
Proof.
  unfold try_body.
  eapply obeys_bind;
    [ apply obeys_analyse_and_check | reflexivity | reflexivity
    | symmetry; apply app_nil_r
    | intros frames Hfr; now apply obeys_export_to_excel ].
Qed.

Lemma try_except_Ok (body : M unit) w u w' :
  body w = (Ok u, w') -> try_except body w = (Ok u, w').
Proof. unfold try_except. now intros ->. Qed.

Lemma try_except_Raise (body : M unit) w e w' :
  body w = (Raise e, w') ->
  try_except body w = logger ERROR (snd (error_line e)) w'.
Proof. unfold try_except. intros ->. destruct e; reflexivity. Qed.


Lemma obeys_try_except (body : M unit) L F H :
  obeys body L F H (fun _ => True) ->
  obeys (try_except body) (L ++ [is_error_line]) F H (fun _ => True).
Proof.
  intros Hb w. split; [|trivial].
  destruct (Hb w) as [E _].
  destruct (body w) as [[u|e] w'] eqn:Eb; simpl in E.
  - rewrite (try_except_Ok _ _ _ _ Eb). simpl.
    rewrite <- (app_nil_r F), <- (app_nil_r H). now apply extends_app_r.
  - rewrite (try_except_Raise _ _ _ _ Eb).
    rewrite <- (app_nil_r F), <- (app_nil_r H).
    apply (extends_trans _ _ _ _ _ _ _ _ _ E).
    apply (obeys_logger_as is_error_line).
    exists e. destruct e; reflexivity.
Qed.

(** Every run, whatever the engine and the data do: its log lines, its
    files and its engine calls are among the described ones, in that
    order, each at most once; the enterprise geodatabase is as before. *)
Lemma obeys_main :
  obeys (main fault TODAY) main_log (run_files TODAY) (map eq main_calls)
    (fun _ => True).
Proof.
  unfold main, main_log, main_calls. rewrite map_app.
  eapply obeys_bind;
    [ apply obeys_prepare_workspace | reflexivity | reflexivity | reflexivity
    | intros ? <- ].
  apply obeys_try_except, obeys_try_body.
Qed.

End ProgramLogic.

(** ** Runs step by step *)

Section Steps.
Context {G : Geometry}.
Variable fault : call_site -> option exn.

Lemma world_eq (w1 w2 : world) :
  gdb w1 = gdb w2 -> files w1 = files w2 -> log w1 = log w2 ->
  history w1 = history w2 -> w1 = w2.
Proof. destruct w1, w2. simpl. now intros -> -> -> ->. Qed.

Lemma bind_Ok {A B} (m : M A) (k : A -> M B) w a w1 :
  m w = (Ok a, w1) -> bind m k w = k a w1.
Proof. unfold bind. now intros ->. Qed.

Lemma bind_Raise {A B} (m : M A) (k : A -> M B) w e w1 :
  m w = (Raise e, w1) -> bind m k w = (Raise e, w1).
Proof. unfold bind. now intros ->. Qed.

Lemma bind_Ok_inv {A B} (m : M A) (k : A -> M B) w b w' :
  bind m k w = (Ok b, w') ->
  exists a w1, m w = (Ok a, w1) /\ k a w1 = (Ok b, w').
Proof.
  unfold bind. destruct (m w) as [[a|e] w1]; [|discriminate].
  intros H. now exists a, w1.
Qed.


Lemma bind_logger {B} lvl msg (k : unit -> M B) w :
  bind (logger lvl msg) k w = k tt (add_line (lvl, msg) w).
Proof. reflexivity. Qed.

Lemma bind_write_file {B} name f (k : unit -> M B) w :
  bind (write_file name f) k w = k tt (add_file (name, f) w).
Proof. reflexivity. Qed.

Lemma invoke_run site c w :
  fault site = None -> invoke fault site c w = (Ok tt, add_call c w).
Proof. unfold invoke. now intros ->. Qed.

Lemma invoke_fault site c w e :
  fault site = Some e -> invoke fault site c w = (Raise e, add_call c w).
Proof. unfold invoke. now intros ->. Qed.

Lemma copy_features_run site in_features out_name d w :
  fault site = None ->
  lookup in_features (gdb w) = Some d ->
  (forall rows, d <> BuildingUse rows) ->
  FeatureClassToFeatureClass_conversion fault site in_features working_gdb
    out_name None w
  = (Ok (os_path_join working_gdb [out_name]),
     add_dataset (os_path_join working_gdb [out_name]) d
       (add_call {| tool := "FeatureClassToFeatureClass";
                    inputs := [in_features];
                    outputs := [os_path_join working_gdb [out_name]] |} w)).
Proof.
  intros Hf Hd Hk. unfold FeatureClassToFeatureClass_conversion.
  rewrite (bind_Ok _ _ _ _ _ (invoke_run _ _ _ Hf)).
  unfold bind, read_dataset. cbn [add_call gdb]. rewrite Hd.
  destruct d; try reflexivity. exfalso. now apply (Hk rows).
Qed.

Lemma copy_table_run site in_rows out_name d w :
  fault site = None ->
  lookup in_rows (gdb w) = Some d ->
  TableToTable_conversion fault site in_rows working_gdb out_name w
  = (Ok (os_path_join working_gdb [out_name]),
     add_dataset (os_path_join working_gdb [out_name]) d
       (add_call {| tool := "TableToTable"; inputs := [in_rows];
                    outputs := [os_path_join working_gdb [out_name]] |} w)).
Proof.
  intros Hf Hd. unfold TableToTable_conversion.
  rewrite (bind_Ok _ _ _ _ _ (invoke_run _ _ _ Hf)).
  unfold bind, read_dataset. cbn [add_call gdb]. now rewrite Hd.
Qed.

Lemma Dissolve_management_run in_features out fs w :
  fault at_Dissolve = None ->
  lookup in_features (gdb w) = Some (BuildingPolygons fs) ->
  Dissolve_management fault in_features out w
  = (Ok out,
     add_dataset out (BuildingPolygons (Dissolve fs))
       (add_call {| tool := "Dissolve"; inputs := [in_features];
                    outputs := [out] |} w)).
Proof.
  intros Hf Hd. unfold Dissolve_management.
  rewrite (bind_Ok _ _ _ _ _ (invoke_run _ _ _ Hf)).
  unfold bind, read_dataset. cbn [add_call gdb]. now rewrite Hd.
Qed.

Lemma SpatialJoin_analysis_run target_features join_features out ts js w :
  fault at_SpatialJoin = None ->
  lookup target_features (gdb w) = Some (BuildingPolygons ts) ->
  lookup join_features (gdb w) = Some (WasteCollAreas js) ->
  SpatialJoin_analysis fault target_features join_features out w
  = (Ok out,
     add_dataset out (BuildingsWithAreas (SpatialJoin ts js))
       (add_call {| tool := "SpatialJoin";
                    inputs := [target_features; join_features];
                    outputs := [out] |} w)).
Proof.
  intros Hf Ht Hj. unfold SpatialJoin_analysis.
  rewrite (bind_Ok _ _ _ _ _ (invoke_run _ _ _ Hf)).
  unfold bind, read_dataset. cbn [add_call gdb]. now rewrite Ht, Hj.
Qed.

Lemma JoinField_management_run in_data join_table fs us w :
  fault at_JoinField = None ->
  lookup in_data (gdb w) = Some (BuildingsWithAreas fs) ->
  lookup join_table (gdb w) = Some (BuildingUse us) ->
  JoinField_management fault in_data join_table w
  = (Ok in_data,
     add_dataset in_data (BuildingsWithAreasAndUse (JoinField fs us))
       (add_call {| tool := "JoinField"; inputs := [in_data; join_table];
                    outputs := [in_data] |} w)).
Proof.
  intros Hf Hd Hj. unfold JoinField_management.
  rewrite (bind_Ok _ _ _ _ _ (invoke_run _ _ _ Hf)).
  unfold bind, read_dataset. cbn [add_call gdb]. now rewrite Hd, Hj.
Qed.

Lemma export_joined_run in_features out_name fs w :
  fault at_export_joined = None ->
  lookup in_features (gdb w) = Some (BuildingsWithAreasAndUse fs) ->
  FeatureClassToFeatureClass_conversion fault at_export_joined in_features
    working_gdb out_name (Some Join_Count_gt_0) w
  = (Ok (os_path_join working_gdb [out_name]),
     add_dataset (os_path_join working_gdb [out_name])
       (BuildingsWithAreasAndUse
          (filter (fun r => Join_Count_gt_0 (joined r)) fs))
       (add_call {| tool := "FeatureClassToFeatureClass";
                    inputs := [in_features];
                    outputs := [os_path_join working_gdb [out_name]] |} w)).
Proof.
  intros Hf Hd. unfold FeatureClassToFeatureClass_conversion.
  rewrite (bind_Ok _ _ _ _ _ (invoke_run _ _ _ Hf)).
  unfold bind, read_dataset. cbn [add_call gdb]. now rewrite Hd.
Qed.

Lemma GetCount_management_run in_rows d w :
  fault at_GetCount = None ->
  lookup in_rows (gdb w) = Some d ->
  GetCount_management fault in_rows w
  = (Ok (row_count d),
     add_call {| tool := "GetCount"; inputs := [in_rows];
                 outputs := [] |} w).
Proof.
  intros Hf Hd. unfold GetCount_management.
  rewrite (bind_Ok _ _ _ _ _ (invoke_run _ _ _ Hf)).
  unfold bind, read_dataset. cbn [add_call gdb]. now rewrite Hd.
Qed.

Lemma da_read_run in_table fs w :
  fault at_FeatureClassToNumPyArray = None ->
  lookup in_table (gdb w) = Some (BuildingsWithAreasAndUse fs) ->
  da_read fault in_table w
  = (Ok (map dataframe_columns fs), add_call (numpy_call in_table) w).
Proof.
  intros Hf Hd. unfold da_read.
  rewrite (bind_Ok _ _ _ _ _ (invoke_run _ _ _ Hf)).
  unfold bind, read_dataset. cbn [add_call gdb]. now rewrite Hd.
Qed.

Lemma sanity_check_run threshold (msg : Z -> message) n w :
  (if n <? threshold then logger WARNING (msg n)
   else logger DEBUG (msg n)) w
  = (Ok tt, add_line (if n <? threshold then WARNING else DEBUG, msg n) w).
Proof. destruct (n <? threshold); reflexivity. Qed.

Lemma check_joined_records_run n w :
  check_joined_records n w
  = (Ok tt, add_line (if n <? 100000 then WARNING else DEBUG,
                      Number_of_Joined_Records n) w).
Proof. apply sanity_check_run. Qed.

Lemma check_summary_rows_run n w :
  check_summary_rows n w
  = (Ok tt, add_line (if n <? 130000 then WARNING else DEBUG,
                      Number_of_Summary_Rows n) w).
Proof. apply sanity_check_run. Qed.

Lemma check_area_1_units_run n w :
  check_area_1_units n w
  = (Ok tt, add_line (if n <? 30000 then WARNING else DEBUG,
                      Number_of_Area_1_Units n) w).
Proof. apply sanity_check_run. Qed.

End Steps.

Ltac same_world :=
  apply world_eq;
  cbn [gdb files log history add_line add_file add_call add_dataset];
  rewrite <- ?app_assoc; reflexivity.


Arguments Dissolve : simpl never.
Arguments SpatialJoin : simpl never.
Arguments JoinField : simpl never.
Arguments df_of : simpl never.
Arguments df_summary_one_of : simpl never.
Arguments df_final_of : simpl never.
Arguments row_count : simpl never.

Section Scenarios.
Context {G : Geometry}.
Variable fault : call_site -> option exn.
Variable TODAY : string.

Lemma waste_analysis_run bs us cs w :
  analysis_runs fault ->
  lookup local_bld_poly (gdb w) = Some (BuildingPolygons bs) ->
  lookup local_bld_use (gdb w) = Some (BuildingUse us) ->
  lookup local_waste_areas (gdb w) = Some (WasteCollAreas cs) ->
  waste_analysis fault working_gdb local_bld_poly local_bld_use
    local_waste_areas w
  = (Ok buildings_w_waste_areas_blduse, after_waste_analysis bs us cs w).
Proof.
  intros (F1 & F2 & F3 & F4 & F5) Hb Hu Hc. unfold waste_analysis.
  rewrite bind_logger.
  erewrite bind_Ok by (apply Dissolve_management_run; eassumption).
  rewrite bind_logger.
  erewrite bind_Ok by
    (apply SpatialJoin_analysis_run; [assumption | reflexivity | exact Hc]).
  erewrite bind_Ok by
    (apply JoinField_management_run; [assumption | reflexivity | exact Hu]).
  erewrite bind_Ok by
    (apply export_joined_run; [assumption | reflexivity]).
  erewrite bind_Ok by
    (apply GetCount_management_run; [assumption | reflexivity]).
  rewrite (bind_Ok _ _ _ _ _ (check_joined_records_run _ _)).
  unfold ret. f_equal. unfold after_waste_analysis. same_world.
Qed.

Lemma CreateFileGDB_management_run w :
  fault at_CreateFileGDB = None ->
  CreateFileGDB_management fault w
  = (Ok working_gdb,
     {| gdb := filter (fun b => negb (workspace_eqb (path_workspace (fst b))
                                                    working_gdb)) (gdb w);
        files := files w; log := log w;
        history := history w
                   ++ [{| tool := "CreateFileGDB"; inputs := [];
                          outputs := [os_path_join working_gdb []] |}] |}).
Proof.
  intros Hf. unfold CreateFileGDB_management.
  rewrite (bind_Ok _ _ _ _ _ (invoke_run _ _ _ _ Hf)). reflexivity.
Qed.

Lemma prepare_workspace_run bs us cs w :
  staging_runs fault -> sources_present bs us cs w ->
  prepare_workspace fault w = (Ok local_copies, after_staging bs us cs w).
Proof.
  intros (F1 & F2 & F3 & F4) (Hb & Hu & Hc). unfold prepare_workspace.
  rewrite bind_logger.
  erewrite bind_Ok by (now apply CreateFileGDB_management_run).
  erewrite bind_Ok by
    (apply copy_features_run;
     [ assumption
     | cbn [gdb add_line]; rewrite lookup_filter_sde by reflexivity; exact Hb
     | discriminate ]).
  erewrite bind_Ok by
    (apply copy_table_run;
     [ assumption
     | cbn [gdb add_line add_call add_dataset];
       rewrite lookup_write_other by reflexivity;
       rewrite lookup_filter_sde by reflexivity; exact Hu ]).
  erewrite bind_Ok by
    (apply copy_features_run;
     [ assumption
     | cbn [gdb add_line add_call add_dataset];
       rewrite !lookup_write_other by reflexivity;
       rewrite lookup_filter_sde by reflexivity; exact Hc
     | discriminate ]).
  unfold ret. f_equal. unfold after_staging. same_world.
Qed.

Lemma summarize_units_run dwellings_table rows w :
  fault at_FeatureClassToNumPyArray = None ->
  lookup dwellings_table (gdb w) = Some (BuildingsWithAreasAndUse rows) ->
  let t := map dataframe_columns rows in
  summarize_units fault dwellings_table w
  = (Ok (df_final_of t, df_summary_one_of t),
     {| gdb := gdb w; files := files w ++ csv_exports t; log := log w;
        history := history w ++ [numpy_call dwellings_table] |}).
Proof.
  intros Hf Hd t. unfold summarize_units.
  erewrite bind_Ok by (apply da_read_run; eassumption).
  rewrite !bind_write_file.
  unfold ret. f_equal. same_world.
Qed.

Lemma copies_present_after_staging bs us cs w :
  copies_present bs us cs (after_staging bs us cs w).
Proof. repeat split. Qed.

Lemma summarize_after_analysis bs us cs w :
  analysis_runs fault -> fault at_FeatureClassToNumPyArray = None ->
  copies_present bs us cs w ->
  bind (waste_analysis fault working_gdb local_bld_poly local_bld_use
          local_waste_areas)
       (fun waste_building_units =>
          bind (logger DEBUG (Text "\nSummarizing Attributes..."))
               (fun _ => summarize_units fault waste_building_units)) w
  = (Ok (df_final_of (pipeline_table bs us cs),
         df_summary_one_of (pipeline_table bs us cs)),
     after_summarize bs us cs w).
Proof.
  intros Ha Hn (Hb & Hu & Hc).
  erewrite bind_Ok by (apply waste_analysis_run; eassumption).
  rewrite bind_logger.
  erewrite summarize_units_run by (assumption || reflexivity).
  reflexivity.
Qed.

Lemma analyse_and_check_run bs us cs w line :
  analysis_runs fault -> fault at_FeatureClassToNumPyArray = None ->
  copies_present bs us cs w ->
  loc "AREA 1" (df_final_of (pipeline_table bs us cs)) = Some line ->
  analyse_and_check fault local_copies w
  = (Ok (df_final_of (pipeline_table bs us cs),
         df_summary_one_of (pipeline_table bs us cs)),
     after_checks bs us cs (SUM_of_DWELLING_UNITS line) w).
Proof.
  intros Ha Hn Hc Hl. unfold analyse_and_check, local_copies.
  pose proof (summarize_after_analysis bs us cs w Ha Hn Hc) as Hs.
  unfold bind in Hs |- *.
  fold local_bld_poly local_bld_use local_waste_areas.
  destruct (waste_analysis fault working_gdb local_bld_poly local_bld_use
              local_waste_areas w) as [[p|e] w1]; [|discriminate].
  cbn [logger] in Hs |- *. rewrite Hs.
  unfold lookup_area_1. rewrite Hl. cbn [ret].
  rewrite check_summary_rows_run, check_area_1_units_run.
  unfold ret. f_equal. unfold after_checks. same_world.
Qed.

Lemma analyse_and_check_no_area_1 bs us cs w :
  analysis_runs fault -> fault at_FeatureClassToNumPyArray = None ->
  copies_present bs us cs w ->
  loc "AREA 1" (df_final_of (pipeline_table bs us cs)) = None ->
  analyse_and_check fault local_copies w
  = (Raise (KeyError "AREA 1"), after_summarize bs us cs w).
Proof.
  intros Ha Hn Hc Hl. unfold analyse_and_check, local_copies.
  pose proof (summarize_after_analysis bs us cs w Ha Hn Hc) as Hs.
  unfold bind in Hs |- *.
  fold local_bld_poly local_bld_use local_waste_areas.
  destruct (waste_analysis fault working_gdb local_bld_poly local_bld_use
              local_waste_areas w) as [[p|e] w1]; [|discriminate].
  cbn [logger] in Hs |- *. rewrite Hs.
  unfold lookup_area_1. rewrite Hl. reflexivity.
Qed.

End Scenarios.

(** ** The geometry pipeline on tables *)

Section PipelineFacts.
Context {G : Geometry}.

Lemma dissolve_into_ids f acc :
  map bp_BL_ID (dissolve_into f acc)
  = if existsb (Z.eqb (bp_BL_ID f)) (map bp_BL_ID acc)
    then map bp_BL_ID acc
    else map bp_BL_ID acc ++ [bp_BL_ID f].
Proof.
  induction acc as [|h acc IH]; simpl; [reflexivity|].
  rewrite (Z.eqb_sym (bp_BL_ID f)).
  destruct (bp_BL_ID h =? bp_BL_ID f) eqn:E; simpl; [reflexivity|].
  rewrite IH. destruct (existsb _ _); reflexivity.
Qed.

Lemma existsb_eqb_In b l : existsb (Z.eqb b) l = true <-> In b l.
Proof.
  rewrite existsb_exists. split.
  - intros [x [Hx E]]. apply Z.eqb_eq in E. now subst.
  - intros H. exists b. split; [assumption | apply Z.eqb_refl].
Qed.

Lemma dissolve_fold_ids fs acc :
  NoDup (map bp_BL_ID acc) ->
  NoDup (map bp_BL_ID (fold_left (fun a f => dissolve_into f a) fs acc))
  /\ forall b,
       In b (map bp_BL_ID (fold_left (fun a f => dissolve_into f a) fs acc))
       <-> In b (map bp_BL_ID acc) \/ In b (map bp_BL_ID fs).
Proof.
  revert acc. induction fs as [|f fs IH]; intros acc Hnd; simpl.
  - split; [assumption | tauto].
  - assert (Hnd' : NoDup (map bp_BL_ID (dissolve_into f acc))).
    { rewrite dissolve_into_ids.
      destruct (existsb _ _) eqn:E; [assumption|].
      apply NoDup_app; [assumption | repeat constructor; simpl; tauto |].
      intros b Hb [<-|[]].
      apply existsb_eqb_In in Hb. congruence. }
    destruct (IH _ Hnd') as [H1 H2]. split; [assumption|].
    intros b. rewrite H2, dissolve_into_ids.
    destruct (existsb _ _) eqn:E.
    + apply existsb_eqb_In in E. intuition (subst; auto).
    + rewrite in_app_iff. simpl. tauto.
Qed.

(** Dissolve leaves one feature per building identifier. *)
Lemma Dissolve_NoDup fs : NoDup (map bp_BL_ID (Dissolve fs)).
Proof. apply (dissolve_fold_ids fs []). constructor. Qed.

Lemma Dissolve_In b fs :
  In b (map bp_BL_ID (Dissolve fs)) <-> In b (map bp_BL_ID fs).
Proof.
  unfold Dissolve.
  destruct (dissolve_fold_ids fs [] (NoDup_nil _)) as [_ H].
  rewrite H. simpl. tauto.
Qed.

Lemma SpatialJoin_ids ts cs :
  map sj_BL_ID (SpatialJoin ts cs) = map bp_BL_ID ts.
Proof. unfold SpatialJoin. rewrite map_map. reflexivity. Qed.

Lemma JoinField_ids fs us :
  map (fun r => sj_BL_ID (joined r)) (JoinField fs us) = map sj_BL_ID fs.
Proof. unfold JoinField. rewrite map_map. reflexivity. Qed.

Lemma NoDup_map_filter {A B} (f : A -> B) (p : A -> bool) l :
  NoDup (map f l) -> NoDup (map f (filter p l)).
Proof.
  induction l as [|x l IH]; simpl; [auto|].
  intros H. inversion H as [|? ? Hx Hl]; subst.
  destruct (p x); simpl; [|auto].
  constructor; [|auto].
  rewrite in_map_iff in *. intros [y [E Hy]]. apply Hx.
  exists y. apply filter_In in Hy. tauto.
Qed.

Lemma hd_error_filter {A} (p : A -> bool) l :
  hd_error (filter p l) = find p l.
Proof.
  induction l as [|x l IH]; simpl; [reflexivity|].
  destruct (p x); [reflexivity | exact IH].
Qed.

Lemma filter_length_pos {A} (p : A -> bool) l :
  0 < Z.of_nat (List.length (filter p l)) <->
  exists a, In a l /\ p a = true.
Proof.
  split.
  - destruct (filter p l) as [|a tl] eqn:E; simpl; [lia|].
    intros _. exists a. apply filter_In. rewrite E. now left.
  - intros [a Ha]. apply filter_In in Ha.
    destruct (filter p l); [contradiction | simpl; lia].
Qed.

(** The identifiers of the pipeline's table are the identifiers of the
    joined features. *)
Lemma pipeline_table_ids bs us cs :
  map t_BL_ID (pipeline_table bs us cs)
  = map sj_BL_ID
      (filter Join_Count_gt_0 (SpatialJoin (Dissolve bs) cs)).
Proof.
  unfold pipeline_table, waste_analysis_table, JoinField.
  rewrite map_map. simpl.
  rewrite (filter_map_swap _ (fun r => Join_Count_gt_0 (joined r))).
  simpl. rewrite map_map. reflexivity.
Qed.

Lemma pipeline_table_NoDup bs us cs :
  NoDup (map t_BL_ID (pipeline_table bs us cs)).
Proof.
  rewrite pipeline_table_ids. apply NoDup_map_filter.
  rewrite SpatialJoin_ids. apply Dissolve_NoDup.
Qed.

Lemma first_area_None g cs :
  first_area g cs = None <->
  forall a, In a cs -> intersects g (wa_SHAPE a) = false.
Proof.
  unfold first_area. split.
  - intros H a Ha. now apply (find_none _ _ H).
  - intros H. induction cs as [|c cs IH]; simpl; [reflexivity|].
    rewrite (H c) by now left. apply IH. intros a Ha. apply H. now right.
Qed.

Lemma Join_Count_gt_0_first_area (t : building_polygon) cs :
  (0 <? Z.of_nat
          (List.length
             (filter (fun a => intersects (bp_SHAPE t) (wa_SHAPE a)) cs)))
  = true
  <-> exists a, first_area (bp_SHAPE t) cs = Some a.
Proof.
  rewrite Z.ltb_lt, filter_length_pos. unfold first_area. split.
  - intros [a [Ha Hi]].
    destruct (find _ cs) as [a'|] eqn:E; [now exists a'|].
    rewrite (find_none _ _ E a Ha) in Hi. discriminate.
  - intros [a Ha]. apply find_some in Ha. now exists a.
Qed.

(** The rows of the table the pipeline returns: one for each dissolved
    building that intersects an area, with the first such area and the
    units of the building's first use record. *)
Lemma pipeline_table_rows bs us cs r :
  In r (pipeline_table bs us cs) <->
  exists d a,
    In d (Dissolve bs)
    /\ first_area (bp_SHAPE d) cs = Some a
    /\ r = {| t_BL_ID := bp_BL_ID d;
              t_COLL_AREA := Some (wa_COLL_AREA a);
              t_DWEL_UNITS := first_use (bp_BL_ID d) us |}.
Proof.
  unfold pipeline_table, waste_analysis_table, JoinField, SpatialJoin.
  rewrite in_map_iff. unfold join_one_to_one. split.
  - intros [x [<- Hx]]. apply filter_In in Hx as [Hx Hc].
    apply in_map_iff in Hx as [y [<- Hy]].
    apply in_map_iff in Hy as [d [<- Hd]].
    unfold Join_Count_gt_0, join_one_to_one in Hc.
    cbn [joined Join_Count] in Hc.
    apply Join_Count_gt_0_first_area in Hc as [a Ha].
    exists d, a. split; [assumption|]. split; [assumption|].
    unfold dataframe_columns. cbn [joined sj_BL_ID sj_COLL_AREA jf_DWEL_UNITS].
    rewrite hd_error_filter. unfold first_area in Ha. rewrite Ha.
    reflexivity.
  - intros [d [a [Hd [Ha ->]]]].
    eexists. split; [|apply filter_In; split].
    2:{ apply in_map. apply in_map. exact Hd. }
    + unfold dataframe_columns.
      cbn [joined sj_BL_ID sj_COLL_AREA jf_DWEL_UNITS].
      rewrite hd_error_filter. unfold first_area in Ha. rewrite Ha.
      reflexivity.
    + unfold Join_Count_gt_0. cbn [joined Join_Count].
      apply Join_Count_gt_0_first_area. now exists a.
Qed.

End PipelineFacts.

(** ** Claims on the run *)

Section RunClaims.
Context {G : Geometry}.
Variable fault : call_site -> option exn.
Variable TODAY : string.

Lemma Sub_new_unique {X} (old new new' : list X) :
  old ++ new = old ++ new' -> new = new'.
Proof. apply app_inv_head. Qed.

Lemma main_calls_local c :
  In c main_calls ->
  Forall (fun p => path_workspace p = working_gdb) (outputs c)
  /\ (In c staging_calls
      \/ Forall (fun p => path_workspace p = working_gdb) (inputs c)).
Proof.
  unfold main_calls, staging_calls, analysis_calls, waste_analysis_calls.
  simpl. intros H.
  repeat (destruct H as [<-|H];
          [split; [repeat constructor | simpl; auto 10; right; repeat constructor]|]).
  contradiction.
Qed.

Lemma CreateFileGDB_management_inv w ws w' :
  CreateFileGDB_management fault w = (Ok ws, w') ->
  ws = working_gdb
  /\ gdb w' = filter (fun b => negb (workspace_eqb (path_workspace (fst b))
                                                   working_gdb)) (gdb w).
Proof.
  unfold CreateFileGDB_management, bind, invoke.
  destruct (fault at_CreateFileGDB); [discriminate|].
  intros [= <- <-]. split; reflexivity.
Qed.

Lemma copy_features_inv site in_features out_name w p w' :
  FeatureClassToFeatureClass_conversion fault site in_features working_gdb
    out_name None w = (Ok p, w') ->
  p = os_path_join working_gdb [out_name]
  /\ exists d, lookup in_features (gdb w) = Some d
               /\ gdb w' = write (os_path_join working_gdb [out_name]) d
                                 (gdb w).
Proof.
  unfold FeatureClassToFeatureClass_conversion, bind, invoke, read_dataset.
  destruct (fault site); [discriminate|]. cbn [gdb].
  destruct (lookup in_features (gdb w)) as [d|]; [|discriminate].
  destruct d; try discriminate; intros [= <- <-];
    (split; [reflexivity|]; eexists; split; reflexivity).
Qed.

Lemma copy_table_inv site in_rows out_name w p w' :
  TableToTable_conversion fault site in_rows working_gdb out_name w
  = (Ok p, w') ->
  p = os_path_join working_gdb [out_name]
  /\ exists d, lookup in_rows (gdb w) = Some d
               /\ gdb w' = write (os_path_join working_gdb [out_name]) d
                                 (gdb w).
Proof.
  unfold TableToTable_conversion, bind, invoke, read_dataset.
  destruct (fault site); [discriminate|]. cbn [gdb].
  destruct (lookup in_rows (gdb w)) as [d|]; [|discriminate].
  intros [= <- <-]. split; [reflexivity|]. eexists. split; reflexivity.
Qed.

Lemma lookup_filter_local (p : path) (s : store) :
  path_workspace p = working_gdb ->
  lookup p (filter (fun b => negb (workspace_eqb (path_workspace (fst b))
                                                 working_gdb)) s)
  = None.
Proof.
  intros Hp. induction s as [|[q d] s IH]; simpl; [reflexivity|].
  destruct q as [qw qn], p as [pw pn]. simpl in *. subst pw.
  destruct qw; simpl; [exact IH | exact IH].
Qed.

(** When the workspace has been prepared, it holds the copies of the
    three sources as they were, and nothing else. *)
Lemma prepare_workspace_inv w locals w1 :
  prepare_workspace fault w = (Ok locals, w1) ->
  locals = local_copies
  /\ lookup local_bld_poly (gdb w1)
     = lookup BUILDING_POLYGONS_FEATURE (gdb w)
  /\ lookup local_bld_use (gdb w1) = lookup BUILDING_USE_TABLE (gdb w)
  /\ lookup local_waste_areas (gdb w1)
     = lookup WASTE_COLLECTION_AREAS_FEATURE (gdb w)
  /\ forall p, path_workspace p = working_gdb ->
               p <> local_bld_poly -> p <> local_bld_use ->
               p <> local_waste_areas -> lookup p (gdb w1) = None.
Proof.
  unfold prepare_workspace. rewrite bind_logger. intros H.
  apply bind_Ok_inv in H as (ws & w2 & H2 & H).
  apply CreateFileGDB_management_inv in H2 as [-> G2].
  apply bind_Ok_inv in H as (p1 & w3 & H3 & H).
  apply copy_features_inv in H3 as (-> & d1 & L1 & G3).
  apply bind_Ok_inv in H as (p2 & w4 & H4 & H).
  apply copy_table_inv in H4 as (-> & d2 & L2 & G4).
  apply bind_Ok_inv in H as (p3 & w5 & H5 & H).
  apply copy_features_inv in H5 as (-> & d3 & L3 & G5).
  injection H as <- <-.
  cbn [gdb add_line] in G2. rewrite G4, G3, G2 in L3. rewrite G3, G2 in L2.
  rewrite G2 in L1. rewrite G5, G4, G3, G2.
  rewrite lookup_filter_sde in L1 by reflexivity.
  rewrite lookup_write_other, lookup_filter_sde in L2 by reflexivity.
  rewrite !lookup_write_other, lookup_filter_sde in L3 by reflexivity.
  split; [reflexivity|].
  split; [rewrite L1; reflexivity|].
  split; [rewrite L2; reflexivity|].
  split; [rewrite L3; reflexivity|].
  intros p Hp N1 N2 N3. unfold write. cbn [lookup].
  assert (E : forall q, path_workspace q = working_gdb -> p <> q ->
                        path_eqb q p = false).
  { intros q Hq Hne. destruct (path_eqb q p) eqn:E; [|reflexivity].
    exfalso. apply Hne. destruct p as [pw pn], q as [qw qn].
    unfold path_eqb in E. simpl in *. subst.
    apply andb_true_iff in E as [_ E]. f_equal.
    clear - E. revert pn E.
    induction qn as [|x qn IH]; intros [|y pn]; simpl; try discriminate; auto.
    intros E. apply andb_true_iff in E as [E1 E2].
    apply String.eqb_eq in E1. subst. f_equal. now apply IH. }
  rewrite !E by (reflexivity || assumption).
  now apply lookup_filter_local.
Qed.

(** C5.  No run changes a dataset of the enterprise geodatabase.  Every
    engine call of a run writes inside the working geodatabase only, and
    reads inside it only, except the three copies of the staging step,
    which read one source each; and when the staging step has come
    through, the working geodatabase holds the copies of the three
    sources, as they were in the enterprise geodatabase, and nothing
    else. *)
Theorem sources_of_record_unchanged (w : world) :
  (forall p, path_workspace p = SDE ->
     lookup p (gdb (snd (main fault TODAY w))) = lookup p (gdb w))
  /\ (exists calls,
        history (snd (main fault TODAY w)) = history w ++ calls
        /\ forall c, In c calls ->
             Forall (fun p => path_workspace p = working_gdb) (outputs c)
             /\ (In c staging_calls
                 \/ Forall (fun p => path_workspace p = working_gdb)
                           (inputs c)))
  /\ (forall locals w1,
        prepare_workspace fault w = (Ok locals, w1) ->
        locals = local_copies
        /\ lookup local_bld_poly (gdb w1)
           = lookup BUILDING_POLYGONS_FEATURE (gdb w)
        /\ lookup local_bld_use (gdb w1) = lookup BUILDING_USE_TABLE (gdb w)
        /\ lookup local_waste_areas (gdb w1)
           = lookup WASTE_COLLECTION_AREAS_FEATURE (gdb w)
        /\ forall p, path_workspace p = working_gdb ->
                     p <> local_bld_poly -> p <> local_bld_use ->
                     p <> local_waste_areas -> lookup p (gdb w1) = None).
Proof.
  destruct (obeys_main fault TODAY w) as [[_ _ (calls & Hc & Sc) Hsde] _].
  split; [exact Hsde|]. split.
  - exists calls. split; [exact Hc|].
    intros c Hin. apply main_calls_local.
    now apply (Sub_eq_incl calls main_calls Sc).
  - intros locals w1. apply prepare_workspace_inv.
Qed.

(** *** The sanity checks *)





(** *** The export and the handlers *)

(** The export stage never raises; it writes the workbook and a debug
    line when the summary has a row, and nothing otherwise. *)
Lemma export_to_excel_run df_final df_summarized w :
  export_to_excel TODAY df_final df_summarized w
  = (Ok tt,
     match df_summarized with
     | [] => w
     | _ => add_line (DEBUG, Text "\nExported to Excel")
              (add_file (report TODAY df_final df_summarized) w)
     end).
Proof.
  unfold export_to_excel. destruct df_summarized as [|x s]; reflexivity.
Qed.



Lemma logger_error_line e w :
  logger ERROR (snd (error_line e)) w = (Ok tt, add_line (error_line e) w).
Proof. destruct e; reflexivity. Qed.


(** *** A run that reaches the export *)




End RunClaims.

(** ** Claims on the geometry pipeline *)

Section PipelineClaims.
Context {G : Geometry}.
Variable fault : call_site -> option exn.

Lemma first_area_intersects g cs a :
  first_area g cs = Some a ->
  In a cs /\ intersects g (wa_SHAPE a) = true.
Proof. unfold first_area. apply find_some. Qed.

Lemma first_area_unique g cs a :
  In a cs -> intersects g (wa_SHAPE a) = true ->
  (forall a', In a' cs -> intersects g (wa_SHAPE a') = true ->
              wa_COLL_AREA a' = wa_COLL_AREA a) ->
  option_map wa_COLL_AREA (first_area g cs) = Some (wa_COLL_AREA a).
Proof.
  intros Ha Hi Hu. destruct (first_area g cs) as [a'|] eqn:E.
  - apply first_area_intersects in E as [Ha' Hi']. simpl.
    now rewrite (Hu a' Ha' Hi').
  - rewrite first_area_None in E. rewrite (E a Ha) in Hi. discriminate.
Qed.

(** C7 (as amended).  The spatial join returns one row per building, in
    order.  The row of a building carries the identifier of the first
    collection area, in the order of the feature class, that the
    building intersects, and counts the areas it intersects; a building
    that intersects no area keeps its row, with no area.  So no building
    is assigned to an area it does not intersect, and a building that
    lies inside an area is assigned to it whenever every area it
    intersects bears that same identifier. *)
Theorem spatial_join_assigns_first_intersecting
  (ts : list building_polygon) (cs : list waste_coll_area) :
  SpatialJoin ts cs = map (join_one_to_one cs) ts
  /\ map sj_BL_ID (SpatialJoin ts cs) = map bp_BL_ID ts
  /\ (forall t,
        sj_COLL_AREA (join_one_to_one cs t)
        = option_map wa_COLL_AREA (first_area (bp_SHAPE t) cs)
        /\ Join_Count (join_one_to_one cs t)
           = Z.of_nat
               (List.length
                  (filter (fun a => intersects (bp_SHAPE t) (wa_SHAPE a))
                          cs)))
  /\ (forall t name,
        sj_COLL_AREA (join_one_to_one cs t) = Some name ->
        exists a, In a cs /\ wa_COLL_AREA a = name
                  /\ intersects (bp_SHAPE t) (wa_SHAPE a) = true)
  /\ (forall t,
        sj_COLL_AREA (join_one_to_one cs t) = None <->
        forall a, In a cs -> intersects (bp_SHAPE t) (wa_SHAPE a) = false)
  /\ (forall t a,
        In a cs -> within (bp_SHAPE t) (wa_SHAPE a) = true ->
        (forall a', In a' cs ->
                    intersects (bp_SHAPE t) (wa_SHAPE a') = true ->
                    wa_COLL_AREA a' = wa_COLL_AREA a) ->
        sj_COLL_AREA (join_one_to_one cs t) = Some (wa_COLL_AREA a)).
Proof.
  assert (Hrow : forall t,
    sj_COLL_AREA (join_one_to_one cs t)
    = option_map wa_COLL_AREA (first_area (bp_SHAPE t) cs)).
  { intros t. unfold join_one_to_one. cbn [sj_COLL_AREA].
    now rewrite hd_error_filter. }
  split; [reflexivity|]. split; [apply SpatialJoin_ids|].
  split; [intros t; split; [apply Hrow | reflexivity]|].
  split; [|split].
  - intros t name. rewrite Hrow.
    destruct (first_area (bp_SHAPE t) cs) as [a|] eqn:E; [|discriminate].
    intros [= <-]. apply first_area_intersects in E as [Ha Hi].
    exists a. auto.
  - intros t. rewrite Hrow, <- first_area_None.
    destruct (first_area (bp_SHAPE t) cs); simpl; split;
      (discriminate || reflexivity).
  - intros t a Ha Hw Hu. rewrite Hrow.
    apply first_area_unique; auto. now apply within_intersects.
Qed.

(** C6 (as amended).  Dissolve yields one polygon per distinct building
    identifier of the input.  When the engine does not fail,
    [waste_analysis] returns a table with at most one row per building
    identifier: a row for each dissolved building that intersects at
    least one collection area, carrying the first such area and the
    dwelling units of the building's first use record, and no row for a
    building that intersects no area. *)
Theorem one_row_per_joined_building (bs : list building_polygon)
  (us : list building_use) (cs : list waste_coll_area) (w : world) :
  analysis_runs fault -> copies_present bs us cs w ->
  waste_analysis fault working_gdb local_bld_poly local_bld_use
    local_waste_areas w
  = (Ok buildings_w_waste_areas_blduse, after_waste_analysis bs us cs w)
  /\ lookup dissolved_building_polygons
            (gdb (after_waste_analysis bs us cs w))
     = Some (BuildingPolygons (Dissolve bs))
  /\ lookup buildings_w_waste_areas_blduse
            (gdb (after_waste_analysis bs us cs w))
     = Some (BuildingsWithAreasAndUse (waste_analysis_table bs us cs))
  /\ NoDup (map bp_BL_ID (Dissolve bs))
  /\ (forall b, In b (map bp_BL_ID (Dissolve bs)) <-> In b (map bp_BL_ID bs))
  /\ NoDup (map t_BL_ID (pipeline_table bs us cs))
  /\ (forall r,
        In r (pipeline_table bs us cs) <->
        exists d a,
          In d (Dissolve bs)
          /\ first_area (bp_SHAPE d) cs = Some a
          /\ r = {| t_BL_ID := bp_BL_ID d;
                    t_COLL_AREA := Some (wa_COLL_AREA a);
                    t_DWEL_UNITS := first_use (bp_BL_ID d) us |})
  /\ (forall d, In d (Dissolve bs) -> first_area (bp_SHAPE d) cs = None ->
                ~ In (bp_BL_ID d) (map t_BL_ID (pipeline_table bs us cs))).
Proof.
  intros Ha (Hb & Hu & Hc).
  split; [now apply waste_analysis_run|].
  split; [reflexivity|]. split; [reflexivity|].
  split; [apply Dissolve_NoDup|]. split; [intros b; apply Dissolve_In|].
  split; [apply pipeline_table_NoDup|].
  split; [intros r; apply pipeline_table_rows|].
  intros d Hd Hnone Hin. apply in_map_iff in Hin as [r [Hid Hr]].
  apply pipeline_table_rows in Hr as (d' & a & Hd' & Ha' & ->).
  cbn [t_BL_ID] in Hid.
  assert (d' = d).
  { apply (NoDup_map_inj bp_BL_ID (Dissolve bs)); auto.
    apply Dissolve_NoDup. }
  subst d'. congruence.
Qed.

End PipelineClaims.

(** ** Claims on the export *)

Section ExportClaims.
Context {G : Geometry}.
Variable fault : call_site -> option exn.
Variable TODAY : string.

Lemma obeys_no_files {A} (m : M A) L H Q w :
  obeys m L [] H Q -> files (snd (m w)) = files w.
Proof.
  intros Ho. destruct (Ho w) as [[_ (new & Hf & Sf) _ _] _].
  apply Sub_empty in Sf. subst new. now rewrite app_nil_r in Hf.
Qed.

Lemma summarize_units_inv dwellings_table w df_final df_summarized w' :
  summarize_units fault dwellings_table w
  = (Ok (df_final, df_summarized), w') ->
  exists t, df_final = df_final_of t /\ df_summarized = df_summary_one_of t
            /\ files w' = files w ++ csv_exports t.
Proof.
  unfold summarize_units. intros H.
  apply bind_Ok_inv in H as (t & w0 & Hr & H).
  pose proof (obeys_no_files _ _ _ _ w (obeys_da_read fault dwellings_table))
    as Hf.
  rewrite Hr in Hf. cbn [snd] in Hf.
  rewrite !bind_write_file in H. unfold ret in H.
  injection H as <- <- <-. exists t. split; [reflexivity|].
  split; [reflexivity|].
  cbn [files add_file]. rewrite Hf, <- !app_assoc. reflexivity.
Qed.

(** The frames that reach the export stage are those of one table, whose
    three CSV files have been written by then. *)
Lemma analyse_and_check_inv w df_final df_summarized w' :
  analyse_and_check fault local_copies w
  = (Ok (df_final, df_summarized), w') ->
  exists t, df_final = df_final_of t /\ df_summarized = df_summary_one_of t
            /\ loc "AREA 1" df_final <> None
            /\ files w' = files w ++ csv_exports t.
Proof.
  unfold analyse_and_check, local_copies. intros H.
  apply bind_Ok_inv in H as (p & w1 & Hw & H).
  pose proof (obeys_no_files _ _ _ _ w
                (obeys_waste_analysis fault local_bld_poly local_bld_use
                   local_waste_areas)) as Hf1.
  unfold local_bld_poly, local_bld_use, local_waste_areas in Hf1.
  rewrite Hw in Hf1. cbn [snd] in Hf1.
  rewrite bind_logger in H.
  apply bind_Ok_inv in H as ([f s] & w2 & Hs & H).
  apply summarize_units_inv in Hs as (t & -> & -> & Hf2).
  cbn [files add_line] in Hf2.
  apply bind_Ok_inv in H as (u & w3 & Hl & H).
  unfold lookup_area_1 in Hl.
  destruct (loc "AREA 1" (df_final_of t)) as [line|] eqn:El; [|discriminate].
  injection Hl as <- <-.
  rewrite (bind_Ok _ _ _ _ _ (check_summary_rows_run _ _)) in H.
  rewrite (bind_Ok _ _ _ _ _ (check_area_1_units_run _ _)) in H.
  injection H as <- <- <-.
  exists t. split; [reflexivity|]. split; [reflexivity|].
  split; [rewrite El; discriminate|].
  cbn [files add_line]. now rewrite Hf2, Hf1.
Qed.

(** C3.  In every run that reaches the export stage, the three CSV files
    (final, summary and original frame) have been written; the run ends
    normally, and it writes the workbook, with the sheet "final" for the
    aggregated table and the sheet "summary" for the table it was
    aggregated from, exactly when that summary has a row.  No other file
    is written. *)
Theorem export_stage (w : world) locals w1 df_final df_summarized w2 :
  prepare_workspace fault w = (Ok locals, w1) ->
  analyse_and_check fault locals w1 = (Ok (df_final, df_summarized), w2) ->
  exists t,
    df_final = df_final_of t /\ df_summarized = df_summary_one_of t
    /\ files w2 = files w ++ csv_exports t
    /\ fst (main fault TODAY w) = Ok tt
    /\ files (snd (main fault TODAY w)) = files w ++ exported_files TODAY t
    /\ ((exists sheets,
           In (OUTPUT_EXCEL_NAME TODAY, Xlsx sheets) (exported_files TODAY t))
        <-> df_summarized <> [])
    /\ (forall name sheets,
          In (name, Xlsx sheets) (exported_files TODAY t) ->
          name = OUTPUT_EXCEL_NAME TODAY
          /\ sheets = [("final", frame_final df_final);
                       ("summary", frame_summary df_summarized)]).
Proof.
  intros Hp Ha.
  destruct (prepare_workspace_inv fault w locals w1 Hp) as [-> _].
  pose proof (obeys_no_files _ _ _ _ w (obeys_prepare_workspace fault)) as Hf0.
  rewrite Hp in Hf0. cbn [snd] in Hf0.
  destruct (analyse_and_check_inv _ _ _ _ Ha) as (t & -> & -> & Hl & Hf).
  rewrite Hf0 in Hf.
  assert (Hm : main fault TODAY w
               = (Ok tt,
                  match df_summary_one_of t with
                  | [] => w2
                  | _ => add_line (DEBUG, Text "\nExported to Excel")
                           (add_file (report TODAY (df_final_of t)
                                        (df_summary_one_of t)) w2)
                  end)).
  { unfold main. rewrite (bind_Ok _ _ _ _ _ Hp).
    apply try_except_Ok. unfold try_body.
    rewrite (bind_Ok _ _ _ _ _ Ha). apply export_to_excel_run. }
  exists t. split; [reflexivity|]. split; [reflexivity|].
  split; [exact Hf|]. rewrite Hm. split; [reflexivity|].
  unfold exported_files. split; [|split].
  - cbn [snd]. destruct (df_summary_one_of t).
    + now rewrite Hf, !app_nil_r.
    + cbn [files add_line add_file]. rewrite Hf, <- app_assoc. reflexivity.
  - split.
    + intros [sheets Hin]. rewrite in_app_iff in Hin.
      destruct Hin as [Hin|Hin].
      * exfalso. unfold csv_exports in Hin. simpl in Hin.
        intuition discriminate.
      * destruct (df_summary_one_of t); [contradiction | discriminate].
    + intros Hne. destruct (df_summary_one_of t) as [|x s]; [contradiction|].
      eexists. rewrite in_app_iff. right. left. reflexivity.
  - intros name sheets Hin. rewrite in_app_iff in Hin.
    destruct Hin as [Hin|Hin].
    + exfalso. unfold csv_exports in Hin. simpl in Hin.
      intuition discriminate.
    + destruct (df_summary_one_of t) as [|x s]; [contradiction|].
      destruct Hin as [Hin|[]]. unfold report in Hin.
      injection Hin as <- <-. split; reflexivity.
Qed.

Lemma after_summarize_files bs us cs w :
  files (after_summarize bs us cs w)
  = files w ++ csv_exports (pipeline_table bs us cs).
Proof. reflexivity. Qed.

Lemma after_summarize_log bs us cs w :
  log (after_summarize bs us cs w)
  = log w
    ++ [(DEBUG, Text "\nDissolving Building Polygons...");
        (DEBUG, Text "\nSpatially Joining Building Polygons and Waste Collection Areas...");
        (let n := Z.of_nat (List.length (waste_analysis_table bs us cs)) in
         (if n <? 100000 then WARNING else DEBUG,
          Number_of_Joined_Records n));
        (DEBUG, Text "\nSummarizing Attributes...")].
Proof.
  unfold after_summarize, after_waste_analysis. cbn [log].
  rewrite <- app_assoc. reflexivity.
Qed.

Lemma after_staging_files bs us cs w : files (after_staging bs us cs w) = files w.
Proof. reflexivity. Qed.

Lemma after_staging_log bs us cs w :
  log (after_staging bs us cs w)
  = log w ++ [(INFO, Text "Preparing Workspace...")].
Proof. reflexivity. Qed.

(** C10.  A workbook written by a run holds the frames of a table whose
    aggregated frame has a row labelled "AREA 1", that is, a table with
    a row of at most 6 units in a collection area of that name.  When the engine does
    not fail and the aggregated frame has no such row, the lookup of
    Area 1's units raises after the three CSV files have been written
    and before the summary checks and the export: the run ends
    normally, with the key error as the one error line of its log, the
    three CSV files written and no workbook. *)
Theorem report_needs_area_1 (w : world) :
  (exists written,
     files (snd (main fault TODAY w)) = files w ++ written
     /\ forall name sheets,
          In (name, Xlsx sheets) written ->
          exists t,
            (name, Xlsx sheets)
            = report TODAY (df_final_of t) (df_summary_one_of t)
            /\ loc "AREA 1" (df_final_of t) <> None
            /\ rows_in_area "AREA 1" (df_of t) <> [])
  /\ (forall bs us cs,
        staging_runs fault -> analysis_runs fault ->
        fault at_FeatureClassToNumPyArray = None ->
        sources_present bs us cs w ->
        loc "AREA 1" (df_final_of (pipeline_table bs us cs)) = None ->
        fst (main fault TODAY w) = Ok tt
        /\ files (snd (main fault TODAY w))
           = files w ++ csv_exports (pipeline_table bs us cs)
        /\ log (snd (main fault TODAY w))
           = log w
             ++ [(INFO, Text "Preparing Workspace...");
                 (DEBUG, Text "\nDissolving Building Polygons...");
                 (DEBUG, Text "\nSpatially Joining Building Polygons and Waste Collection Areas...");
                 (let n := Z.of_nat
                             (List.length (waste_analysis_table bs us cs)) in
                  (if n <? 100000 then WARNING else DEBUG,
                   Number_of_Joined_Records n));
                 (DEBUG, Text "\nSummarizing Attributes...");
                 (ERROR, Exception_text (KeyError "AREA 1"))]).
Proof.
  split.
  - destruct (obeys_main fault TODAY w) as [[_ (written & Hf & Sf) _ _] _].
    exists written. split; [exact Hf|].
    intros name sheets Hin.
    assert (Hall : Forall (fun f : string * file =>
                forall n sh, f = (n, Xlsx sh) ->
                exists t, f = report TODAY (df_final_of t)
                                     (df_summary_one_of t)
                          /\ loc "AREA 1" (df_final_of t) <> None) written).
    { apply (Sub_Forall _ _ _ Sf). unfold run_files, csv_files. simpl.
      repeat constructor; try (intros f [t ->] n sh; discriminate).
      intros f (t & -> & Hl & _) n sh _. exists t. split; [reflexivity|].
      exact Hl. }
    rewrite Forall_forall in Hall.
    destruct (Hall _ Hin name sheets eq_refl) as (t & Ht & Hl).
    exists t. split; [exact Ht|]. split; [exact Hl|].
    intros Hnil. apply Hl.
    rewrite df_final_loc by discriminate.
    now rewrite df_by_area_loc, Hnil.
  - intros bs us cs Hs Ha Hn Hsrc Hl.
    assert (Hm : main fault TODAY w
                 = (Ok tt, add_line (ERROR, Exception_text (KeyError "AREA 1"))
                             (after_summarize bs us cs
                                (after_staging bs us cs w)))).
    { unfold main.
      rewrite (bind_Ok _ _ _ _ _ (prepare_workspace_run fault bs us cs w Hs Hsrc)).
      assert (Ht : try_body fault TODAY local_copies (after_staging bs us cs w)
                   = (Raise (KeyError "AREA 1"),
                      after_summarize bs us cs (after_staging bs us cs w))).
      { unfold try_body. apply bind_Raise.
        apply analyse_and_check_no_area_1; auto.
        apply copies_present_after_staging. }
      rewrite (try_except_Raise _ _ _ _ Ht). reflexivity. }
    rewrite Hm. cbn [fst snd]. split; [reflexivity|]. split.
    + cbn [files add_line].
      now rewrite after_summarize_files, after_staging_files.
    + cbn [log add_line].
      rewrite after_summarize_log, after_staging_log, <- !app_assoc.
      reflexivity.
Qed.

End ExportClaims.

(** * Concrete runs *)

Lemma no_fault_staging_runs : staging_runs no_fault.
Proof. repeat split. Qed.

Lemma no_fault_analysis_runs : analysis_runs no_fault.
Proof. repeat split. Qed.

Lemma sde_with_sources areas :
  sources_present grid_buildings grid_use areas (sde_with areas).
Proof. repeat split. Qed.

Example grid_pipeline_table :
  pipeline_table grid_buildings grid_use grid_areas
  = [ {| t_BL_ID := 1; t_COLL_AREA := Some "AREA 1"; t_DWEL_UNITS := Some 3 |};
      {| t_BL_ID := 2; t_COLL_AREA := Some "AREA 2"; t_DWEL_UNITS := None |};
      {| t_BL_ID := 4; t_COLL_AREA := Some "AREA 1"; t_DWEL_UNITS := Some 2 |} ].
Proof. reflexivity. Qed.

Example grid_df_final :
  df_final_of (pipeline_table grid_buildings grid_use grid_areas)
  = [ ("AREA 1", {| SUM_of_DWELLING_UNITS := 5; BL_ID_COUNT := 2 |});
      ("AREA 2", {| SUM_of_DWELLING_UNITS := 0; BL_ID_COUNT := 1 |});
      ("TOTAL", {| SUM_of_DWELLING_UNITS := 5; BL_ID_COUNT := 3 |}) ].
Proof. reflexivity. Qed.

(** ** Witnesses and counterexamples *)


(** C6 as stated fails: building 3 is in the input and lies in no
    collection area; the table [waste_analysis] returns has no row for
    it. *)
Lemma building_outside_every_area_is_dropped :
  let w := after_staging grid_buildings grid_use grid_areas grid_world in
  let r := waste_analysis no_fault working_gdb local_bld_poly local_bld_use
             local_waste_areas w in
  fst r = Ok buildings_w_waste_areas_blduse
  /\ In 3 (map bp_BL_ID grid_buildings)
  /\ option_map (fun d => match d with
                          | BuildingsWithAreasAndUse rows =>
                              map (fun x => sj_BL_ID (joined x)) rows
                          | _ => []
                          end)
                (lookup buildings_w_waste_areas_blduse (gdb (snd r)))
     = Some [1; 2; 4].
Proof. repeat split. simpl. auto. Qed.

Lemma one_row_per_joined_building_witness :
  analysis_runs no_fault
  /\ copies_present grid_buildings grid_use grid_areas
       (after_staging grid_buildings grid_use grid_areas grid_world)
  /\ NoDup (map t_BL_ID (pipeline_table grid_buildings grid_use grid_areas)).
Proof.
  split; [exact no_fault_analysis_runs|].
  split; [apply copies_present_after_staging|].
  destruct (one_row_per_joined_building no_fault grid_buildings grid_use
              grid_areas
              (after_staging grid_buildings grid_use grid_areas grid_world)
              no_fault_analysis_runs
              (copies_present_after_staging _ _ _ _))
    as (_ & _ & _ & _ & _ & H & _).
  exact H.
Defined.

(** C7 as stated fails twice.  Building 4 lies across the border: it
    falls inside neither area and is assigned to "AREA 1".  And with
    areas that overlap, a building inside "AREA 2" is assigned to
    "AREA 1", which it also lies in and which comes first. *)
Lemma building_assigned_to_area_it_is_not_inside :
  sj_COLL_AREA (join_one_to_one grid_areas building_4) = Some "AREA 1"
  /\ within (Geometry := Grid) [3; 4] [1; 2; 3] = false
  /\ within (Geometry := Grid) [3; 4] [4; 5; 6] = false
  /\ within (Geometry := Grid) [5] [5; 6] = true
  /\ sj_COLL_AREA (join_one_to_one overlapping_areas building_2)
     = Some "AREA 1".
Proof. repeat split. Qed.

Lemma spatial_join_assigns_first_intersecting_witness :
  within (Geometry := Grid) [5] [4; 5; 6] = true
  /\ sj_COLL_AREA (join_one_to_one grid_areas building_2) = Some "AREA 2".
Proof.
  split; [reflexivity|].
  destruct (spatial_join_assigns_first_intersecting grid_buildings grid_areas)
    as (_ & _ & _ & _ & _ & H).
  apply (H building_2 area_2).
  - simpl. auto.
  - reflexivity.
  - intros a' [<-|[<-|[]]]; simpl; intros E; (reflexivity || discriminate).
Defined.

Lemma grid_area_1 :
  loc "AREA 1" (df_final_of (pipeline_table grid_buildings grid_use grid_areas))
  = Some {| SUM_of_DWELLING_UNITS := 5; BL_ID_COUNT := 2 |}.
Proof. reflexivity. Qed.

Lemma export_stage_witness :
  prepare_workspace no_fault grid_world
  = (Ok local_copies,
     after_staging grid_buildings grid_use grid_areas grid_world)
  /\ fst (main no_fault "11032026" grid_world) = Ok tt.
Proof.
  pose proof (prepare_workspace_run no_fault grid_buildings grid_use
                grid_areas grid_world no_fault_staging_runs
                (sde_with_sources grid_areas)) as Hp.
  split; [exact Hp|].
  destruct (export_stage no_fault "11032026" grid_world _ _ _ _ _ Hp
              (analyse_and_check_run no_fault grid_buildings grid_use
                 grid_areas _ _ no_fault_analysis_runs eq_refl
                 (copies_present_after_staging _ _ _ _) grid_area_1))
    as (t & _ & _ & _ & H & _).
  exact H.
Defined.




Lemma report_needs_area_1_witness :
  loc "AREA 1"
      (df_final_of (pipeline_table grid_buildings grid_use named_areas))
  = None
  /\ fst (main no_fault "11032026" (sde_with named_areas)) = Ok tt
  /\ files (snd (main no_fault "11032026" (sde_with named_areas)))
     = csv_exports (pipeline_table grid_buildings grid_use named_areas).
Proof.
  split; [reflexivity|].
  destruct (report_needs_area_1 no_fault "11032026" (sde_with named_areas))
    as [_ H].
  destruct (H grid_buildings grid_use named_areas no_fault_staging_runs
              no_fault_analysis_runs eq_refl (sde_with_sources named_areas)
              eq_refl) as (H1 & H2 & _).
  split; [exact H1 | exact H2].
Defined.

(** * Further properties of the aggregation *)

(** ** The order of the index *)

Lemma String_compare_refl a : String.compare a a = Eq.
Proof. now apply (OrderedTypeEx.String_as_OT.cmp_eq a a). Qed.

Lemma String_leb_iff a b :
  String.leb a b = true <-> a = b \/ OrderedTypeEx.String_as_OT.lt a b.
Proof.
  unfold String.leb.
  destruct (String.compare a b) eqn:E.
  - apply String.compare_eq_iff in E. tauto.
  - apply OrderedTypeEx.String_as_OT.cmp_lt in E. tauto.
  - split; [discriminate|]. intros [->|H].
    + rewrite String_compare_refl in E. discriminate.
    + apply OrderedTypeEx.String_as_OT.cmp_lt in H.
      unfold OrderedTypeEx.String_as_OT.cmp in H. congruence.
Qed.

Lemma String_leb_trans a b c :
  String.leb a b = true -> String.leb b c = true -> String.leb a c = true.
Proof.
  rewrite !String_leb_iff. intros [->|H1] [->|H2]; auto.
  right. eapply OrderedTypeEx.String_as_OT.lt_trans; eassumption.
Qed.

Lemma String_compare_Lt_trans a b c :
  String.compare a b = Lt -> String.compare b c = Lt ->
  String.compare a c = Lt.
Proof.
  intros H1 H2.
  apply OrderedTypeEx.String_as_OT.cmp_lt in H1, H2.
  apply OrderedTypeEx.String_as_OT.cmp_lt.
  eapply OrderedTypeEx.String_as_OT.lt_trans; eassumption.
Qed.

Lemma key_leb_total k1 k2 : key_leb k1 k2 = true \/ key_leb k2 k1 = true.
Proof.
  destruct k1 as [a1 b1], k2 as [a2 b2]. unfold key_leb. cbn [fst snd].
  rewrite (String.compare_antisym a1 a2).
  destruct (String.compare a2 a1); cbn [CompOpp]; auto.
  rewrite !Z.leb_le. lia.
Qed.

Lemma key_leb_antisym k1 k2 :
  key_leb k1 k2 = true -> key_leb k2 k1 = true -> k1 = k2.
Proof.
  destruct k1 as [a1 b1], k2 as [a2 b2]. unfold key_leb. cbn [fst snd].
  rewrite (String.compare_antisym a1 a2).
  destruct (String.compare a2 a1) eqn:E; cbn [CompOpp]; try discriminate.
  apply String.compare_eq_iff in E. subst a2.
  rewrite !Z.leb_le. intros. f_equal. lia.
Qed.

Lemma key_leb_trans k1 k2 k3 :
  key_leb k1 k2 = true -> key_leb k2 k3 = true -> key_leb k1 k3 = true.
Proof.
  destruct k1 as [a1 b1], k2 as [a2 b2], k3 as [a3 b3].
  unfold key_leb. cbn [fst snd].
  destruct (String.compare a1 a2) eqn:E12; try discriminate;
    destruct (String.compare a2 a3) eqn:E23; try discriminate.
  - apply String.compare_eq_iff in E12, E23. subst.
    rewrite String_compare_refl, !Z.leb_le. lia.
  - apply String.compare_eq_iff in E12. subst. now rewrite E23.
  - apply String.compare_eq_iff in E23. subst. now rewrite E12.
  - now rewrite (String_compare_Lt_trans _ _ _ E12 E23).
Qed.

(** Insertion into a sorted list, for a total and transitive order. *)
Section SortedFacts.
Context {K : Type} (leb : K -> K -> bool).
Hypothesis leb_total : forall a b, leb a b = true \/ leb b a = true.
Hypothesis leb_trans :
  forall a b c, leb a b = true -> leb b c = true -> leb a c = true.
Hypothesis leb_antisym : forall a b, leb a b = true -> leb b a = true -> a = b.

Lemma insert_sorted_sorted k l :
  StronglySorted (fun a b => leb a b = true) l ->
  StronglySorted (fun a b => leb a b = true) (insert_sorted leb k l).
Proof.
  induction 1 as [|h tl Hs IH Hh]; simpl.
  - constructor; constructor.
  - destruct (leb k h) eqn:E.
    + constructor; [now constructor|].
      constructor; [assumption|].
      eapply Forall_impl; [|exact Hh]. intros x Hx. eauto.
    + constructor; [assumption|].
      assert (Hhk : leb h k = true)
        by (destruct (leb_total k h); congruence).
      eapply Permutation_Forall; [apply insert_sorted_perm|].
      now constructor.
Qed.

Lemma sort_values_sorted l :
  StronglySorted (fun a b => leb a b = true) (sort_values leb l).
Proof.
  induction l as [|k l IH]; simpl; [constructor|].
  now apply insert_sorted_sorted.
Qed.

Lemma sorted_perm_eq l1 l2 :
  StronglySorted (fun a b => leb a b = true) l1 ->
  StronglySorted (fun a b => leb a b = true) l2 ->
  Permutation l1 l2 -> l1 = l2.
Proof.
  intros H1. revert l2.
  induction H1 as [|a l1 Hs1 IH Ha]; intros l2 H2 Hp.
  - apply Permutation_nil in Hp. now subst.
  - destruct H2 as [|b l2 Hs2 Hb].
    + symmetry in Hp. apply Permutation_nil in Hp. discriminate.
    + assert (E : a = b).
      { assert (Hab : In a (b :: l2))
          by (eapply Permutation_in; [exact Hp | now left]).
        assert (Hba : In b (a :: l1))
          by (eapply Permutation_in; [symmetry; exact Hp | now left]).
        destruct Hab as [Hab|Hab]; [now subst|].
        destruct Hba as [Hba|Hba]; [now subst|].
        rewrite Forall_forall in Ha, Hb. auto. }
      subst b. f_equal. apply IH; [assumption|].
      eapply Permutation_cons_inv; exact Hp.
Qed.

Lemma sort_values_perm_eq l1 l2 :
  Permutation l1 l2 -> sort_values leb l1 = sort_values leb l2.
Proof.
  intros Hp. apply sorted_perm_eq; try apply sort_values_sorted.
  rewrite <- (sort_values_perm leb l1), <- (sort_values_perm leb l2).
  exact Hp.
Qed.
End SortedFacts.

Lemma sumZ_perm l1 l2 : Permutation l1 l2 -> sumZ l1 = sumZ l2.
Proof. induction 1; simpl; lia. Qed.

Lemma filter_perm {A} (p : A -> bool) l1 l2 :
  Permutation l1 l2 -> Permutation (filter p l1) (filter p l2).
Proof.
  induction 1 as [|x l1 l2 _ IH|x y l|l1 l2 l3 _ IH1 _ IH2]; simpl.
  - constructor.
  - destruct (p x); [now constructor | assumption].
  - destruct (p x), (p y); try reflexivity. apply perm_swap.
  - etransitivity; eassumption.
Qed.

Lemma nodup_perm {A} (dec : forall x y : A, {x = y} + {x <> y}) l1 l2 :
  Permutation l1 l2 -> Permutation (nodup dec l1) (nodup dec l2).
Proof.
  intros Hp. apply NoDup_Permutation; try apply NoDup_nodup.
  intros x. rewrite !nodup_In.
  split; apply Permutation_in; [|symmetry]; exact Hp.
Qed.

Lemma groupby_case_fields_perm rows rows' :
  Permutation rows rows' ->
  groupby_case_fields rows = groupby_case_fields rows'.
Proof.
  intros Hp. unfold groupby_case_fields.
  rewrite (sort_values_perm_eq key_leb key_leb_total key_leb_trans
             key_leb_antisym _ (nodup key_eq_dec (map case_fields rows')))
    by (apply nodup_perm, Permutation_map, Hp).
  apply map_ext. intros k. cbv zeta.
  assert (Hf : Permutation
                 (filter (fun r => key_eqb (case_fields r) k) rows)
                 (filter (fun r => key_eqb (case_fields r) k) rows'))
    by (apply filter_perm, Hp).
  f_equal. f_equal.
  - apply sumZ_perm, Permutation_map, Hf.
  - f_equal. apply Permutation_length, Hf.
Qed.

Lemma query_le6_perm t t' :
  Permutation t t' ->
  Permutation (query_le6 (df_of t)) (query_le6 (df_of t')).
Proof.
  intros Hp. apply filter_perm. unfold df_of, FeatureClassToNumPyArray.
  apply Permutation_map, Hp.
Qed.

(** X1.  The order of the rows of the table handed to [summarize_units]
    has no influence on the summary by (area, building) nor on the report
    by area: both are the same for two tables with the same rows in
    another order. *)
Theorem report_independent_of_row_order (t t' : list table_row) :
  Permutation t t' ->
  df_summary_one_of t = df_summary_one_of t'
  /\ df_final_of t = df_final_of t'.
Proof.
  intros Hp.
  assert (E : df_summary_one_of t = df_summary_one_of t')
    by (apply groupby_case_fields_perm, query_le6_perm, Hp).
  split; [exact E|].
  unfold df_final_of, df_by_area_of. now rewrite E.
Qed.

Lemma report_independent_of_row_order_witness :
  Permutation two_buildings (rev two_buildings)
  /\ df_final_of two_buildings = df_final_of (rev two_buildings).
Proof.
  split; [apply Permutation_rev|].
  apply (report_independent_of_row_order two_buildings (rev two_buildings)).
  apply Permutation_rev.
Defined.

Lemma groupby_coll_area_index summary :
  map fst (groupby_coll_area summary)
  = sort_values String.leb
      (nodup string_dec
         (map (fun r : group_key * agg_row => fst (fst r)) summary)).
Proof.
  unfold groupby_coll_area. rewrite map_map. simpl. apply map_id.
Qed.

(** X2.  Both groupings come out indexed in ascending order without
    repetition: the summary by (area, building) in the order of the area
    names and, within an area, of the building identifiers; the table by
    area in the order of the area names. *)
Theorem groupings_are_sorted (t : list table_row) :
  StronglySorted (fun k1 k2 => key_leb k1 k2 = true)
                 (map fst (df_summary_one_of t))
  /\ NoDup (map fst (df_summary_one_of t))
  /\ StronglySorted (fun a b => String.leb a b = true)
                    (map fst (df_by_area_of t))
  /\ NoDup (map fst (df_by_area_of t))
  /\ (forall a1 b1 a2 b2,
        key_leb (a1, b1) (a2, b2) = true <->
        String.ltb a1 a2 = true \/ (a1 = a2 /\ b1 <= b2)).
Proof.
  unfold df_by_area_of, df_summary_one_of.
  rewrite groupby_case_fields_index, groupby_coll_area_index.
  split; [|split; [|split; [|split]]].
  - apply sort_values_sorted; [apply key_leb_total | apply key_leb_trans].
  - apply summary_keys_NoDup.
  - apply sort_values_sorted; [apply String.leb_total | apply String_leb_trans].
  - apply sort_values_NoDup, NoDup_nodup.
  - intros a1 b1 a2 b2. unfold key_leb, String.ltb. cbn [fst snd].
    destruct (String.compare a1 a2) eqn:E.
    + apply String.compare_eq_iff in E. subst a2. rewrite Z.leb_le.
      split; [auto | intros [H|[_ H]]; [discriminate | exact H]].
    + split; auto.
    + split; [discriminate|]. intros [H|[-> _]]; [discriminate|].
      rewrite String_compare_refl in E. discriminate.
Qed.

(** ** What the frames hold *)

Lemma null_value_units r :
  DWEL_UNITS (null_value r)
  = match t_DWEL_UNITS r with Some u => u | None => 0 end.
Proof. reflexivity. Qed.

Lemma query_le6_drop t1 t2 r u :
  t_DWEL_UNITS r = Some u -> 6 < u ->
  query_le6 (df_of (t1 ++ r :: t2)) = query_le6 (df_of (t1 ++ t2)).
Proof.
  intros Hu Hlt. unfold df_of, FeatureClassToNumPyArray, query_le6.
  rewrite !map_app, !filter_app. cbn [map filter].
  rewrite null_value_units, Hu.
  destruct (u <=? 6) eqn:E; [apply Z.leb_le in E; lia | reflexivity].
Qed.

(** X3.  A row with more than six dwelling units has no influence on the
    summary by (area, building) nor on the report by area: both are what
    they would be without the row.  The row is still part of the frame
    [df], which is the one written to "df_original.csv". *)
Theorem rows_above_six_units_are_ignored
  (t1 t2 : list table_row) (r : table_row) (u : Z) :
  t_DWEL_UNITS r = Some u -> 6 < u ->
  df_summary_one_of (t1 ++ r :: t2) = df_summary_one_of (t1 ++ t2)
  /\ df_final_of (t1 ++ r :: t2) = df_final_of (t1 ++ t2)
  /\ In (null_value r) (df_of (t1 ++ r :: t2)).
Proof.
  intros Hu Hlt.
  assert (E : df_summary_one_of (t1 ++ r :: t2) = df_summary_one_of (t1 ++ t2))
    by (unfold df_summary_one_of; now rewrite (query_le6_drop t1 t2 r u)).
  split; [exact E|]. split.
  - unfold df_final_of, df_by_area_of. now rewrite E.
  - unfold df_of, FeatureClassToNumPyArray. apply in_map, in_elt.
Qed.

Lemma rows_above_six_units_are_ignored_witness :
  df_final_of two_buildings
  = df_final_of
      [ {| t_BL_ID := 1; t_COLL_AREA := Some "AREA 1";
           t_DWEL_UNITS := Some 4 |};
        {| t_BL_ID := 3; t_COLL_AREA := Some "AREA 2";
           t_DWEL_UNITS := None |} ].
Proof.
  apply (rows_above_six_units_are_ignored
           [ {| t_BL_ID := 1; t_COLL_AREA := Some "AREA 1";
                t_DWEL_UNITS := Some 4 |} ]
           [ {| t_BL_ID := 3; t_COLL_AREA := Some "AREA 2";
                t_DWEL_UNITS := None |} ]
           {| t_BL_ID := 2; t_COLL_AREA := Some "AREA 1";
              t_DWEL_UNITS := Some 9 |} 9);
    [reflexivity | lia].
Defined.

Lemma loc_loc_set_same {V} label (v : V) df :
  loc label (loc_set label v df) = Some v.
Proof.
  induction df as [|[l x] df IH]; simpl.
  - now rewrite String.eqb_refl.
  - destruct (String.eqb l label) eqn:E; simpl; now rewrite E.
Qed.

Lemma loc_set_label_once {V} label (v : V) df :
  NoDup (map fst df) ->
  List.length (filter (fun r => String.eqb (fst r) label) (loc_set label v df))
  = 1%nat.
Proof.
  induction df as [|[l x] df IH]; simpl; intros Hnd.
  - now rewrite String.eqb_refl.
  - inversion Hnd as [|? ? Hl Hnd']; subst.
    destruct (String.eqb l label) eqn:E; simpl; rewrite E.
    + apply String.eqb_eq in E. subst l. simpl. f_equal.
      apply length_zero_iff_nil, filter_nil_iff.
      intros [l' x'] Hin. simpl. apply String.eqb_neq. intros ->.
      apply Hl. apply in_map_iff. now exists (label, x').
    + now apply IH.
Qed.

Lemma rename_index_TOTAL df :
  List.length (filter (fun r => String.eqb (fst r) "TOTAL") (rename_index df))
  = List.length (filter (fun r => String.eqb (fst r) "TOTAL") df).
Proof.
  unfold rename_index. rewrite filter_map_swap, length_map.
  f_equal. apply filter_ext. intros [l x]. simpl.
  destruct (String.eqb l "COLL_AREA") eqn:E; [|reflexivity].
  apply String.eqb_eq in E. now subst l.
Qed.

Lemma length_as_sum {A} (l : list A) :
  Z.of_nat (List.length l) = sumZ (map (fun _ => 1) l).
Proof.
  induction l as [|x l IH]; [reflexivity|].
  change (Z.of_nat (S (List.length l)) = 1 + sumZ (map (fun _ => 1) l)).
  rewrite <- IH. lia.
Qed.

(** The sum row's count is the number of rows of the first grouping. *)
Lemma frame_sum_count t :
  BL_ID_COUNT (frame_sum (df_by_area_of t))
  = Z.of_nat (List.length (df_summary_one_of t)).
Proof.
  unfold frame_sum, df_by_area_of, groupby_coll_area.
  cbn [BL_ID_COUNT]. rewrite map_map. cbn [snd BL_ID_COUNT].
  set (S := df_summary_one_of t).
  rewrite (sumZ_map_ext _
    (fun a => sumZ (map (fun _ => 1)
                        (filter (fun r : group_key * agg_row =>
                                   String.eqb (fst (fst r)) a) S))))
    by (intros a _; apply length_as_sum).
  rewrite length_as_sum.
  apply (partition_sum (fun r : group_key * agg_row => fst (fst r))
           String.eqb String.eqb_eq).
  - apply sort_values_NoDup, NoDup_nodup.
  - intros r Hr. apply sort_values_In, nodup_In, in_map_iff. now exists r.
Qed.

Lemma df_by_area_index_NoDup t : NoDup (map fst (df_by_area_of t)).
Proof.
  unfold df_by_area_of, groupby_coll_area. rewrite map_map. simpl.
  rewrite map_id. apply sort_values_NoDup, NoDup_nodup.
Qed.

(** X4.  Whatever the table, the returned report has exactly one row
    labelled "TOTAL"; it holds the dwelling units of all rows with at most
    six units, and as its count the number of rows of the summary by
    (area, building), which is the number of distinct (area, building)
    pairs among those rows. *)
Theorem total_row_holds_the_grand_totals (t : list table_row) :
  loc "TOTAL" (df_final_of t)
  = Some {| SUM_of_DWELLING_UNITS :=
              sumZ (map DWEL_UNITS (query_le6 (df_of t)));
            BL_ID_COUNT := Z.of_nat (List.length (df_summary_one_of t)) |}
  /\ List.length (df_summary_one_of t)
     = List.length
         (nodup key_eq_dec (map case_fields (query_le6 (df_of t))))
  /\ List.length
       (filter (fun r => String.eqb (fst r) "TOTAL") (df_final_of t))
     = 1%nat.
Proof.
  split; [|split].
  - unfold df_final_of. rewrite loc_rename_index by discriminate.
    rewrite loc_loc_set_same. f_equal.
    rewrite <- frame_sum_units, <- frame_sum_count.
    now destruct (frame_sum (df_by_area_of t)).
  - unfold df_summary_one_of, groupby_case_fields. rewrite length_map.
    symmetry. apply Permutation_length, sort_values_perm.
  - unfold df_final_of. rewrite rename_index_TOTAL.
    apply loc_set_label_once, df_by_area_index_NoDup.
Qed.

(** X5.  When no row of the table has six units or fewer (an empty table
    included), the summary by (area, building) is empty and the returned
    report consists of the "TOTAL" row alone, with zero units and zero
    buildings; it has no row for "AREA 1". *)
Theorem report_without_small_buildings (t : list table_row) :
  (forall r, In r t -> exists u, t_DWEL_UNITS r = Some u /\ 6 < u) ->
  df_summary_one_of t = []
  /\ df_final_of t
     = [("TOTAL", {| SUM_of_DWELLING_UNITS := 0; BL_ID_COUNT := 0 |})]
  /\ loc "AREA 1" (df_final_of t) = None.
Proof.
  intros H.
  assert (E : query_le6 (df_of t) = []).
  { apply filter_nil_iff. intros x Hx.
    unfold df_of, FeatureClassToNumPyArray in Hx.
    apply in_map_iff in Hx as [r [<- Hr]].
    destruct (H r Hr) as [u [Hu Hlt]].
    rewrite null_value_units, Hu.
    apply Z.leb_gt. lia. }
  assert (E1 : df_summary_one_of t = [])
    by (unfold df_summary_one_of; now rewrite E).
  assert (E2 : df_final_of t
               = [("TOTAL",
                   {| SUM_of_DWELLING_UNITS := 0; BL_ID_COUNT := 0 |})])
    by (unfold df_final_of, df_by_area_of; now rewrite E1).
  split; [exact E1|]. split; [exact E2|]. now rewrite E2.
Qed.

Lemma report_without_small_buildings_witness :
  df_final_of only_large_buildings
  = [("TOTAL", {| SUM_of_DWELLING_UNITS := 0; BL_ID_COUNT := 0 |})].
Proof.
  apply (report_without_small_buildings only_large_buildings).
  intros r [<-|[<-|[<-|[]]]]; eexists; (split; [reflexivity | lia]).
Defined.

Lemma sumZ_bound (c : Z) l :
  (forall x, In x l -> x <= c) -> sumZ l <= c * Z.of_nat (List.length l).
Proof.
  induction l as [|x l IH]; intros H.
  - simpl. lia.
  - assert (Hx : x <= c) by (apply H; now left).
    assert (Hl : sumZ l <= c * Z.of_nat (List.length l))
      by (apply IH; intros y Hy; apply H; now right).
    cbn [sumZ fold_right List.length]. fold (sumZ l).
    rewrite Nat2Z.inj_succ. lia.
Qed.

(** X6.  Every row of the summary by (area, building) stands for at least
    one row of the table with that area and building and at most six
    units, counts at least one row, and shows at most six units per
    counted row. *)
Theorem summary_rows_are_small (t : list table_row) (k : group_key)
  (line : agg_row) :
  In (k, line) (df_summary_one_of t) ->
  (exists r, In r (df_of t) /\ case_fields r = k /\ DWEL_UNITS r <= 6)
  /\ 1 <= BL_ID_COUNT line
  /\ SUM_of_DWELLING_UNITS line <= 6 * BL_ID_COUNT line.
Proof.
  unfold df_summary_one_of, groupby_case_fields. intros Hin.
  apply in_map_iff in Hin as [k' [E Hk]]. cbv zeta in E.
  injection E as -> <-.
  fold (summary_keys (query_le6 (df_of t))) in Hk.
  apply summary_keys_In in Hk as [r [Hr Hkey]].
  set (g := filter (fun r0 => key_eqb (case_fields r0) k)
                   (query_le6 (df_of t))).
  assert (Hg : In r g)
    by (apply filter_In; split; [exact Hr | now apply key_eqb_eq]).
  cbn [BL_ID_COUNT SUM_of_DWELLING_UNITS].
  split; [|split].
  - exists r. unfold query_le6 in Hr. apply filter_In in Hr as [Hr Hle].
    apply Z.leb_le in Hle. auto.
  - destruct g; [contradiction | simpl List.length; lia].
  - rewrite <- (length_map DWEL_UNITS g). apply sumZ_bound. intros x Hx.
    apply in_map_iff in Hx as [r0 [<- Hr0]].
    apply filter_In in Hr0 as [Hr0 _].
    unfold query_le6 in Hr0. apply filter_In in Hr0 as [_ Hle].
    now apply Z.leb_le.
Qed.

Lemma summary_rows_are_small_witness :
  In (("AREA 1", 1), {| SUM_of_DWELLING_UNITS := 8; BL_ID_COUNT := 2 |})
     (df_summary_one_of one_building_two_rows)
  /\ 8 <= 6 * 2.
Proof.
  assert (H : In (("AREA 1", 1),
                  {| SUM_of_DWELLING_UNITS := 8; BL_ID_COUNT := 2 |})
                 (df_summary_one_of one_building_two_rows))
    by (left; reflexivity).
  split; [exact H|].
  apply (summary_rows_are_small one_building_two_rows _ _ H).
Defined.

Section LookupArea1.
Context {G : Geometry}.

(** X7.  The Area 1 lookup of the [__main__] block returns the dwelling
    units of the rows of area "AREA 1" with at most six units, and raises
    KeyError exactly when there is no such row; it leaves everything else
    as it is. *)
Theorem area_1_units_or_KeyError (t : list table_row) (w : world) :
  (rows_in_area "AREA 1" (df_of t) <> [] ->
   lookup_area_1 (df_final_of t) w
   = (Ok (sumZ (map DWEL_UNITS (rows_in_area "AREA 1" (df_of t)))), w))
  /\ (rows_in_area "AREA 1" (df_of t) = [] ->
      lookup_area_1 (df_final_of t) w = (Raise (KeyError "AREA 1"), w)).
Proof.
  unfold lookup_area_1.
  rewrite df_final_loc by discriminate.
  rewrite df_by_area_loc. unfold area_line.
  destruct (rows_in_area "AREA 1" (df_of t)) as [|r rs].
  - split; [tauto | reflexivity].
  - split; [reflexivity | discriminate].
Qed.

End LookupArea1.

(** ** The lines of the report, row by row, and the relabelling *)

(** X16.  The report read at an area, for any table: the line holds the
    dwelling units of the rows of that area with at most six units and
    the number of distinct buildings these rows name, and there is no
    line when the area has no such row.  The filter bears on each row's
    own value, whatever the number of rows of a building. *)
Theorem report_line_of_rows (t : list table_row) (a : string) :
  loc a (df_by_area_of t) = area_line (rows_in_area a (df_of t))
  /\ (forall r, In r (rows_in_area a (df_of t)) <->
                In r (df_of t) /\ DWEL_UNITS r <= 6 /\ COLL_AREA r = a)
  /\ (a <> "TOTAL" /\ a <> "COLL_AREA" /\ a <> "COLLECTION AREA" ->
      loc a (df_final_of t) = area_line (rows_in_area a (df_of t))).
Proof.
  split; [apply df_by_area_loc|].
  split; [intros r; apply rows_in_area_In|].
  intros (H1 & H2 & H3). rewrite df_final_loc by assumption.
  apply df_by_area_loc.
Qed.



(** * Further properties of the geometry pipeline *)

Section PipelineReport.
Context {G : Geometry}.
Variable fault : call_site -> option exn.

Lemma area_line_None rs : area_line rs = None <-> rs = [].
Proof. destruct rs; simpl; split; (reflexivity || discriminate). Qed.

Lemma df_of_In r t : In r (df_of t) <-> exists x, In x t /\ null_value x = r.
Proof.
  unfold df_of, FeatureClassToNumPyArray. rewrite in_map_iff.
  split; intros [x H]; exists x; tauto.
Qed.

(** The areas with a line in the table by area, for the table that the
    pipeline delivers. *)
Lemma pipeline_area_listed bs us cs a :
  loc a (df_by_area_of (pipeline_table bs us cs)) <> None
  <-> exists d c,
        In d (Dissolve bs)
        /\ first_area (bp_SHAPE d) cs = Some c
        /\ wa_COLL_AREA c = a
        /\ match first_use (bp_BL_ID d) us with
           | Some u => u <= 6
           | None => True
           end.
Proof.
  rewrite df_by_area_loc, area_line_None. split.
  - intros Hne.
    destruct (rows_in_area a (df_of (pipeline_table bs us cs)))
      as [|r rs] eqn:E; [contradiction|].
    assert (Hr : In r (rows_in_area a (df_of (pipeline_table bs us cs))))
      by (rewrite E; now left).
    apply rows_in_area_In in Hr as (Hr & Hle & Ha).
    apply df_of_In in Hr as (x & Hx & <-).
    apply pipeline_table_rows in Hx as (d & c & Hd & Hc & ->).
    exists d, c. split; [assumption|]. split; [assumption|].
    split; [exact Ha|].
    rewrite null_value_units in Hle. cbn [t_DWEL_UNITS] in Hle.
    destruct (first_use (bp_BL_ID d) us); [exact Hle | exact I].
  - intros (d & c & Hd & Hc & Ha & Hle) Hnil.
    assert (Hr : In (null_value
                       {| t_BL_ID := bp_BL_ID d;
                          t_COLL_AREA := Some (wa_COLL_AREA c);
                          t_DWEL_UNITS := first_use (bp_BL_ID d) us |})
                    (rows_in_area a (df_of (pipeline_table bs us cs)))).
    { apply rows_in_area_In. split; [|split].
      - apply df_of_In. eexists. split; [|reflexivity].
        apply pipeline_table_rows. exists d, c. auto.
      - rewrite null_value_units. cbn [t_DWEL_UNITS].
        destruct (first_use (bp_BL_ID d) us); [exact Hle | lia].
      - exact Ha. }
    rewrite Hnil in Hr. contradiction.
Qed.

(** X8.  Run on the table that [waste_analysis] delivers, the report has
    a line for a collection area exactly when some building, dissolved by
    identifier, has that area as the first one it intersects and has at
    most six dwelling units or no recorded value.  An area without such a
    building has no line, and no line stands for an area that is not in
    the collection areas; apart from "TOTAL", "COLL_AREA" and
    "COLLECTION AREA" the returned report has the same labels. *)
Theorem report_lists_areas_of_small_buildings
  (bs : list building_polygon) (us : list building_use)
  (cs : list waste_coll_area) (a : string) :
  let listed :=
    exists d c,
      In d (Dissolve bs)
      /\ first_area (bp_SHAPE d) cs = Some c
      /\ wa_COLL_AREA c = a
      /\ match first_use (bp_BL_ID d) us with
         | Some u => u <= 6
         | None => True
         end in
  (In a (map fst (df_by_area_of (pipeline_table bs us cs))) <-> listed)
  /\ (In a (map fst (df_by_area_of (pipeline_table bs us cs))) ->
      In a (map wa_COLL_AREA cs))
  /\ (a <> "TOTAL" /\ a <> "COLL_AREA" /\ a <> "COLLECTION AREA" ->
      (In a (map fst (df_final_of (pipeline_table bs us cs))) <-> listed)).
Proof.
  intros listed. split; [|split].
  - rewrite <- loc_In_fst. apply pipeline_area_listed.
  - rewrite <- loc_In_fst, pipeline_area_listed.
    intros (d & c & _ & Hc & <- & _). apply in_map.
    apply find_some in Hc. tauto.
  - intros (H1 & H2 & H3).
    rewrite <- loc_In_fst, df_final_loc by assumption.
    apply pipeline_area_listed.
Qed.

Lemma NoDup_map_outer {A B C} (f : A -> B) (g : B -> C) l :
  NoDup (map (fun x => g (f x)) l) -> NoDup (map f l).
Proof.
  induction l as [|x l IH]; simpl; intros H; [constructor|].
  inversion H as [|? ? Hx Hl]; subst. constructor; [|auto].
  intros Hin. apply Hx. apply in_map_iff in Hin as [y [E Hy]].
  apply in_map_iff. exists y. split; [now rewrite E | assumption].
Qed.


Lemma pipeline_keys_NoDup bs us cs :
  NoDup (map case_fields (query_le6 (df_of (pipeline_table bs us cs)))).
Proof.
  apply (NoDup_map_outer case_fields snd).
  change (NoDup (map BL_ID (query_le6 (df_of (pipeline_table bs us cs))))).
  unfold query_le6. apply NoDup_map_filter.
  unfold df_of, FeatureClassToNumPyArray. rewrite map_map.
  apply pipeline_table_NoDup.
Qed.



Lemma JoinField_In r fs us :
  In r (JoinField fs us) -> In (joined r) fs.
Proof.
  unfold JoinField. intros H. apply in_map_iff in H as [x [<- Hx]].
  exact Hx.
Qed.

Lemma join_one_to_one_unmatched cs t :
  Join_Count (join_one_to_one cs t) = 0
  <-> sj_COLL_AREA (join_one_to_one cs t) = None.
Proof.
  unfold join_one_to_one. cbn [Join_Count sj_COLL_AREA].
  destruct (filter _ cs); simpl; split; (reflexivity || discriminate || lia).
Qed.

(** X10.  When the engine does not fail, [waste_analysis] leaves the three
    local copies as they were, and the feature class
    "buildings_w_waste_areas", which the attribute join changes in place,
    holds one row for every building identifier of the input, matched or
    not; a row has a join count of zero exactly when its area is NULL.
    The feature class handed on is this one without the rows of join
    count zero. *)
Theorem joined_features_keep_every_building
  (bs : list building_polygon) (us : list building_use)
  (cs : list waste_coll_area) (w : world) :
  analysis_runs fault -> copies_present bs us cs w ->
  let w' := snd (waste_analysis fault working_gdb local_bld_poly
                   local_bld_use local_waste_areas w) in
  copies_present bs us cs w'
  /\ exists rows,
       lookup buildings_w_waste_areas (gdb w')
       = Some (BuildingsWithAreasAndUse rows)
       /\ NoDup (map (fun r => sj_BL_ID (joined r)) rows)
       /\ (forall b, In b (map (fun r => sj_BL_ID (joined r)) rows)
                     <-> In b (map bp_BL_ID bs))
       /\ (forall r, In r rows ->
             (Join_Count (joined r) = 0 <-> sj_COLL_AREA (joined r) = None))
       /\ lookup buildings_w_waste_areas_blduse (gdb w')
          = Some (BuildingsWithAreasAndUse
                    (filter (fun r => Join_Count_gt_0 (joined r)) rows)).
Proof.
  intros Ha (Hb & Hu & Hc) w'. subst w'.
  rewrite (waste_analysis_run fault bs us cs w Ha Hb Hu Hc). cbn [snd].
  split; [repeat split; assumption|].
  exists (JoinField (SpatialJoin (Dissolve bs) cs) us).
  split; [reflexivity|].
  rewrite JoinField_ids, SpatialJoin_ids.
  split; [apply Dissolve_NoDup|]. split; [intros b; apply Dissolve_In|].
  split; [|reflexivity].
  intros r Hr. apply JoinField_In in Hr.
  unfold SpatialJoin in Hr. apply in_map_iff in Hr as [t [<- _]].
  apply join_one_to_one_unmatched.
Qed.

End PipelineReport.

Lemma joined_features_keep_every_building_witness :
  analysis_runs no_fault
  /\ copies_present grid_buildings grid_use grid_areas
       (after_staging grid_buildings grid_use grid_areas grid_world)
  /\ copies_present grid_buildings grid_use grid_areas
       (snd (waste_analysis no_fault working_gdb local_bld_poly
               local_bld_use local_waste_areas
               (after_staging grid_buildings grid_use grid_areas
                  grid_world))).
Proof.
  split; [exact no_fault_analysis_runs|].
  split; [apply copies_present_after_staging|].
  apply (joined_features_keep_every_building no_fault grid_buildings
           grid_use grid_areas
           (after_staging grid_buildings grid_use grid_areas grid_world)
           no_fault_analysis_runs
           (copies_present_after_staging grid_buildings grid_use grid_areas
              grid_world)).
Defined.

(** * Further properties of the run *)

(** ** Lines and calls in program order *)

Lemma begins_nil {X} (ps : list (X -> Prop)) : begins ps [].
Proof. exists [], ps. split; [reflexivity | constructor]. Qed.

Lemma along_app {X} (ps qs : list (X -> Prop)) xs ys :
  along ps xs -> along qs ys -> along (ps ++ qs) (xs ++ ys).
Proof. apply Forall2_app. Qed.

Lemma begins_app_r {X} (ps qs : list (X -> Prop)) xs :
  begins ps xs -> begins (ps ++ qs) xs.
Proof.
  intros (d & r & -> & H). exists d, (r ++ qs).
  split; [now rewrite app_assoc | assumption].
Qed.

Lemma begins_app {X} (ps qs : list (X -> Prop)) xs ys :
  along ps xs -> begins qs ys -> begins (ps ++ qs) (xs ++ ys).
Proof.
  intros H (d & r & -> & H2). exists (ps ++ d), r.
  split; [now rewrite app_assoc | now apply along_app].
Qed.

Lemma along_nil {X} (xs : list X) : along [] xs -> xs = [].
Proof. intros H. now inversion H. Qed.

Lemma begins_none {X} (xs : list X) : begins [] xs -> xs = [].
Proof.
  intros (d & r & E & H). symmetry in E. apply app_eq_nil in E as [-> _].
  now apply along_nil.
Qed.

Lemma begins_Forall {X} (P : X -> Prop) (ps : list (X -> Prop)) xs :
  Forall (fun p : X -> Prop => forall x, p x -> P x) ps ->
  begins ps xs -> Forall P xs.
Proof.
  intros Hps (d & r & -> & H). apply Forall_app in Hps as [Hd _].
  induction H as [|p x d xs Hpx _ IH]; [constructor|].
  inversion Hd; subst. constructor; auto.
Qed.

Section RunOrder.
Context {G : Geometry}.
Variable fault : call_site -> option exn.
Variable TODAY : string.

Lemma proceeds_ret {A} (a : A) (Q : A -> Prop) :
  Q a -> proceeds (ret a) [] [] Q.
Proof.
  intros Ha w. exists [], []. cbn [ret fst snd]. rewrite !app_nil_r.
  split; [reflexivity|]. split; [reflexivity|].
  split; [constructor | auto].
Qed.

Lemma proceeds_raise {A} (e : exn) L H (Q : A -> Prop) :
  proceeds (raise e) L H Q.
Proof.
  intros w. exists [], []. cbn [raise fst snd]. rewrite !app_nil_r.
  split; [reflexivity|]. split; [reflexivity|].
  split; [apply begins_nil | now exists H].
Qed.

Lemma proceeds_bind {A B} (m : M A) (k : A -> M B) L1 H1 Q1 L2 H2 L H Q :
  proceeds m L1 H1 Q1 ->
  L = L1 ++ L2 -> H = H1 ++ H2 ->
  (forall a, Q1 a -> proceeds (k a) L2 H2 Q) ->
  proceeds (bind m k) L H Q.
Proof.
  intros Hm -> -> Hk w. unfold bind.
  destruct (Hm w) as (l1 & c1 & El1 & Ec1 & R1).
  destruct (m w) as [[a|e] w1]; cbn [fst snd] in *.
  - destruct R1 as (Al1 & -> & Qa).
    destruct (Hk a Qa w1) as (l2 & c2 & El2 & Ec2 & R2).
    exists (l1 ++ l2), (H1 ++ c2).
    rewrite El2, Ec2, El1, Ec1, !app_assoc.
    split; [reflexivity|]. split; [reflexivity|].
    destruct (fst (k a w1)).
    + destruct R2 as (Al2 & -> & Qb). split; [now apply along_app | auto].
    + destruct R2 as (B2 & rest & ->). split; [now apply begins_app|].
      exists rest. now rewrite app_assoc.
  - destruct R1 as (B1 & rest & ->).
    exists l1, c1. split; [assumption|]. split; [assumption|].
    split; [now apply begins_app_r|].
    exists (rest ++ H2). now rewrite app_assoc.
Qed.

Lemma proceeds_logger_as (P : level * message -> Prop) lvl msg :
  P (lvl, msg) -> proceeds (logger lvl msg) [P] [] (fun _ => True).
Proof.
  intros HP w. exists [(lvl, msg)], []. cbn [logger fst snd log history].
  rewrite app_nil_r. split; [reflexivity|]. split; [reflexivity|].
  split; [|auto]. constructor; [exact HP | constructor].
Qed.

Lemma proceeds_logger lvl msg :
  proceeds (logger lvl msg) [eq (lvl, msg)] [] (fun _ => True).
Proof. now apply proceeds_logger_as. Qed.

Lemma proceeds_write_file name f :
  proceeds (write_file name f) [] [] (fun _ => True).
Proof.
  intros w. exists [], []. cbn [write_file fst snd log history].
  rewrite !app_nil_r. split; [reflexivity|]. split; [reflexivity|].
  split; [constructor | auto].
Qed.

Lemma proceeds_read_dataset p :
  proceeds (read_dataset p) [] [] (fun _ => True).
Proof.
  intros w. exists [], []. cbn [read_dataset fst snd].
  rewrite !app_nil_r. split; [reflexivity|]. split; [reflexivity|].
  split; [constructor | auto].
Qed.

Lemma proceeds_write_dataset p d :
  proceeds (write_dataset p d) [] [] (fun _ => True).
Proof.
  intros w. exists [], []. cbn [write_dataset fst snd log history].
  rewrite !app_nil_r. split; [reflexivity|]. split; [reflexivity|].
  split; [constructor | auto].
Qed.

Lemma proceeds_invoke site c :
  proceeds (invoke fault site c) [] [c] (fun _ => True).
Proof.
  intros w. exists [], [c]. unfold invoke.
  destruct (fault site); cbn [fst snd log history]; rewrite app_nil_r;
    (split; [reflexivity|]); (split; [reflexivity|]).
  - split; [apply begins_nil | now exists []].
  - split; [constructor | auto].
Qed.

Ltac proceeds_prim :=
  first [ apply proceeds_logger | apply proceeds_write_file
        | apply proceeds_invoke | apply proceeds_read_dataset
        | apply proceeds_write_dataset ].

Ltac proceeds_bind_prim :=
  eapply proceeds_bind;
  [ proceeds_prim | reflexivity | reflexivity
  | let v := fresh "v" in intros v _ ].

Ltac proceeds_tail :=
  repeat first [ apply proceeds_raise
               | apply proceeds_ret; reflexivity
               | proceeds_bind_prim ].

Ltac proceeds_bind_with lem :=
  eapply proceeds_bind;
  [ apply lem | reflexivity | reflexivity | intros ? <- ].

Ltac proceeds_bind_any lem :=
  eapply proceeds_bind;
  [ apply lem | reflexivity | reflexivity | intros ? ? ].

(** *** The tools *)

Lemma proceeds_CreateFileGDB_management :
  proceeds (CreateFileGDB_management fault) []
    [{| tool := "CreateFileGDB"; inputs := [];
        outputs := [os_path_join working_gdb []] |}]
    (eq working_gdb).
Proof.
  unfold CreateFileGDB_management. proceeds_bind_prim.
  intros w. exists [], []. cbn [fst snd log history]. rewrite !app_nil_r.
  split; [reflexivity|]. split; [reflexivity|].
  split; [constructor | auto].
Qed.

Lemma proceeds_FeatureClassToFeatureClass_conversion site in_features
  out_path out_name where_clause :
  proceeds (FeatureClassToFeatureClass_conversion fault site in_features
              out_path out_name where_clause) []
    [{| tool := "FeatureClassToFeatureClass"; inputs := [in_features];
        outputs := [os_path_join out_path [out_name]] |}]
    (eq (os_path_join out_path [out_name])).
Proof.
  unfold FeatureClassToFeatureClass_conversion. do 2 proceeds_bind_prim.
  destruct v0 as [[]|], where_clause; proceeds_tail.
Qed.

Lemma proceeds_TableToTable_conversion site in_rows out_path out_name :
  proceeds (TableToTable_conversion fault site in_rows out_path out_name) []
    [{| tool := "TableToTable"; inputs := [in_rows];
        outputs := [os_path_join out_path [out_name]] |}]
    (eq (os_path_join out_path [out_name])).
Proof.
  unfold TableToTable_conversion. do 2 proceeds_bind_prim.
  destruct v0; proceeds_tail.
Qed.

Lemma proceeds_Dissolve_management in_features out_feature_class :
  proceeds (Dissolve_management fault in_features out_feature_class) []
    [{| tool := "Dissolve"; inputs := [in_features];
        outputs := [out_feature_class] |}]
    (eq out_feature_class).
Proof.
  unfold Dissolve_management. do 2 proceeds_bind_prim.
  destruct v0 as [[]|]; proceeds_tail.
Qed.

Lemma proceeds_SpatialJoin_analysis target_features join_features
  out_feature_class :
  proceeds (SpatialJoin_analysis fault target_features join_features
              out_feature_class) []
    [{| tool := "SpatialJoin"; inputs := [target_features; join_features];
        outputs := [out_feature_class] |}]
    (eq out_feature_class).
Proof.
  unfold SpatialJoin_analysis. do 3 proceeds_bind_prim.
  destruct v0 as [[]|], v1 as [[]|]; proceeds_tail.
Qed.

Lemma proceeds_JoinField_management in_data join_table :
  proceeds (JoinField_management fault in_data join_table) []
    [{| tool := "JoinField"; inputs := [in_data; join_table];
        outputs := [in_data] |}]
    (eq in_data).
Proof.
  unfold JoinField_management. do 3 proceeds_bind_prim.
  destruct v0 as [[]|], v1 as [[]|]; proceeds_tail.
Qed.

Lemma proceeds_GetCount_management in_rows :
  proceeds (GetCount_management fault in_rows) []
    [{| tool := "GetCount"; inputs := [in_rows]; outputs := [] |}]
    (fun _ => True).
Proof.
  unfold GetCount_management. do 2 proceeds_bind_prim.
  destruct v0; first [apply proceeds_raise | now apply proceeds_ret].
Qed.

Lemma proceeds_da_read in_table :
  proceeds (da_read fault in_table) [] [numpy_call in_table] (fun _ => True).
Proof.
  unfold da_read, numpy_call. do 2 proceeds_bind_prim.
  destruct v0 as [[]|]; first [apply proceeds_raise | now apply proceeds_ret].
Qed.

(** *** The program *)

Lemma proceeds_sanity_check threshold (msg : Z -> message) n :
  proceeds (if n <? threshold then logger WARNING (msg n)
            else logger DEBUG (msg n))
    [sanity_line threshold msg] [] (fun _ => True).
Proof.
  destruct (n <? threshold) eqn:E; apply proceeds_logger_as;
    exists n; now rewrite E.
Qed.

Lemma proceeds_waste_analysis building_polygons building_use
  collection_areas :
  proceeds (waste_analysis fault working_gdb building_polygons building_use
              collection_areas)
    [eq (DEBUG, Text "\nDissolving Building Polygons...");
     eq (DEBUG, Text "\nSpatially Joining Building Polygons and Waste Collection Areas...");
     sanity_line 100000 Number_of_Joined_Records]
    (waste_analysis_calls building_polygons building_use collection_areas)
    (eq (os_path_join working_gdb ["buildings_w_waste_areas_blduse"])).
Proof.
  unfold waste_analysis, waste_analysis_calls.
  proceeds_bind_prim.
  proceeds_bind_with proceeds_Dissolve_management.
  proceeds_bind_prim.
  proceeds_bind_with proceeds_SpatialJoin_analysis.
  proceeds_bind_with proceeds_JoinField_management.
  proceeds_bind_with proceeds_FeatureClassToFeatureClass_conversion.
  proceeds_bind_any proceeds_GetCount_management.
  proceeds_bind_any (proceeds_sanity_check 100000 Number_of_Joined_Records).
  now apply proceeds_ret.
Qed.

Lemma proceeds_summarize_units dwellings_table :
  proceeds (summarize_units fault dwellings_table) []
    [numpy_call dwellings_table] frames_of_a_table.
Proof.
  unfold summarize_units. proceeds_bind_any proceeds_da_read.
  do 3 proceeds_bind_prim.
  apply proceeds_ret. exists a. auto.
Qed.

Lemma proceeds_lookup_area_1 df_final :
  proceeds (lookup_area_1 df_final) [] []
    (fun _ => loc "AREA 1" df_final <> None).
Proof.
  unfold lookup_area_1. destruct (loc "AREA 1" df_final) eqn:E.
  - apply proceeds_ret. discriminate.
  - apply proceeds_raise.
Qed.

Lemma proceeds_prepare_workspace :
  proceeds (prepare_workspace fault)
    [eq (INFO, Text "Preparing Workspace...")] staging_calls
    (eq local_copies).
Proof.
  unfold prepare_workspace, staging_calls, local_copies.
  proceeds_bind_prim.
  proceeds_bind_with proceeds_CreateFileGDB_management.
  proceeds_bind_with proceeds_FeatureClassToFeatureClass_conversion.
  proceeds_bind_with proceeds_TableToTable_conversion.
  proceeds_bind_with proceeds_FeatureClassToFeatureClass_conversion.
  now apply proceeds_ret.
Qed.

Lemma proceeds_analyse_and_check :
  proceeds (analyse_and_check fault local_copies)
    analysis_log analysis_calls checked_frames.
Proof.
  unfold analyse_and_check, local_copies, analysis_log, analysis_calls,
    waste_analysis_calls.
  cbn [app].
  proceeds_bind_with proceeds_waste_analysis.
  proceeds_bind_prim.
  proceeds_bind_any proceeds_summarize_units.
  destruct a as [df_final df_summarized].
  destruct H as [t [Hf Hs]]. simpl in Hf, Hs. subst.
  proceeds_bind_any proceeds_lookup_area_1.
  proceeds_bind_any (proceeds_sanity_check 130000 Number_of_Summary_Rows).
  proceeds_bind_any (proceeds_sanity_check 30000 Number_of_Area_1_Units).
  apply proceeds_ret. exists t. auto.
Qed.

(** A report with a line for "AREA 1" comes from a summary that has a
    row. *)
Lemma area_1_line_summary_row t :
  loc "AREA 1" (df_final_of t) <> None -> df_summary_one_of t <> [].
Proof.
  rewrite df_final_loc by discriminate.
  rewrite df_by_area_loc, area_line_None. intros Hne Hnil.
  destruct (rows_in_area "AREA 1" (df_of t)) as [|r rs] eqn:E;
    [contradiction|].
  assert (Hr : In r (rows_in_area "AREA 1" (df_of t)))
    by (rewrite E; now left).
  unfold rows_in_area in Hr. apply filter_In in Hr as [Hr _].
  destruct (summary_row_present t r Hr) as [line Hl].
  rewrite Hnil in Hl. contradiction.
Qed.

Lemma export_guard_holds frames :
  checked_frames frames ->
  (0 <? Z.of_nat (List.length (snd frames))) = true.
Proof.
  intros [t [_ [Hs Ha]]]. rewrite Hs.
  apply area_1_line_summary_row in Ha.
  destruct (df_summary_one_of t); [contradiction|].
  cbn [List.length]. apply Z.ltb_lt. lia.
Qed.

Lemma proceeds_export_to_excel frames :
  checked_frames frames ->
  proceeds (export_to_excel TODAY (fst frames) (snd frames))
    [eq (DEBUG, Text "\nExported to Excel")] [] (fun _ => True).
Proof.
  intros Hc. unfold export_to_excel. rewrite (export_guard_holds _ Hc).
  proceeds_bind_prim. apply proceeds_logger.
Qed.

Lemma proceeds_try_body :
  proceeds (try_body fault TODAY local_copies) try_log analysis_calls
    (fun _ => True).
Proof.
  unfold try_body.
  eapply proceeds_bind;
    [ apply proceeds_analyse_and_check | reflexivity
    | symmetry; apply app_nil_r
    | intros frames Hfr; now apply proceeds_export_to_excel ].
Qed.

(** The staging step writes its one line before anything else and no
    line after it. *)
Lemma prepare_workspace_log w :
  log (snd (prepare_workspace fault w))
  = log w ++ [(INFO, Text "Preparing Workspace...")].
Proof.
  destruct (proceeds_prepare_workspace w) as (l & c & El & _ & R).
  rewrite El. f_equal.
  assert (Hb : begins [eq (INFO, Text "Preparing Workspace...")] l).
  { destruct (fst (prepare_workspace fault w)); [|tauto].
    destruct R as [R _]. exists [eq (INFO, Text "Preparing Workspace...")], [].
    split; [reflexivity | exact R]. }
  destruct Hb as (d & r & E & Hal).
  destruct d as [|p d].
  - exfalso. apply along_nil in Hal. subst l.
    rewrite app_nil_r in El.
    unfold prepare_workspace in El. rewrite bind_logger in El.
    assert (Hk : exists more,
               log w
               = log (add_line (INFO, Text "Preparing Workspace...") w)
                 ++ more).
    { rewrite <- El.
      match goal with
      | |- exists more, log (snd (?m ?w0)) = _ =>
          assert (Hp : proceeds m [] staging_calls (eq local_copies))
      end.
      { unfold staging_calls, local_copies.
        proceeds_bind_with proceeds_CreateFileGDB_management.
        proceeds_bind_with proceeds_FeatureClassToFeatureClass_conversion.
        proceeds_bind_with proceeds_TableToTable_conversion.
        proceeds_bind_with proceeds_FeatureClassToFeatureClass_conversion.
        now apply proceeds_ret. }
      destruct (Hp (add_line (INFO, Text "Preparing Workspace...") w))
        as (l' & c' & El' & _).
      exists l'. exact El'. }
    destruct Hk as [more Hk].
    cbn [log add_line] in Hk. rewrite <- app_assoc in Hk.
    rewrite <- (app_nil_r (log w)) in Hk at 1.
    apply app_inv_head in Hk. discriminate.
  - injection E as <- E. symmetry in E. apply app_eq_nil in E as [-> ->].
    inversion Hal as [|? x ? ? Hx Hrest]; subst.
    apply along_nil in Hrest. now subst.
Qed.

Lemma run_log_no_error :
  Forall (fun p : level * message -> Prop =>
            forall l, p l -> fst l <> ERROR) run_log.
Proof.
  unfold run_log, try_log, analysis_log. cbn [app].
  repeat constructor;
    first [ intros l <-; discriminate
          | intros l [n ->]; cbn [fst]; destruct (n <? _); discriminate ].
Qed.

(** X11.  In every run the engine is called along the fixed sequence of
    the program (the four staging calls, then Dissolve, SpatialJoin,
    JoinField, the export of the joined features, GetCount and the read
    into the array), from its start and without a gap: no call is
    skipped, repeated or made out of order.  When the [try] body runs to
    its end, all ten calls have been made. *)
Theorem engine_calls_follow_the_program (w : world) :
  exists calls rest,
    history (snd (main fault TODAY w)) = history w ++ calls
    /\ main_calls = calls ++ rest
    /\ (forall locals w1 u w2,
          prepare_workspace fault w = (Ok locals, w1) ->
          try_body fault TODAY locals w1 = (Ok u, w2) ->
          calls = main_calls).
Proof.
  destruct (proceeds_prepare_workspace w) as (l1 & c1 & _ & Ec1 & R1).
  unfold main.
  destruct (prepare_workspace fault w) as [[locals|e] w1] eqn:Ep;
    cbn [fst snd] in *.
  - destruct R1 as (_ & -> & <-).
    rewrite (bind_Ok _ _ _ _ _ Ep).
    destruct (proceeds_try_body w1) as (l2 & c2 & _ & Ec2 & R2).
    destruct (try_body fault TODAY local_copies w1) as [[u|e] w2] eqn:Et;
      cbn [fst snd] in *.
    + rewrite (try_except_Ok _ _ _ _ Et). destruct R2 as (_ & -> & _).
      exists main_calls, []. cbn [snd]. rewrite Ec2, Ec1, <- app_assoc.
      split; [reflexivity|]. split; [now rewrite app_nil_r|].
      intros; reflexivity.
    + rewrite (try_except_Raise _ _ _ _ Et), logger_error_line.
      destruct R2 as (_ & rest & Hrest).
      exists (staging_calls ++ c2), rest. cbn [snd history add_line].
      rewrite Ec2, Ec1, <- app_assoc.
      split; [reflexivity|].
      split; [unfold main_calls; now rewrite Hrest, app_assoc|].
      intros locals' w1' u w2' [= <- <-] Et'.
      rewrite Et in Et'. discriminate.
  - rewrite (bind_Raise _ _ _ _ _ Ep).
    destruct R1 as (_ & rest & Hrest).
    exists c1, (rest ++ analysis_calls). cbn [snd].
    split; [exact Ec1|].
    split; [unfold main_calls; now rewrite Hrest, app_assoc|].
    intros; discriminate.
Qed.

(** X12.  The log of every run starts with the line "Preparing
    Workspace..." and goes on along the fixed sequence of the program's
    lines without a gap; it holds at most one error line, and an error
    line is the last line of the log. *)
Theorem log_follows_the_program (w : world) :
  exists lines,
    log (snd (main fault TODAY w)) = log w ++ lines
    /\ hd_error lines = Some (INFO, Text "Preparing Workspace...")
    /\ ((begins run_log lines
         /\ forall l, In l lines -> fst l <> ERROR)
        \/ exists before e,
             lines = before ++ [error_line e]
             /\ begins run_log before
             /\ forall l, In l before -> fst l <> ERROR).
Proof.
  pose proof (prepare_workspace_log w) as El1.
  destruct (proceeds_prepare_workspace w) as (l1 & c1 & _ & _ & R1).
  unfold main.
  destruct (prepare_workspace fault w) as [[locals|e] w1] eqn:Ep;
    cbn [fst snd] in *.
  - destruct R1 as (_ & _ & <-).
    rewrite (bind_Ok _ _ _ _ _ Ep).
    destruct (proceeds_try_body w1) as (l2 & c2 & El2 & _ & R2).
    assert (H1 : along [eq (INFO, Text "Preparing Workspace...")]
                       [(INFO, Text "Preparing Workspace...")])
      by (repeat constructor).
    destruct (try_body fault TODAY local_copies w1) as [[u|e] w2] eqn:Et;
      cbn [fst snd] in *.
    + rewrite (try_except_Ok _ _ _ _ Et). destruct R2 as (Al & _).
      exists ((INFO, Text "Preparing Workspace...") :: l2). cbn [snd].
      rewrite El2, El1, <- app_assoc.
      split; [reflexivity|]. split; [reflexivity|]. left.
      assert (Hb : begins run_log
                     ((INFO, Text "Preparing Workspace...") :: l2)).
      { exists run_log, []. split; [now rewrite app_nil_r|].
        constructor; [reflexivity | exact Al]. }
      split; [exact Hb|].
      apply Forall_forall, (begins_Forall _ _ _ run_log_no_error Hb).
    + rewrite (try_except_Raise _ _ _ _ Et), logger_error_line.
      destruct R2 as (Bl & _).
      exists (((INFO, Text "Preparing Workspace...") :: l2)
              ++ [error_line e]).
      cbn [snd log add_line]. rewrite El2, El1, <- !app_assoc.
      split; [reflexivity|]. split; [reflexivity|]. right.
      exists ((INFO, Text "Preparing Workspace...") :: l2), e.
      split; [reflexivity|].
      assert (Hb : begins run_log
                     ((INFO, Text "Preparing Workspace...") :: l2))
        by (apply (begins_app [eq (INFO, Text "Preparing Workspace...")]
                     try_log [(INFO, Text "Preparing Workspace...")] l2 H1 Bl)).
      split; [exact Hb|].
      apply Forall_forall, (begins_Forall _ _ _ run_log_no_error Hb).
  - rewrite (bind_Raise _ _ _ _ _ Ep).
    exists [(INFO, Text "Preparing Workspace...")]. cbn [snd].
    split; [exact El1|]. split; [reflexivity|]. left.
    assert (Hb : begins run_log [(INFO, Text "Preparing Workspace...")]).
    { exists [eq (INFO, Text "Preparing Workspace...")], try_log.
      split; [reflexivity | repeat constructor]. }
    split; [exact Hb|].
    apply Forall_forall, (begins_Forall _ _ _ run_log_no_error Hb).
Qed.

(** X13.  Once the sanity checks have been passed, the summary has a row:
    the guard of the Excel export holds whenever it is evaluated, so a run
    that gets there always writes the workbook and the line "Exported to
    Excel", and ends normally. *)
Theorem workbook_is_written_once_checks_pass (w : world)
  locals w1 df_final df_summarized w2 :
  prepare_workspace fault w = (Ok locals, w1) ->
  analyse_and_check fault locals w1 = (Ok (df_final, df_summarized), w2) ->
  df_summarized <> []
  /\ (0 <? Z.of_nat (List.length df_summarized)) = true
  /\ main fault TODAY w
     = (Ok tt,
        add_line (DEBUG, Text "\nExported to Excel")
          (add_file (report TODAY df_final df_summarized) w2)).
Proof.
  intros Hp Ha.
  destruct (prepare_workspace_inv fault w locals w1 Hp) as [-> _].
  destruct (analyse_and_check_inv fault _ _ _ _ Ha) as (t & -> & -> & Hl & _).
  pose proof (area_1_line_summary_row t Hl) as Hne.
  split; [exact Hne|]. split.
  - destruct (df_summary_one_of t); [contradiction|].
    cbn [List.length]. apply Z.ltb_lt. lia.
  - unfold main. rewrite (bind_Ok _ _ _ _ _ Hp).
    apply try_except_Ok. unfold try_body.
    rewrite (bind_Ok _ _ _ _ _ Ha). cbn [fst snd].
    rewrite export_to_excel_run.
    destruct (df_summary_one_of t); [contradiction | reflexivity].
Qed.

(** *** The files of a run *)





End RunOrder.

Lemma workbook_is_written_once_checks_pass_witness :
  prepare_workspace no_fault grid_world
  = (Ok local_copies,
     after_staging grid_buildings grid_use grid_areas grid_world)
  /\ df_summary_one_of (pipeline_table grid_buildings grid_use grid_areas)
     <> [].
Proof.
  pose proof (prepare_workspace_run no_fault grid_buildings grid_use
                grid_areas grid_world no_fault_staging_runs
                (sde_with_sources grid_areas)) as Hp.
  split; [exact Hp|].
  destruct (workbook_is_written_once_checks_pass no_fault "11032026"
              grid_world _ _ _ _ _ Hp
              (analyse_and_check_run no_fault grid_buildings grid_use
                 grid_areas _ _ no_fault_analysis_runs eq_refl
                 (copies_present_after_staging _ _ _ _) grid_area_1))
    as (H & _).
  exact H.
Defined.

(** * The report, end to end *)

Section EndToEnd.
Context {G : Geometry}.

(** The row of the table for a dissolved building. *)
Lemma pipeline_table_map bs us cs :
  pipeline_table bs us cs
  = map (fun d => {| t_BL_ID := bp_BL_ID d;
                     t_COLL_AREA := area_of cs d;
                     t_DWEL_UNITS := first_use (bp_BL_ID d) us |})
        (filter (assigned_to cs None) (Dissolve bs)).
Proof.
  unfold pipeline_table, waste_analysis_table, JoinField, SpatialJoin.
  rewrite (filter_map_swap _ (fun r => Join_Count_gt_0 (joined r))).
  cbn [joined].
  rewrite (filter_map_swap (join_one_to_one cs) Join_Count_gt_0).
  rewrite !map_map.
  rewrite (filter_ext _ (assigned_to cs None)).
  - apply map_ext. intros d. unfold dataframe_columns, join_one_to_one.
    cbn [joined sj_BL_ID sj_COLL_AREA jf_DWEL_UNITS].
    now rewrite hd_error_filter.
  - intros d. unfold Join_Count_gt_0, join_one_to_one. cbn [Join_Count].
    unfold assigned_to, area_of.
    destruct (first_area (bp_SHAPE d) cs) as [c|] eqn:E; cbn [option_map].
    + apply Join_Count_gt_0_first_area. now exists c.
    + destruct (0 <? _) eqn:E0; [|reflexivity].
      apply Join_Count_gt_0_first_area in E0 as [c Hc]. congruence.
Qed.

Lemma filter_filter {A} (p q : A -> bool) l :
  filter p (filter q l) = filter (fun x => q x && p x) l.
Proof.
  induction l as [|x l IH]; simpl; [reflexivity|].
  destruct (q x); simpl; [destruct (p x)|]; now rewrite IH.
Qed.

(** The rows that pass the query in area [a] (in any area for [None])
    are the rows of the counted buildings. *)
Lemma pipeline_rows_counted bs us cs a :
  filter (fun r => match a with
                   | Some a => String.eqb (COLL_AREA r) a
                   | None => true
                   end)
         (query_le6 (df_of (pipeline_table bs us cs)))
  = map (fun d => null_value
                    {| t_BL_ID := bp_BL_ID d;
                       t_COLL_AREA := area_of cs d;
                       t_DWEL_UNITS := first_use (bp_BL_ID d) us |})
        (counted_buildings bs us cs a).
Proof.
  rewrite pipeline_table_map.
  unfold df_of, FeatureClassToNumPyArray, query_le6, counted_buildings.
  rewrite map_map, !filter_map_swap, !filter_filter. f_equal.
  apply filter_ext. intros d.
  rewrite null_value_units. cbn [t_DWEL_UNITS]. fold (units_of us d).
  unfold assigned_to, null_value. cbn [COLL_AREA t_COLL_AREA].
  destruct (area_of cs d) as [n|]; [|reflexivity].
  destruct a; cbn [andb]; [apply andb_comm | now rewrite andb_true_r].
Qed.

Lemma pipeline_rows_counted_all bs us cs :
  query_le6 (df_of (pipeline_table bs us cs))
  = map (fun d => null_value
                    {| t_BL_ID := bp_BL_ID d;
                       t_COLL_AREA := area_of cs d;
                       t_DWEL_UNITS := first_use (bp_BL_ID d) us |})
        (counted_buildings bs us cs None).
Proof.
  rewrite <- (pipeline_rows_counted bs us cs None).
  symmetry. apply forallb_filter_id, forallb_forall. reflexivity.
Qed.

Lemma area_line_map {A} (f : A -> df_row) ds :
  area_line (map f ds)
  = match ds with
    | [] => None
    | _ =>
        Some {| SUM_of_DWELLING_UNITS := sumZ (map DWEL_UNITS (map f ds));
                BL_ID_COUNT :=
                  Z.of_nat
                    (List.length (nodup Z.eq_dec (map BL_ID (map f ds)))) |}
    end.
Proof. destruct ds; reflexivity. Qed.

Lemma counted_buildings_NoDup bs us cs a :
  NoDup (map bp_BL_ID (counted_buildings bs us cs a)).
Proof. apply NoDup_map_filter, Dissolve_NoDup. Qed.

(** X15.  The whole computation, from the three sources to the report:
    with the buildings dissolved by identifier, each assigned to the
    first collection area it intersects and given the units of its first
    use record (none or NULL counting as zero), the line of an area holds
    the units and the number of the buildings assigned to it that have at
    most six units, an area without such a building has no line, and the
    "TOTAL" row holds the units and the number of all such buildings:
    every building is counted once, in one area. *)
Theorem report_end_to_end (bs : list building_polygon)
  (us : list building_use) (cs : list waste_coll_area) :
  let t := pipeline_table bs us cs in
  (forall a,
     loc a (df_by_area_of t)
     = match counted_buildings bs us cs (Some a) with
       | [] => None
       | ds => Some (line_of_buildings us ds)
       end)
  /\ (forall a,
        a <> "TOTAL" -> a <> "COLL_AREA" -> a <> "COLLECTION AREA" ->
        loc a (df_final_of t)
        = match counted_buildings bs us cs (Some a) with
          | [] => None
          | ds => Some (line_of_buildings us ds)
          end)
  /\ loc "TOTAL" (df_final_of t)
     = Some (line_of_buildings us (counted_buildings bs us cs None)).
Proof.
  intros t.
  assert (Hline : forall a,
            loc a (df_by_area_of t)
            = match counted_buildings bs us cs (Some a) with
              | [] => None
              | ds => Some (line_of_buildings us ds)
              end).
  { intros a. rewrite df_by_area_loc. unfold rows_in_area. subst t.
    rewrite (pipeline_rows_counted bs us cs (Some a)).
    pose proof (counted_buildings_NoDup bs us cs (Some a)) as Hnd.
    rewrite area_line_map.
    destruct (counted_buildings bs us cs (Some a)) as [|d ds] eqn:E;
      [reflexivity|].
    rewrite <- E in *. unfold line_of_buildings. f_equal. f_equal.
    - rewrite map_map. reflexivity.
    - f_equal. rewrite map_map. cbn [BL_ID null_value t_BL_ID].
      rewrite nodup_fixed_point by exact Hnd.
      now rewrite length_map. }
  split; [exact Hline|]. split.
  - intros a H1 H2 H3. rewrite df_final_loc by assumption. apply Hline.
  - unfold df_final_of. rewrite loc_rename_index by discriminate.
    rewrite loc_loc_set_same. f_equal.
    pose proof (frame_sum_units t) as Hs.
    pose proof (frame_sum_count t) as Hc.
    destruct (frame_sum (df_by_area_of t)) as [s c].
    cbn [SUM_of_DWELLING_UNITS BL_ID_COUNT] in Hs, Hc.
    unfold line_of_buildings. subst s c t. f_equal.
    + rewrite pipeline_rows_counted_all, map_map. reflexivity.
    + f_equal. unfold df_summary_one_of, groupby_case_fields.
      rewrite length_map.
      rewrite <- (Permutation_length (sort_values_perm key_leb _)).
      rewrite nodup_fixed_point by apply pipeline_keys_NoDup.
      now rewrite pipeline_rows_counted_all, !length_map.
Qed.

End EndToEnd.
